(** * Blade generator and pump assembly: a shallow embedding

    This development embeds the geometry code of
    [BladeOptimizerLFR/BladeGenerator.py] and [BladeOptimizerLFR/Assembly.py]
    and settles properties of its specification against it.

    Numbers.  The Python code computes on IEEE doubles through numpy.  A
    finite double is idealised here as the real number it stands for (no
    rounding, no overflow, no underflow), and numpy's non-finite results
    are kept: [0.0 ** negative] is [inf], [inf * 0.0] and [0.0 / 0.0] are
    [nan], a negative base under a non-integer exponent is [nan].  Signed
    zeros are not distinguished (a zero is [+0.0]).  Where a statement
    needs a computed quantity to stay away from zero, its hypotheses bound
    the parameters so that the doubles stay away from it too.

    Library calls.  [trimesh] and [pyvista] are not part of the repository.
    A mesh is therefore the tree of library calls that builds it, with the
    vertex and face arrays the repository computes at its leaves: it
    records what the repository hands to the library, not what the library
    makes of it, and not whether the library accepts it.  Statements about
    the solid and the assembled meshes are therefore about the arrays
    handed over, or are conditional on the library calls returning. *)

From Stdlib Require Import Reals Lra Lia List ZArith String Bool.
Import ListNotations.

Open Scope R_scope.

(** ** numpy floats *)

Module NumPy.

Inductive npfloat : Type :=
| Fin (r : R)
| PInf
| NInf
| NaN.

Definition Rltb (x y : R) : bool := if Rlt_dec x y then true else false.
Definition Rleb (x y : R) : bool := if Rle_dec x y then true else false.
Definition Reqb (x y : R) : bool := if Req_dec_T x y then true else false.

Definition is_integer (y : R) : bool := Reqb (frac_part y) 0.
Definition is_odd_integer (y : R) : bool :=
  is_integer y && Z.odd (Int_part y).

Definition fneg (u : npfloat) : npfloat :=
  match u with
  | Fin a => Fin (- a)
  | PInf => NInf
  | NInf => PInf
  | NaN => NaN
  end.

Definition fadd (u v : npfloat) : npfloat :=
  match u, v with
  | NaN, _ | _, NaN => NaN
  | Fin a, Fin b => Fin (a + b)
  | PInf, NInf | NInf, PInf => NaN
  | PInf, _ | _, PInf => PInf
  | NInf, _ | _, NInf => NInf
  end.

Definition fsub (u v : npfloat) : npfloat := fadd u (fneg v).

(** [inf] times a finite number: the sign of the product, [nan] at zero. *)
Definition inf_times (positive : bool) (a : R) : npfloat :=
  if Rltb 0 a then (if positive then PInf else NInf)
  else if Rltb a 0 then (if positive then NInf else PInf)
  else NaN.

Definition fmul (u v : npfloat) : npfloat :=
  match u, v with
  | NaN, _ | _, NaN => NaN
  | Fin a, Fin b => Fin (a * b)
  | Fin a, PInf | PInf, Fin a => inf_times true a
  | Fin a, NInf | NInf, Fin a => inf_times false a
  | PInf, PInf | NInf, NInf => PInf
  | PInf, NInf | NInf, PInf => NInf
  end.

Definition fdiv (u v : npfloat) : npfloat :=
  match u, v with
  | NaN, _ | _, NaN => NaN
  | Fin a, Fin b =>
      if Reqb b 0 then
        (if Reqb a 0 then NaN else if Rltb 0 a then PInf else NInf)
      else Fin (a / b)
  | Fin _, PInf | Fin _, NInf => Fin 0
  | PInf, Fin b => if Rltb b 0 then NInf else PInf
  | NInf, Fin b => if Rltb b 0 then PInf else NInf
  | PInf, PInf | PInf, NInf | NInf, PInf | NInf, NInf => NaN
  end.

(** [x ** y] on finite operands. *)
Definition pow_finite (x y : R) : npfloat :=
  if Reqb y 0 then Fin 1
  else if Rltb 0 x then Fin (Rpower x y)
  else if Reqb x 0 then (if Rltb 0 y then Fin 0 else PInf)
  else if is_integer y then Fin (powerRZ x (Int_part y))
  else NaN.

(** [u ** y] for a finite exponent [y]. *)
Definition np_power (u : npfloat) (y : R) : npfloat :=
  match u with
  | Fin x => pow_finite x y
  | PInf => if Reqb y 0 then Fin 1 else if Rltb 0 y then PInf else Fin 0
  | NInf =>
      if Reqb y 0 then Fin 1
      else if Rltb y 0 then Fin 0
      else if is_odd_integer y then NInf else PInf
  | NaN => if Reqb y 0 then Fin 1 else NaN
  end.

(** IEEE comparisons: every comparison with [nan] is false. *)
Definition fltb (u v : npfloat) : bool :=
  match u, v with
  | NaN, _ | _, NaN => false
  | Fin a, Fin b => Rltb a b
  | NInf, NInf | PInf, _ => false
  | NInf, _ | Fin _, PInf => true
  | Fin _, NInf => false
  end.

Definition feqb (u v : npfloat) : bool :=
  match u, v with
  | Fin a, Fin b => Reqb a b
  | PInf, PInf | NInf, NInf => true
  | _, _ => false
  end.

Definition fleb (u v : npfloat) : bool := fltb u v || feqb u v.

(** [np.clip(v, lo, hi)] is [minimum(maximum(v, lo), hi)]. *)
Definition clip (v lo hi : R) : R := Rmin (Rmax v lo) hi.

(** [np.maximum] / [np.minimum] of two floats propagate [nan]. *)
Definition fmax (u v : npfloat) : npfloat :=
  match u, v with
  | NaN, _ | _, NaN => NaN
  | _, _ => if fltb u v then v else u
  end.

Definition fmin (u v : npfloat) : npfloat :=
  match u, v with
  | NaN, _ | _, NaN => NaN
  | _, _ => if fltb v u then v else u
  end.

End NumPy.

Export NumPy.

Declare Scope npf_scope.
Delimit Scope npf_scope with npf.
Bind Scope npf_scope with npfloat.
Infix "+" := fadd : npf_scope.
Infix "-" := fsub : npf_scope.
Infix "*" := fmul : npf_scope.
Infix "/" := fdiv : npf_scope.
Infix "**" := np_power (at level 30, right associativity) : npf_scope.

(** ** Shape primitives ([BladeGenerator.py], lines 7-77)

    The Python functions are vectorised over [x]; each definition below is
    the computation on one element, and callers map it over the sample. *)

Definition eps : R := 1 / 1000000000.

Definition beta_distribution (x alpha : R) : npfloat :=
  let a := clip alpha eps (1 - eps) in
  let num := (Fin x ** a * Fin (1 - x) ** (1 - a))%npf in
  let den := (Fin a ** a * Fin (1 - a) ** (1 - a) + Fin eps)%npf in
  (num / den)%npf.

Definition beta_distribution_extended (x alpha kappa : R) : npfloat :=
  let a := clip alpha eps (1 - eps) in
  let num := (Fin x ** (kappa * a) * Fin (1 - x) ** (kappa * (1 - a)))%npf in
  let den := ((Fin a ** a * Fin (1 - a) ** (1 - a) + Fin eps) ** kappa)%npf in
  (num / den)%npf.

Definition thickness_distribution (x a b beta : R) : npfloat :=
  let a := clip a (1 / 10) (3 / 10) in
  let b := clip b (7 / 10) (9 / 10) in
  let '(a, b) := if Rleb a b then (a, b) else (Rmin a b, Rmax a b) in
  let tau := Fin 1 in
  let tau :=
    if Rleb x a then
      (if Rltb 0 a
       then (Fin ((1 - cos (PI * x / a)) / 2) ** beta)%npf
       else Fin 0)
    else tau in
  let tau :=
    if Rleb b x then
      (if Rltb b 1
       then (Fin ((1 + cos (PI * (x - b) / (1 - b))) / 2) ** beta)%npf
       else Fin 0)
    else tau in
  tau.

Definition tapered_thickness_distribution (x a b beta taper : R) : npfloat :=
  let base := thickness_distribution x a b beta in
  (base * Fin (1 - taper * x))%npf.

(** The transition points [thickness_distribution] works with, after its
    two [np.clip] calls. *)
Definition clamped_a (a : R) : R := clip a (1 / 10) (3 / 10).
Definition clamped_b (b : R) : R := clip b (7 / 10) (9 / 10).

(** ** Exceptions and the blade state *)

(** The messages of the [ValueError]s the code can raise: numpy's own, and
    the three f-strings and literals of [Assembly.py]. *)
Inductive value_error : Type :=
| need_at_least_one_array
    (* np.vstack / np.hstack of an empty list *)
| negative_samples (num : Z)
    (* np.linspace: Number of samples, num, must be non-negative. *)
| zero_size_reduction
    (* max / min of an empty array *)
| cannot_reshape (size : nat)
    (* reshape(-1, 4) of an array whose size 4 does not divide *)
| height_less_than_span (height : R) (z_blade_span : npfloat)
    (* Provided cylinder height ... is less than blade span ... *)
| bad_hemisphere_position
    (* position must be 'bottom' or 'top' for hemisphere *)
| bad_position
    (* position must be 'bottom' or 'top' *)
| unknown_diffuser_shape (shape : string).
    (* Unknown diffuser shape ... *)

Inductive exn : Type :=
| ValueError (msg : value_error)
| ZeroDivisionError
| AttributeError
| TypeError
| IndexError.

Inductive outcome (A : Type) : Type :=
| Ok (a : A)
| Raise (e : exn).
Arguments Ok {A} a.
Arguments Raise {A} e.

Definition vertex : Type := npfloat * npfloat * npfloat.

Definition vertex_z (v : vertex) : npfloat := snd v.

(** One entry of [span_layers]: a dict with the seven keys
    [generate_surface] reads unconditionally, and the optional ones
    ([prm.get], ['radius' in li]). *)
Record Layer : Type := {
  layer_theta0 : R;
  layer_h_max : R;
  layer_t_max : R;
  layer_alpha : R;
  layer_a : R;
  layer_b : R;
  layer_beta : R;
  layer_mode : option string;
  layer_kappa : option R;
  layer_taper : option R;
  layer_radius : option R
}.

(** A [Blade3D] object.  [z_coords] is the attribute that
    [assemble_blades_on_cylinder] attaches on first use: [None] stands for
    [hasattr(blade, "z_coords")] being false. *)
Record Blade3D : Type := {
  layers : list Layer;
  Theta : R;
  H : R;
  z0 : R;
  hub_radius : R;
  shroud_radius : R;
  vertices_upper : option (list vertex);
  vertices_lower : option (list vertex);
  vertices_center : option (list vertex);
  faces_upper : option (list Z);
  faces_lower : option (list Z);
  faces_center : option (list Z);
  z_coords : option (list npfloat)
}.

(** [Blade3D.__init__] *)
Definition Blade3D_init (span_layers : list Layer)
    (Theta H z0 hub_radius shroud_radius : R) : Blade3D :=
  {| layers := span_layers; Theta := Theta; H := H; z0 := z0;
     hub_radius := hub_radius; shroud_radius := shroud_radius;
     vertices_upper := None; vertices_lower := None; vertices_center := None;
     faces_upper := None; faces_lower := None; faces_center := None;
     z_coords := None |}.

Definition set_vertices_upper (v : list vertex) (s : Blade3D) : Blade3D :=
  {| layers := layers s; Theta := Theta s; H := H s; z0 := z0 s;
     hub_radius := hub_radius s; shroud_radius := shroud_radius s;
     vertices_upper := Some v; vertices_lower := vertices_lower s;
     vertices_center := vertices_center s;
     faces_upper := faces_upper s; faces_lower := faces_lower s;
     faces_center := faces_center s; z_coords := z_coords s |}.

Definition set_vertices_lower (v : list vertex) (s : Blade3D) : Blade3D :=
  {| layers := layers s; Theta := Theta s; H := H s; z0 := z0 s;
     hub_radius := hub_radius s; shroud_radius := shroud_radius s;
     vertices_upper := vertices_upper s; vertices_lower := Some v;
     vertices_center := vertices_center s;
     faces_upper := faces_upper s; faces_lower := faces_lower s;
     faces_center := faces_center s; z_coords := z_coords s |}.

Definition set_vertices_center (v : list vertex) (s : Blade3D) : Blade3D :=
  {| layers := layers s; Theta := Theta s; H := H s; z0 := z0 s;
     hub_radius := hub_radius s; shroud_radius := shroud_radius s;
     vertices_upper := vertices_upper s; vertices_lower := vertices_lower s;
     vertices_center := Some v;
     faces_upper := faces_upper s; faces_lower := faces_lower s;
     faces_center := faces_center s; z_coords := z_coords s |}.

Definition set_faces_upper (f : list Z) (s : Blade3D) : Blade3D :=
  {| layers := layers s; Theta := Theta s; H := H s; z0 := z0 s;
     hub_radius := hub_radius s; shroud_radius := shroud_radius s;
     vertices_upper := vertices_upper s; vertices_lower := vertices_lower s;
     vertices_center := vertices_center s;
     faces_upper := Some f; faces_lower := faces_lower s;
     faces_center := faces_center s; z_coords := z_coords s |}.

Definition set_faces_lower (f : list Z) (s : Blade3D) : Blade3D :=
  {| layers := layers s; Theta := Theta s; H := H s; z0 := z0 s;
     hub_radius := hub_radius s; shroud_radius := shroud_radius s;
     vertices_upper := vertices_upper s; vertices_lower := vertices_lower s;
     vertices_center := vertices_center s;
     faces_upper := faces_upper s; faces_lower := Some f;
     faces_center := faces_center s; z_coords := z_coords s |}.

Definition set_faces_center (f : list Z) (s : Blade3D) : Blade3D :=
  {| layers := layers s; Theta := Theta s; H := H s; z0 := z0 s;
     hub_radius := hub_radius s; shroud_radius := shroud_radius s;
     vertices_upper := vertices_upper s; vertices_lower := vertices_lower s;
     vertices_center := vertices_center s;
     faces_upper := faces_upper s; faces_lower := faces_lower s;
     faces_center := Some f; z_coords := z_coords s |}.

Definition set_z_coords (z : list npfloat) (s : Blade3D) : Blade3D :=
  {| layers := layers s; Theta := Theta s; H := H s; z0 := z0 s;
     hub_radius := hub_radius s; shroud_radius := shroud_radius s;
     vertices_upper := vertices_upper s; vertices_lower := vertices_lower s;
     vertices_center := vertices_center s;
     faces_upper := faces_upper s; faces_lower := faces_lower s;
     faces_center := faces_center s; z_coords := Some z |}.

(** ** Methods as state transformers

    A method body runs on the object [self], may assign attributes, and
    either returns or raises; what it assigned before raising stays. *)

Definition M (A : Type) : Type := Blade3D -> Blade3D * outcome A.

Definition ret {A} (a : A) : M A := fun s => (s, Ok a).
Definition raise {A} (e : exn) : M A := fun s => (s, Raise e).
Definition bind {A B} (m : M A) (k : A -> M B) : M B :=
  fun s =>
    match m s with
    | (s', Ok a) => k a s'
    | (s', Raise e) => (s', Raise e)
    end.
Definition get : M Blade3D := fun s => (s, Ok s).
Definition modify (f : Blade3D -> Blade3D) : M unit := fun s => (f s, Ok tt).
Definition lift {A} (o : outcome A) : M A := fun s => (s, o).

Declare Scope method_scope.
Delimit Scope method_scope with method.
Notation "x <- m ;; k" := (bind m (fun x => k))
  (at level 61, m at next level, right associativity) : method_scope.
Notation "m ;; k" := (bind m (fun _ => k))
  (at level 61, right associativity) : method_scope.

(** ** numpy array helpers *)

(** Python's [range(n)]. *)
Definition range (n : Z) : list Z := map Z.of_nat (seq 0 (Z.to_nat n)).

(** [np.linspace(start, stop, num)] with [endpoint=True]: a negative [num]
    raises; otherwise [arange(num) * step + start], the last element set to
    [stop] when [num > 1] (with a single element the multiplier is the
    whole interval). *)
Definition linspace (start stop : R) (num : Z) : outcome (list R) :=
  if (num <? 0)%Z then Raise (ValueError (negative_samples num))
  else
    let delta := stop - start in
    let step := if (1 <? num)%Z then delta / IZR (num - 1) else delta in
    Ok (map (fun i =>
               if ((1 <? num) && (i =? num - 1))%Z then stop
               else IZR i * step + start)
            (range num)).

(** [np.vstack] and [np.hstack] of a Python list of arrays. *)
Definition vstack {A} (arrays : list (list A)) : outcome (list A) :=
  match arrays with
  | [] => Raise (ValueError need_at_least_one_array)
  | _ => Ok (List.concat arrays)
  end.

Definition hstack {A} (arrays : list (list A)) : outcome (list A) :=
  match arrays with
  | [] => Raise (ValueError need_at_least_one_array)
  | _ => Ok (List.concat arrays)
  end.

(** [arr.max()] and [arr.min()]: an empty array raises, a [nan] wins. *)
Definition amax (arr : list npfloat) : outcome npfloat :=
  match arr with
  | [] => Raise (ValueError zero_size_reduction)
  | x :: xs => Ok (fold_left fmax xs x)
  end.

Definition amin (arr : list npfloat) : outcome npfloat :=
  match arr with
  | [] => Raise (ValueError zero_size_reduction)
  | x :: xs => Ok (fold_left fmin xs x)
  end.

(** Python's [len] as an [int]. *)
Definition len {A} (l : list A) : Z := Z.of_nat (List.length l).

(** [enumerate]: the elements with their indices. *)
Definition enumerate {A} (l : list A) : list (Z * A) :=
  combine (range (len l)) l.

(** ** [Blade3D] ([BladeGenerator.py], lines 81-272) *)

Definition mode_is (prm : Layer) (name : string) : bool :=
  match layer_mode prm with
  | Some m => String.eqb m name
  | None => String.eqb "basic" name
  end.

Definition get_or {A} (o : option A) (default : A) : A :=
  match o with Some v => v | None => default end.

(** [Blade3D._layer_radius(i, n)] *)
Definition _layer_radius (self : Blade3D) (li : Layer) (i n : Z) : R :=
  match layer_radius li with
  | Some r => r
  | None =>
      let w := if (n <=? 1)%Z then 0 else IZR i / IZR (n - 1) in
      (1 - w) * hub_radius self + w * shroud_radius self
  end.

(** The body of the loop over layers in [generate_surface]: the rows of
    layer [i] for the upper, lower and center clouds. *)
Definition layer_points (self : Blade3D) (xi : list R) (num_layers : Z)
    (i : Z) (prm : Layer) : list vertex * list vertex * list vertex :=
  let theta0 := layer_theta0 prm in
  let h_max := layer_h_max prm in
  let t_max := layer_t_max prm in
  let alpha := layer_alpha prm in
  let a := layer_a prm in
  let b := layer_b prm in
  let beta := layer_beta prm in
  let gamma :=
    if mode_is prm "extended" then
      let kappa := get_or (layer_kappa prm) (3 / 2) in
      fun x => beta_distribution_extended x alpha kappa
    else fun x => beta_distribution x alpha in
  let tau :=
    if mode_is prm "tapered" then
      let taper := get_or (layer_taper prm) (1 / 2) in
      fun x => tapered_thickness_distribution x a b beta taper
    else fun x => thickness_distribution x a b beta in
  let theta := fun x => theta0 + x * Theta self in
  let z_center := fun x =>
    (Fin (z0 self + x * H self) - Fin h_max * gamma x)%npf in
  let z_upper := fun x => (z_center x + Fin t_max * tau x)%npf in
  let z_lower := fun x => (z_center x - Fin t_max * tau x)%npf in
  let R := _layer_radius self prm i num_layers in
  let x_circ := fun x => Fin (cos (theta x) * R) in
  let y_circ := fun x => Fin (sin (theta x) * R) in
  (map (fun x => (x_circ x, y_circ x, z_upper x)) xi,
   map (fun x => (x_circ x, y_circ x, z_lower x)) xi,
   map (fun x => (x_circ x, y_circ x, z_center x)) xi).

(** The nested [build_faces]: one VTK quad record [4, v0, v1, v2, v3] per
    chord step and pair of adjacent layers, flattened by [np.hstack]. *)
Definition quad_rows (N num_layers : Z) : list (list Z) :=
  flat_map (fun i =>
    let base0 := (i * N)%Z in
    let base1 := ((i + 1) * N)%Z in
    map (fun j =>
           let v0 := (base0 + j)%Z in
           let v1 := (base0 + j + 1)%Z in
           let v2 := (base1 + j + 1)%Z in
           let v3 := (base1 + j)%Z in
           [4%Z; v0; v1; v2; v3])
        (range (N - 1)))
    (range (num_layers - 1)).

Definition build_faces (verts : list vertex) (N num_layers : Z)
  : outcome (list Z) :=
  hstack (quad_rows N num_layers).

Local Open Scope method_scope.

(** [Blade3D.generate_surface(points_per_chord)] *)
Definition generate_surface (points_per_chord : Z) : M unit :=
  self <- get ;;
  let num_layers := len (layers self) in
  let N := points_per_chord in
  xi <- lift (linspace 0 1 N) ;;
  let per_layer :=
    map (fun '(i, prm) => layer_points self xi num_layers i prm)
        (enumerate (layers self)) in
  let verts_upper := map (fun p => fst (fst p)) per_layer in
  let verts_lower := map (fun p => snd (fst p)) per_layer in
  let verts_center := map snd per_layer in
  vu <- lift (vstack verts_upper) ;;
  modify (set_vertices_upper vu) ;;
  vl <- lift (vstack verts_lower) ;;
  modify (set_vertices_lower vl) ;;
  vc <- lift (vstack verts_center) ;;
  modify (set_vertices_center vc) ;;
  fu <- lift (build_faces vu N num_layers) ;;
  modify (set_faces_upper fu) ;;
  fl <- lift (build_faces vl N num_layers) ;;
  modify (set_faces_lower fl) ;;
  fc <- lift (build_faces vc N num_layers) ;;
  modify (set_faces_center fc).

(** The default [points_per_chord=300]. *)
Definition default_points_per_chord : Z := 300.

(** What [generate_surface] assigns, step by step: the three stacked
    clouds for a chord sample [xi], then the three face arrays. *)
Definition per_layer_points (self : Blade3D) (xi : list R)
  : list (list vertex * list vertex * list vertex) :=
  map (fun '(i, prm) => layer_points self xi (len (layers self)) i prm)
      (enumerate (layers self)).

Definition stacked_upper (self : Blade3D) (xi : list R) : list vertex :=
  List.concat (map (fun p => fst (fst p)) (per_layer_points self xi)).
Definition stacked_lower (self : Blade3D) (xi : list R) : list vertex :=
  List.concat (map (fun p => snd (fst p)) (per_layer_points self xi)).
Definition stacked_center (self : Blade3D) (xi : list R) : list vertex :=
  List.concat (map (@snd _ _) (per_layer_points self xi)).

Definition with_vertices (self : Blade3D) (xi : list R) : Blade3D :=
  set_vertices_center (stacked_center self xi)
    (set_vertices_lower (stacked_lower self xi)
       (set_vertices_upper (stacked_upper self xi) self)).

Definition with_faces (f : list Z) (s : Blade3D) : Blade3D :=
  set_faces_center f (set_faces_lower f (set_faces_upper f s)).

(** ** Meshes

    A [trimesh] value is only ever built by the code, never inspected: it
    is the tree of the library calls that made it. *)

#[local] Set Warnings "-register-all".

Inductive Mesh : Type :=
| Trimesh (vertices : list vertex) (faces : list (list Z))
| cylinder (radius height : R) (sections : Z)
| remove_duplicate_faces (m : Mesh)
| remove_unreferenced_vertices (m : Mesh)
| fill_holes (m : Mesh)
| copy (m : Mesh)
| apply_translation (m : Mesh) (translation : vertex)
| apply_transform (m : Mesh) (angle : R) (direction : R * R * R)
| concatenate (meshes : list Mesh).

(** The two triangles of a quad, and the three face loops of
    [_generate_solid_from_surfaces]. *)
Definition upper_triangles (N num_layers : Z) : list (list Z) :=
  flat_map (fun i =>
    let base0 := (i * N)%Z in
    let base1 := ((i + 1) * N)%Z in
    flat_map (fun j =>
           let v0 := (base0 + j)%Z in
           let v1 := (base0 + j + 1)%Z in
           let v2 := (base1 + j + 1)%Z in
           let v3 := (base1 + j)%Z in
           [[v0; v1; v2]; [v0; v2; v3]])
        (range (N - 1)))
    (range (num_layers - 1)).

Definition lower_triangles (N num_layers offset : Z) : list (list Z) :=
  flat_map (fun i =>
    let base0 := (i * N + offset)%Z in
    let base1 := ((i + 1) * N + offset)%Z in
    flat_map (fun j =>
           let v0 := (base0 + j)%Z in
           let v1 := (base0 + j + 1)%Z in
           let v2 := (base1 + j + 1)%Z in
           let v3 := (base1 + j)%Z in
           [[v0; v2; v1]; [v0; v3; v2]])
        (range (N - 1)))
    (range (num_layers - 1)).

Definition side_triangles (N num_layers offset : Z) : list (list Z) :=
  flat_map (fun i =>
    let base_upper := (i * N)%Z in
    let base_lower := (base_upper + offset)%Z in
    flat_map (fun j =>
           let v0 := (base_upper + j)%Z in
           let v1 := (base_upper + j + 1)%Z in
           let v2 := (base_lower + j + 1)%Z in
           let v3 := (base_lower + j)%Z in
           [[v0; v1; v2]; [v0; v2; v3]])
        (range (N - 1)))
    (range num_layers).

Definition mode_in (mode : string) (names : list string) : bool :=
  existsb (String.eqb mode) names.

(** An attribute that must hold an array: [None] has no [len], no
    [tolist] and no subscript. *)
Definition array_of {A} (o : option A) (e : exn) : M A :=
  match o with
  | Some v => ret v
  | None => raise e
  end.

(** [Blade3D._generate_solid_from_surfaces(mode)] *)
Definition _generate_solid_from_surfaces (mode : string) : M Mesh :=
  self <- get ;;
  match vertices_upper self with
  | None => generate_surface default_points_per_chord
  | Some _ => ret tt
  end ;;
  self <- get ;;
  let num_layers := len (layers self) in
  vu <- array_of (vertices_upper self) TypeError ;;
  N <- (if (num_layers =? 0)%Z then raise ZeroDivisionError
        else ret (len vu / num_layers)%Z) ;;
  upper <- (if mode_in mode ["upper"; "both"]%string
            then array_of (vertices_upper self) AttributeError
            else ret []) ;;
  lower <- (if mode_in mode ["lower"; "both"]%string
            then array_of (vertices_lower self) AttributeError
            else ret []) ;;
  let vertices := upper ++ lower in
  let faces_u :=
    if mode_in mode ["upper"; "both"]%string
    then upper_triangles N num_layers else [] in
  let offset := if mode_in mode ["both"]%string then len vu else 0%Z in
  let faces_l :=
    if mode_in mode ["lower"; "both"]%string
    then lower_triangles N num_layers offset else [] in
  let faces_s :=
    if String.eqb mode "both"
    then side_triangles N num_layers offset else [] in
  let faces := faces_u ++ faces_l ++ faces_s in
  let solid_mesh := Trimesh vertices faces in
  let solid_mesh := remove_duplicate_faces solid_mesh in
  let solid_mesh := remove_unreferenced_vertices solid_mesh in
  let solid_mesh := fill_holes solid_mesh in
  ret solid_mesh.

(** ** The pyvista interface

    [to_pyvista_mesh] builds pyvista data sets and
    [assemble_blades_on_cylinder] reads them back ([isinstance], [.points],
    [.faces]), so pyvista is an interface the code is parametric in. *)

Class PyVista : Type := {
  pv_DataSet : Type;
  (* pv.PolyData(points, faces) *)
  pv_PolyData : option (list vertex) -> option (list Z) -> pv_DataSet;
  (* mesh.merge(others) *)
  pv_merge : pv_DataSet -> list pv_DataSet -> pv_DataSet;
  (* isinstance(mesh, pv.PolyData) *)
  pv_is_PolyData : pv_DataSet -> bool;
  pv_points : pv_DataSet -> list vertex;
  pv_faces : pv_DataSet -> list Z
}.

(** [arr.reshape(-1, 4)]: rows of four, when four divides the size. *)
Fixpoint rows_of_4 (arr : list Z) : list (list Z) :=
  match arr with
  | a :: b :: c :: d :: rest => [a; b; c; d] :: rows_of_4 rest
  | _ => []
  end.

Definition reshape_4 (arr : list Z) : outcome (list (list Z)) :=
  if (List.length arr mod 4 =? 0)%nat then Ok (rows_of_4 arr)
  else Raise (ValueError (cannot_reshape (List.length arr))).

(** [rows[:, 1:]] *)
Definition drop_first_column (rows : list (list Z)) : list (list Z) :=
  map (@tl Z) rows.

Section WithPyVista.

Context {pv : PyVista}.

(** [Blade3D.to_pyvista_mesh(mode)] *)
Definition to_pyvista_mesh (mode : string) : M pv_DataSet :=
  self <- get ;;
  match vertices_upper self with
  | None => generate_surface default_points_per_chord
  | Some _ => ret tt
  end ;;
  self <- get ;;
  let meshes :=
    (if mode_in mode ["upper"; "both"]%string
     then [pv_PolyData (vertices_upper self) (faces_upper self)] else [])
    ++ (if mode_in mode ["lower"; "both"]%string
        then [pv_PolyData (vertices_lower self) (faces_lower self)] else [])
    ++ (if String.eqb mode "center"
        then [pv_PolyData (vertices_center self) (faces_center self)]
        else []) in
  match meshes with
  | [m] => ret m
  | m :: others => ret (pv_merge m others)
  | [] => raise IndexError
  end.

(** The loop of [assemble_blades_on_cylinder] over the blade copies.  A
    blade mesh that stayed a pyvista object has [copy] but no
    [apply_translation]. *)
Definition blade_copies (blade_mesh : Mesh + pv_DataSet) (n_blades : Z)
    (z_shift : npfloat) : outcome (list Mesh) :=
  match blade_mesh with
  | inl mesh =>
      Ok (map (fun i =>
                 let angle := 2 * PI * IZR i / IZR n_blades in
                 let shifted := copy mesh in
                 let shifted :=
                   apply_translation shifted (Fin 0, Fin 0, z_shift) in
                 apply_transform shifted angle (0, 0, 1))
              (range n_blades))
  | inr _ =>
      match range n_blades with
      | [] => Ok []
      | _ :: _ => Raise AttributeError
      end
  end.

(** The blade mesh of [assemble_blades_on_cylinder]: the solid, or the
    pyvista surface converted to a [trimesh] when it is a [PolyData]. *)
Definition blade_mesh_of (as_solid : bool) : M (Mesh + pv_DataSet) :=
  blade_mesh <-
    (if as_solid
     then (m <- _generate_solid_from_surfaces "both" ;; ret (inl m))
     else (d <- to_pyvista_mesh "both" ;; ret (inr d))) ;;
  match blade_mesh with
  | inr d =>
      if pv_is_PolyData d then
        rows <- lift (reshape_4 (pv_faces d)) ;;
        ret (inl (Trimesh (pv_points d) (drop_first_column rows)))
      else ret (inr d)
  | inl m => ret (inl m)
  end.

(** The hub cylinder, moved to its place. *)
Definition hub_cylinder (radius height z_base : R) : Mesh :=
  let cyl := cylinder radius height 128 in
  apply_translation cyl (Fin 0, Fin 0, Fin (z_base + height / 2)).

(** [assemble_blades_on_cylinder(blade, n_blades, radius, height, z_base,
    as_solid)], as a method of the blade it is given. *)
Definition assemble_blades_on_cylinder (n_blades : Z)
    (radius height z_base : R) (as_solid : bool) : M Mesh :=
  let cyl := hub_cylinder radius height z_base in
  blade_mesh <- blade_mesh_of as_solid ;;
  blade <- get ;;
  match z_coords blade with
  | Some _ => ret tt
  | None =>
      upper <- array_of (vertices_upper blade) TypeError ;;
      lower <- array_of (vertices_lower blade) TypeError ;;
      let z_all := map vertex_z upper ++ map vertex_z lower in
      modify (set_z_coords z_all)
  end ;;
  blade <- get ;;
  zs <- array_of (z_coords blade) AttributeError ;;
  z_max <- lift (amax zs) ;;
  z_min <- lift (amin zs) ;;
  let z_blade_span := (z_max - z_min)%npf in
  if fltb (Fin height) z_blade_span then
    raise (ValueError (height_less_than_span height z_blade_span))
  else
    let z_shift :=
      (Fin (z_base + height / 2) - (z_min + z_blade_span / Fin 2))%npf in
    copies <- lift (blade_copies blade_mesh n_blades z_shift) ;;
    ret (concatenate (cyl :: copies)).

(** The z-coordinates the span check reads, and the blade it leaves
    behind: the attribute [z_coords] when the blade already has one, the
    combined upper and lower cloud otherwise. *)
Definition z_coords_after (blade : Blade3D) (vu vl : list vertex)
  : list npfloat :=
  match z_coords blade with
  | Some z => z
  | None => map vertex_z vu ++ map vertex_z vl
  end.

Definition blade_after (blade : Blade3D) (vu vl : list vertex) : Blade3D :=
  match z_coords blade with
  | Some _ => blade
  | None => set_z_coords (map vertex_z vu ++ map vertex_z vl) blade
  end.

(** The span check and what follows it, for a blade mesh [bm] and the
    z-coordinates [zs]. *)
Definition span_verdict (bm : Mesh + pv_DataSet) (zs : list npfloat)
    (n_blades : Z) (radius height z_base : R) : outcome Mesh :=
  match amax zs, amin zs with
  | Ok z_max, Ok z_min =>
      let span := (z_max - z_min)%npf in
      if fltb (Fin height) span then
        Raise (ValueError (height_less_than_span height span))
      else
        match blade_copies bm n_blades
                (Fin (z_base + height / 2) - (z_min + span / Fin 2))%npf with
        | Ok copies =>
            Ok (concatenate (hub_cylinder radius height z_base :: copies))
        | Raise e => Raise e
        end
  | Raise e, _ => Raise e
  | _, Raise e => Raise e
  end.

End WithPyVista.

Local Close Scope method_scope.

(** ** Reading a VTK cell array

    [faces_upper] and its siblings are flat arrays of records
    [n, id_1, ..., id_n].  [vtk_cells] reads the records back; [fuel] bounds
    their number. *)
Fixpoint vtk_cells (fuel : nat) (arr : list Z) : list (list Z) :=
  match fuel, arr with
  | S fuel', n :: rest =>
      firstn (Z.to_nat n) rest :: vtk_cells fuel' (skipn (Z.to_nat n) rest)
  | _, _ => []
  end.

(** The vertex indices a cell array refers to. *)
Definition vtk_point_ids (arr : list Z) : list Z :=
  List.concat (vtk_cells (List.length arr) arr).

(** A record [n, id_1, ..., id_n]. *)
Definition well_formed_record (r : list Z) : Prop :=
  exists n ids, r = n :: ids /\ Z.to_nat n = List.length ids.

(** The cell array [arr] with every point id moved up by [offset]. *)
Definition shift_cells (offset : Z) (arr : list Z) : list Z :=
  List.concat
    (map (fun ids => len ids :: map (Z.add offset) ids)
         (vtk_cells (List.length arr) arr)).

(** An implementation of the interface, for closed examples.  A data set
    holds its point array and its cell array; [merge] appends the points
    and the cells of the operands, the point ids of each operand moved
    past the points that precede it.  Coincident points are kept apart, as
    with pyvista's [merge_points=False]; the size of the merged cell
    array, which is all that [reshape(-1, 4)] depends on, is the sum of the
    sizes of the operands' cell arrays, as in pyvista. *)
#[local] Instance pv_appending : PyVista := {|
  pv_DataSet := list vertex * list Z;
  pv_PolyData := fun points faces => (get_or points [], get_or faces []);
  pv_merge := fun m others =>
    fold_left
      (fun acc o =>
         (fst acc ++ fst o, snd acc ++ shift_cells (len (fst acc)) (snd o)))
      others m;
  pv_is_PolyData := fun _ => true;
  pv_points := fun m => fst m;
  pv_faces := fun m => snd m
|}.

(** ** [create_diffuser] ([Assembly.py], lines 53-148) *)

Definition obind {A B} (o : outcome A) (k : A -> outcome B) : outcome B :=
  match o with
  | Ok a => k a
  | Raise e => Raise e
  end.

Declare Scope outcome_scope.
Delimit Scope outcome_scope with outcome.
Notation "x <- m ;; k" := (obind m (fun x => k))
  (at level 61, m at next level, right associativity) : outcome_scope.

(** The triangles of a structured grid with [rows] rows of [cols] points:
    two per cell, and for the hemisphere two more per row that close the
    seam between the last and the first column. *)
Definition grid_triangles (rows cols : Z) (wrap : bool) : list (list Z) :=
  flat_map (fun i =>
    flat_map (fun j =>
        let v0 := (i * cols + j)%Z in
        let v1 := (v0 + 1)%Z in
        let v2 := ((i + 1) * cols + j + 1)%Z in
        let v3 := ((i + 1) * cols + j)%Z in
        [[v0; v1; v2]; [v0; v2; v3]])
      (range (cols - 1))
    ++ (if wrap then
          let v0 := (i * cols + (cols - 1))%Z in
          let v1 := (i * cols)%Z in
          let v2 := ((i + 1) * cols)%Z in
          let v3 := ((i + 1) * cols + (cols - 1))%Z in
          [[v0; v1; v2]; [v0; v2; v3]]
        else []))
    (range (rows - 1)).

Definition n_phi : Z := 128.
Definition n_theta : Z := 64.

(** The flattened vertex array of the hemisphere: row [i] is the polar
    angle [theta[i]], column [j] the azimuth [phi[j]]. *)
Definition hemisphere_verts (radius_base : R) (Zc : R -> R)
    (phi theta : list R) : list vertex :=
  flat_map (fun th =>
    map (fun ph =>
           (Fin (radius_base * sin th * cos ph),
            Fin (radius_base * sin th * sin ph),
            Fin (Zc th)))
        phi)
    theta.

(** The flattened vertex array of the paraboloid: row [i] is the azimuth
    [phi[i]], column [j] the radius [r[j]]. *)
Definition paraboloid_verts (Zc : R -> npfloat) (phi r : list R)
  : list vertex :=
  flat_map (fun ph =>
    map (fun rr => (Fin (rr * cos ph), Fin (rr * sin ph), Zc rr)) r)
    phi.

Local Open Scope outcome_scope.

Definition create_diffuser (shape : string)
    (radius_base radius_top height z_base : R) (position : string)
  : outcome Mesh :=
  if String.eqb shape "hemisphere" then
    phi <- linspace 0 (2 * PI) n_phi ;;
    theta <- linspace 0 (PI / 2) n_theta ;;
    Zc <-
      (if String.eqb position "bottom" then
         Ok (fun th => - radius_base * cos th + z_base + radius_base)
       else if String.eqb position "top" then
         Ok (fun th => radius_base * cos th + z_base)
       else Raise (ValueError bad_hemisphere_position)) ;;
    let verts := hemisphere_verts radius_base Zc phi theta in
    let faces := grid_triangles n_theta n_phi true in
    Ok (Trimesh verts faces)
  else if String.eqb shape "paraboloid" then
    let n := 128%Z in
    phi <- linspace 0 (2 * PI) n ;;
    r <- linspace 0 radius_base n ;;
    Zc <-
      (if String.eqb position "bottom" then
         Ok (fun rr =>
               (Fin height * (Fin rr / Fin radius_base) ** 2
                + Fin z_base)%npf)
       else if String.eqb position "top" then
         Ok (fun rr =>
               (Fin height * (Fin 1 - (Fin rr / Fin radius_base) ** 2)
                + Fin z_base)%npf)
       else Raise (ValueError bad_position)) ;;
    let verts := paraboloid_verts Zc phi r in
    let faces := grid_triangles n n false in
    Ok (Trimesh verts faces)
  else Raise (ValueError (unknown_diffuser_shape shape)).

Local Close Scope outcome_scope.

(** ** The profile of one layer

    The closures of the loop body of [generate_surface], by name: the
    camber envelope and the thickness profile the layer's mode selects, the
    camber height, the half thickness and the position in the plane. *)

Definition layer_gamma (prm : Layer) (x : R) : npfloat :=
  if mode_is prm "extended" then
    beta_distribution_extended x (layer_alpha prm)
      (get_or (layer_kappa prm) (3 / 2))
  else beta_distribution x (layer_alpha prm).

Definition layer_tau (prm : Layer) (x : R) : npfloat :=
  if mode_is prm "tapered" then
    tapered_thickness_distribution x (layer_a prm) (layer_b prm)
      (layer_beta prm) (get_or (layer_taper prm) (1 / 2))
  else thickness_distribution x (layer_a prm) (layer_b prm) (layer_beta prm).

Definition layer_z_center (self : Blade3D) (prm : Layer) (x : R) : npfloat :=
  (Fin (z0 self + x * H self) - Fin (layer_h_max prm) * layer_gamma prm x)%npf.

Definition layer_half_thickness (prm : Layer) (x : R) : npfloat :=
  (Fin (layer_t_max prm) * layer_tau prm x)%npf.

Definition layer_xy (self : Blade3D) (prm : Layer) (i : Z) (x : R)
  : npfloat * npfloat :=
  let radius := _layer_radius self prm i (len (layers self)) in
  let theta := layer_theta0 prm + x * Theta self in
  (Fin (cos theta * radius), Fin (sin theta * radius)).

(** The exponents [kappa] for which the extended envelope is evaluated
    without underflow in doubles: its denominator
    [(a^a (1-a)^(1-a) + eps) ** kappa] is at least [2 ** (-100)], and the
    exponents [kappa * a] and [kappa * (1 - a)] are positive doubles. *)
Definition kappa_in_range (prm : Layer) : Prop :=
  mode_is prm "extended" = true ->
  1 / 100 <= get_or (layer_kappa prm) (3 / 2) <= 100.

(** A layer whose parameters are in the ranges the generator is meant
    for: heights and thicknesses not negative, [beta >= 0], a [kappa] in
    range in the extended mode and a [taper] in [0,1] in the tapered
    mode. *)
Definition regular_layer (prm : Layer) : Prop :=
  0 <= layer_h_max prm /\ 0 <= layer_t_max prm /\ 0 <= layer_beta prm /\
  kappa_in_range prm /\
  (mode_is prm "tapered" = true ->
   0 <= get_or (layer_taper prm) (1 / 2) <= 1).

(** The vertices of the three clouds at one index: the shared position
    in the plane, the height [c] of the camber surface and the half
    thickness [d]. *)
Definition center_vertex (r : npfloat * npfloat * R * R) : vertex :=
  let '(xy, c, d) := r in (xy, Fin c).
Definition upper_vertex (r : npfloat * npfloat * R * R) : vertex :=
  let '(xy, c, d) := r in (xy, Fin (c + d)).
Definition lower_vertex (r : npfloat * npfloat * R * R) : vertex :=
  let '(xy, c, d) := r in (xy, Fin (c - d)).

(** ** Triangles and the post-processing of the solid *)

(** The corners of the quad between layers [i], [i+1] and chord steps
    [j], [j+1], in a block that starts at [offset]. *)
Definition quad_corner_bound (N num_layers offset v : Z) : Prop :=
  (offset <= v < offset + num_layers * N)%Z.

(** A triangle whose three indices lie in [[lo, hi)]. *)
Definition triangle_within (lo hi : Z) (f : list Z) : Prop :=
  exists a b c, f = [a; b; c] /\
    (lo <= a < hi)%Z /\ (lo <= b < hi)%Z /\ (lo <= c < hi)%Z.

(** The post-processing chain of [_generate_solid_from_surfaces]. *)
Definition post_processed (vertices : list vertex) (faces : list (list Z))
  : Mesh :=
  fill_holes
    (remove_unreferenced_vertices
       (remove_duplicate_faces (Trimesh vertices faces))).

(** ** The pump ([Assembly.py], lines 151-224)

    [assemble_pump] builds values the blade assembler does not: a cylinder
    with the library's default number of sections, and concatenations of
    finished parts. *)
Inductive PumpMesh : Type :=
| part (m : Mesh)
| default_cylinder (radius height : R)
    (* trimesh.creation.cylinder(radius=..., height=...) *)
| translated (m : PumpMesh) (translation : vertex)
| merged (meshes : list PumpMesh).

(** The messages of the [ValueError]s [assemble_pump] raises itself. *)
Inductive pump_error : Type :=
| rotor_height_less_than_span (rotor_height : R) (rotor_span : npfloat)
    (* Rotor height ... < blade span ... *)
| vane_hub_radius_mismatch
    (* Vane hub radius must equal rotor hub radius! *)
| vane_height_less_than_span (vane_height : R) (vane_span : npfloat)
    (* Vane height ... < blade span ... *)
| shaft_radius_exceeds_hub.
    (* Outlet shaft radius must not exceed hub radius! *)

Inductive pump_exn : Type :=
| Callee (e : exn)
    (* raised by a function [assemble_pump] calls *)
| PumpValueError (msg : pump_error).

Inductive pump_outcome (A : Type) : Type :=
| Returns (a : A)
| Raises (e : pump_exn).
Arguments Returns {A} a.
Arguments Raises {A} e.

Definition pbind {A B} (o : pump_outcome A) (k : A -> pump_outcome B)
  : pump_outcome B :=
  match o with
  | Returns a => k a
  | Raises e => Raises e
  end.

Definition called {A} (o : outcome A) : pump_outcome A :=
  match o with
  | Ok a => Returns a
  | Raise e => Raises (Callee e)
  end.

Declare Scope pump_scope.
Delimit Scope pump_scope with pump.
Notation "x <- m ;; k" := (pbind m (fun x => k))
  (at level 61, m at next level, right associativity) : pump_scope.

(** [np.isclose(a, b, atol=atol)] on finite numbers, with the default
    [rtol = 1e-5]. *)
Definition isclose (a b atol : R) : bool :=
  Rleb (Rabs (a - b)) (atol + 1 / 100000 * Rabs b).

(** [blade.vertices_upper[:, 2].max() - blade.vertices_lower[:, 2].min()] *)
Definition surface_span (blade : Blade3D) : outcome npfloat :=
  match vertices_upper blade with
  | None => Raise TypeError
  | Some vu =>
      obind (amax (map vertex_z vu)) (fun z_max =>
      match vertices_lower blade with
      | None => Raise TypeError
      | Some vl =>
          obind (amin (map vertex_z vl)) (fun z_min =>
          Ok (z_max - z_min)%npf)
      end)
  end.

Section Pump.

Context {pv : PyVista}.

(** [Blade3D.load_metadata(file)].  [BladeGenerator.py] defines no such
    method; the pump is parametric in it. *)
Variable load_metadata : string -> outcome Blade3D.

Local Open Scope pump_scope.
Local Open Scope string_scope.

(** [Blade3D.load_metadata(file)] followed by
    [generate_surface(points_per_chord=300)]. *)
Definition load_blade (file : string) : pump_outcome Blade3D :=
  blade <- called (load_metadata file) ;;
  let (blade, generated) := generate_surface 300 blade in
  _ <- called generated ;;
  Returns blade.

Definition assemble_pump (rotor_blade_file : string)
    (vane_blade_file : option string) (rotor_height vane_height : R)
    (n_rotor_blades n_vane_blades : Z)
    (outlet_shaft_radius outlet_shaft_length : R)
    (inlet_shape outlet_shape : string) (as_solid : bool)
  : pump_outcome (list (string * PumpMesh)) :=
  rotor_blade <- load_blade rotor_blade_file ;;
  let hub := hub_radius rotor_blade in
  rotor_span <- called (surface_span rotor_blade) ;;
  if fltb (Fin rotor_height) rotor_span then
    Raises (PumpValueError
              (rotor_height_less_than_span rotor_height rotor_span))
  else
  inlet <- called (create_diffuser inlet_shape hub hub hub (- hub)
                     "bottom") ;;
  rotor <- called (snd (assemble_blades_on_cylinder n_rotor_blades hub
                          rotor_height 0 as_solid rotor_blade)) ;;
  let current_z := rotor_height in
  vane_z <-
    match vane_blade_file with
    | None => Returns (None, current_z)
    | Some file =>
        vane_blade <- load_blade file ;;
        if negb (isclose (hub_radius vane_blade) hub (1 / 1000000)) then
          Raises (PumpValueError vane_hub_radius_mismatch)
        else
        vane_span <- called (surface_span vane_blade) ;;
        if fltb (Fin vane_height) vane_span then
          Raises (PumpValueError
                    (vane_height_less_than_span vane_height vane_span))
        else
        vane <- called (snd (assemble_blades_on_cylinder n_vane_blades
                               hub vane_height current_z as_solid
                               vane_blade)) ;;
        Returns (Some vane, current_z + vane_height)
    end ;;
  let '(vane, current_z) := vane_z in
  if Rltb hub outlet_shaft_radius then
    Raises (PumpValueError shaft_radius_exceeds_hub)
  else
  outlet_diffuser <- called (create_diffuser outlet_shape hub
                               outlet_shaft_radius hub current_z "top") ;;
  let shaft := default_cylinder outlet_shaft_radius outlet_shaft_length in
  let shaft :=
    translated shaft
      (Fin 0, Fin 0, Fin (current_z + outlet_shaft_length / 2)) in
  let outlet := merged [part outlet_diffuser; shaft] in
  let parts :=
    [("inlet", part inlet); ("rotor", part rotor); ("outlet", outlet)] in
  let parts :=
    match vane with
    | Some vane => (parts ++ [("vane", part vane)])%list
    | None => parts
    end in
  let assembly := merged (map snd parts) in
  Returns (parts ++ [("assembly", assembly)])%list.

End Pump.

(** A blade as [assemble_pump] expects it from [load_metadata], for a hub
    section of the given height: at least two layers, all regular, no
    cached [z_coords], and a height that covers the chordwise rise [H]
    plus the largest camber and twice the largest half thickness. *)
Definition fits_section (blade : Blade3D) (height : R) : Prop :=
  (2 <= len (layers blade))%Z /\ z_coords blade = None /\ 0 <= H blade /\
  exists h_bound t_bound,
    Forall (fun prm => regular_layer prm /\ layer_h_max prm <= h_bound /\
                       layer_t_max prm <= t_bound) (layers blade) /\
    H blade + h_bound + 2 * t_bound <= height.

(** ** Example blades

    A basic-mode layer with the camber peak at mid-chord, and blades of
    one and of two such layers with [Theta = 0], [H = 1], [z0 = 0],
    [hub_radius = 1] and [shroud_radius = 2]. *)

Definition flat_layer : Layer :=
  {| layer_theta0 := 0; layer_h_max := 1; layer_t_max := 1 / 10;
     layer_alpha := 1 / 2; layer_a := 1 / 5; layer_b := 4 / 5;
     layer_beta := 1; layer_mode := None; layer_kappa := None;
     layer_taper := None; layer_radius := None |}.

Definition single_layer_blade : Blade3D :=
  Blade3D_init [flat_layer] 0 1 0 1 2.

Definition demo_blade : Blade3D :=
  Blade3D_init [flat_layer; flat_layer] 0 1 0 1 2.

(** [demo_blade] after [generate_surface(2)]. *)
Definition demo_surface : Blade3D :=
  with_faces (List.concat (quad_rows 2 2)) (with_vertices demo_blade [0; 1]).

(** The heights of one chord sample of [flat_layer] on a blade with
    [z0 = 0] and [H = 1]. *)
Definition flat_z_center (x : R) : npfloat :=
  (Fin (0 + x * 1) - Fin 1 * beta_distribution x (1 / 2))%npf.
Definition flat_z_upper (x : R) : npfloat :=
  (flat_z_center x
   + Fin (1 / 10) * thickness_distribution x (1 / 5) (4 / 5) 1)%npf.
Definition flat_z_lower (x : R) : npfloat :=
  (flat_z_center x
   - Fin (1 / 10) * thickness_distribution x (1 / 5) (4 / 5) 1)%npf.

(** A loader that yields [demo_blade] for every file. *)
Definition demo_loader (file : string) : outcome Blade3D := Ok demo_blade.

(** * Properties *)

(** ** The index arithmetic on small grids *)

Example range_3 : range 3 = [0; 1; 2]%Z.
Proof. reflexivity. Qed.

Example quad_rows_3_2 :
  quad_rows 3 2 = [[4; 0; 1; 4; 3]; [4; 1; 2; 5; 4]]%Z.
Proof. reflexivity. Qed.

Example vtk_point_ids_3_2 :
  vtk_point_ids (List.concat (quad_rows 3 2)) = [0; 1; 4; 3; 1; 2; 5; 4]%Z.
Proof. reflexivity. Qed.

Example upper_triangles_2_2 :
  upper_triangles 2 2 = [[0; 1; 3]; [0; 3; 2]]%Z.
Proof. reflexivity. Qed.

Example lower_triangles_2_2 :
  lower_triangles 2 2 4 = [[4; 7; 5]; [4; 6; 7]]%Z.
Proof. reflexivity. Qed.

Example side_triangles_2_2 :
  side_triangles 2 2 4
  = [[0; 1; 5]; [0; 5; 4]; [2; 3; 7]; [2; 7; 6]]%Z.
Proof. reflexivity. Qed.

Example grid_triangles_wrap :
  grid_triangles 2 2 true = [[0; 1; 3]; [0; 3; 2]; [1; 0; 2]; [1; 2; 3]]%Z.
Proof. reflexivity. Qed.

Example reshape_one_quad :
  reshape_4 [4; 0; 1; 3; 2]%Z = Raise (ValueError (cannot_reshape 5)).
Proof. reflexivity. Qed.

(** ** Comparisons and clamping *)

Section Comparisons.

Variables x y : R.

Lemma Rltb_true : x < y -> Rltb x y = true.
Proof. unfold Rltb; destruct (Rlt_dec x y); [reflexivity | contradiction]. Qed.

Lemma Rltb_false : ~ x < y -> Rltb x y = false.
Proof. unfold Rltb; destruct (Rlt_dec x y); [contradiction | reflexivity]. Qed.

Lemma Rleb_true : x <= y -> Rleb x y = true.
Proof. unfold Rleb; destruct (Rle_dec x y); [reflexivity | contradiction]. Qed.

Lemma Rleb_false : ~ x <= y -> Rleb x y = false.
Proof. unfold Rleb; destruct (Rle_dec x y); [contradiction | reflexivity]. Qed.

Lemma Reqb_true : x = y -> Reqb x y = true.
Proof. unfold Reqb; destruct (Req_dec_T x y); [reflexivity | contradiction]. Qed.

Lemma Reqb_false : x <> y -> Reqb x y = false.
Proof. unfold Reqb; destruct (Req_dec_T x y); [contradiction | reflexivity]. Qed.

End Comparisons.

Lemma clip_id v lo hi : lo <= v <= hi -> clip v lo hi = v.
Proof.
  intros [Hlo Hhi]. unfold clip.
  rewrite Rmax_left by assumption. apply Rmin_left; assumption.
Qed.

Lemma clip_range v lo hi : lo <= hi -> lo <= clip v lo hi <= hi.
Proof.
  intros Hle. unfold clip, Rmin, Rmax.
  destruct (Rle_dec v lo); destruct (Rle_dec _ hi); lra.
Qed.

Lemma feqb_refl_fin t : feqb (Fin t) (Fin t) = true.
Proof. cbn. now apply Reqb_true. Qed.

Lemma fleb_fin s t : s <= t -> fleb (Fin s) (Fin t) = true.
Proof.
  intros [Hlt | Heq]; unfold fleb; cbn.
  - now rewrite Rltb_true.
  - rewrite (Reqb_true _ _ Heq). apply orb_true_r.
Qed.

Lemma fmax_fin a b : fmax (Fin a) (Fin b) = Fin (Rmax a b).
Proof.
  unfold fmax, fltb, Rltb, Rmax.
  destruct (Rlt_dec a b), (Rle_dec a b);
    try reflexivity; try (f_equal; lra); exfalso; lra.
Qed.

Lemma fmin_fin a b : fmin (Fin a) (Fin b) = Fin (Rmin a b).
Proof.
  unfold fmin, fltb, Rltb, Rmin.
  destruct (Rlt_dec b a), (Rle_dec a b);
    try reflexivity; try (f_equal; lra); exfalso; lra.
Qed.

(** Nested maxima and minima of numerals, innermost first. *)
Ltac eval_extrema :=
  repeat match goal with
  | |- context [Rmax ?a ?b] =>
      first [rewrite (Rmax_left a b) by lra | rewrite (Rmax_right a b) by lra]
  | |- context [Rmin ?a ?b] =>
      first [rewrite (Rmin_left a b) by lra | rewrite (Rmin_right a b) by lra]
  end.

(** ** Powers *)

Lemma Rpower_base_1 y : Rpower 1 y = 1.
Proof. unfold Rpower. rewrite ln_1, Rmult_0_r. apply exp_0. Qed.

Lemma Rpower_pos x y : 0 < Rpower x y.
Proof. unfold Rpower. apply exp_pos. Qed.

Lemma pow_finite_pos x y : 0 < x -> pow_finite x y = Fin (Rpower x y).
Proof.
  intros Hx. unfold pow_finite, Reqb.
  destruct (Req_dec_T y 0) as [-> | _].
  - now rewrite Rpower_O.
  - now rewrite Rltb_true.
Qed.

Lemma pow_finite_zero y : 0 < y -> pow_finite 0 y = Fin 0.
Proof.
  intros Hy. unfold pow_finite.
  rewrite Reqb_false by lra. rewrite Rltb_false by lra.
  rewrite Reqb_true by reflexivity. now rewrite Rltb_true.
Qed.

Lemma pow_finite_zero_neg y : y < 0 -> pow_finite 0 y = PInf.
Proof.
  intros Hy. unfold pow_finite.
  rewrite Reqb_false by lra. rewrite Rltb_false by lra.
  rewrite Reqb_true by reflexivity. now rewrite Rltb_false by lra.
Qed.

Lemma pow_finite_one y : pow_finite 1 y = Fin 1.
Proof. rewrite pow_finite_pos by lra. now rewrite Rpower_base_1. Qed.

Lemma pow_finite_exp_0 x : pow_finite x 0 = Fin 1.
Proof. unfold pow_finite. now rewrite Reqb_true. Qed.

(** A non-negative base gives a non-negative number, or [inf] for a zero
    base under a negative exponent; never [nan]. *)
Lemma pow_finite_nonneg_base x y :
  0 <= x ->
  (exists t, pow_finite x y = Fin t /\ 0 <= t) \/
  (pow_finite x y = PInf /\ x = 0 /\ y < 0).
Proof.
  intros Hx. unfold pow_finite.
  destruct (Req_dec_T y 0) as [Hy | Hy].
  { rewrite Reqb_true by assumption. left. exists 1. split; [reflexivity | lra]. }
  rewrite Reqb_false by assumption.
  destruct (Rlt_dec 0 x) as [Hpos | Hnpos].
  { rewrite Rltb_true by assumption. left. eexists. split; [reflexivity |].
    left. apply Rpower_pos. }
  rewrite Rltb_false by assumption.
  assert (x = 0) as -> by lra. rewrite Reqb_true by reflexivity.
  destruct (Rlt_dec 0 y).
  - rewrite Rltb_true by assumption. left. exists 0. split; [reflexivity | lra].
  - rewrite Rltb_false by assumption. right. repeat split; lra.
Qed.

Lemma ln_quotient x y : 0 < x -> 0 < y -> ln (x / y) = ln x - ln y.
Proof.
  intros Hx Hy. unfold Rdiv.
  rewrite ln_mult by (try apply Rinv_0_lt_compat; assumption).
  rewrite ln_Rinv by assumption. lra.
Qed.

Lemma ln_le_minus_1 t : 0 < t -> ln t <= t - 1.
Proof.
  intros Ht.
  destruct (Rle_dec (ln t) (t - 1)) as [Hle | Hgt]; [assumption | exfalso].
  apply Rnot_le_lt in Hgt.
  pose proof (exp_ineq1_le (t - 1)) as Hexp.
  apply exp_increasing in Hgt. rewrite exp_ln in Hgt by assumption. lra.
Qed.

(** The weighted geometric mean [x^a (1-x)^(1-a)] is largest at [x = a]. *)
Lemma weighted_power_max a x :
  0 < a < 1 -> 0 < x < 1 ->
  Rpower x a * Rpower (1 - x) (1 - a) <= Rpower a a * Rpower (1 - a) (1 - a).
Proof.
  intros Ha Hx. unfold Rpower. rewrite <- !exp_plus.
  assert (Hlog : a * ln x + (1 - a) * ln (1 - x)
                 <= a * ln a + (1 - a) * ln (1 - a)).
  { assert (H1 : ln x - ln a <= x / a - 1).
    { rewrite <- ln_quotient by lra. apply ln_le_minus_1.
      apply Rdiv_lt_0_compat; lra. }
    assert (H2 : ln (1 - x) - ln (1 - a) <= (1 - x) / (1 - a) - 1).
    { rewrite <- ln_quotient by lra. apply ln_le_minus_1.
      apply Rdiv_lt_0_compat; lra. }
    assert (E1 : a * (x / a - 1) = x - a) by (field; lra).
    assert (E2 : (1 - a) * ((1 - x) / (1 - a) - 1) = a - x) by (field; lra).
    assert (a * (ln x - ln a) <= a * (x / a - 1))
      by (apply Rmult_le_compat_l; lra).
    assert ((1 - a) * (ln (1 - x) - ln (1 - a))
            <= (1 - a) * ((1 - x) / (1 - a) - 1))
      by (apply Rmult_le_compat_l; lra).
    lra. }
  destruct Hlog as [Hlt | Heq].
  - left. now apply exp_increasing.
  - right. now rewrite Heq.
Qed.

(** ** The camber envelope *)

Lemma eps_pos : 0 < eps.
Proof. unfold eps. lra. Qed.

Lemma clip_alpha_range alpha :
  eps <= clip alpha eps (1 - eps) <= 1 - eps.
Proof. apply clip_range. unfold eps. lra. Qed.

(** The envelope strictly inside the chord. *)
Lemma beta_distribution_inside x alpha :
  0 < x < 1 ->
  let a := clip alpha eps (1 - eps) in
  beta_distribution x alpha =
  Fin (Rpower x a * Rpower (1 - x) (1 - a)
       / (Rpower a a * Rpower (1 - a) (1 - a) + eps)).
Proof.
  intros Hx a. unfold beta_distribution. fold a.
  pose proof (clip_alpha_range alpha) as Ha. fold a in Ha.
  pose proof eps_pos as He.
  unfold np_power.
  rewrite !pow_finite_pos by lra. cbn [fmul fadd fdiv].
  rewrite Reqb_false; [reflexivity |].
  pose proof (Rpower_pos a a). pose proof (Rpower_pos (1 - a) (1 - a)).
  nra.
Qed.

Lemma beta_distribution_at_0 alpha : beta_distribution 0 alpha = Fin 0.
Proof.
  unfold beta_distribution.
  set (a := clip alpha eps (1 - eps)).
  pose proof (clip_alpha_range alpha) as Ha. fold a in Ha.
  pose proof eps_pos as He.
  unfold np_power.
  rewrite (pow_finite_zero a) by lra.
  rewrite !pow_finite_pos by lra. cbn [fmul fadd fdiv].
  pose proof (Rpower_pos a a). pose proof (Rpower_pos (1 - a) (1 - a)).
  rewrite Reqb_false by nra. f_equal. unfold Rdiv. ring.
Qed.

Lemma beta_distribution_at_1 alpha : beta_distribution 1 alpha = Fin 0.
Proof.
  unfold beta_distribution.
  set (a := clip alpha eps (1 - eps)).
  pose proof (clip_alpha_range alpha) as Ha. fold a in Ha.
  pose proof eps_pos as He.
  unfold np_power.
  replace (1 - 1) with 0 by ring.
  rewrite (pow_finite_zero (1 - a)) by lra.
  rewrite !pow_finite_pos by lra. cbn [fmul fadd fdiv].
  pose proof (Rpower_pos a a). pose proof (Rpower_pos (1 - a) (1 - a)).
  rewrite Reqb_false by nra. f_equal. unfold Rdiv. ring.
Qed.

Lemma half_power_half :
  Rpower (1 / 2) (1 / 2) * Rpower (1 / 2) (1 / 2) = 1 / 2.
Proof.
  rewrite <- Rpower_plus.
  replace (1 / 2 + 1 / 2) with 1 by lra.
  apply Rpower_1. lra.
Qed.

(** The peak of the symmetric envelope, [alpha = 1/2]. *)
Lemma beta_distribution_at_half :
  beta_distribution (1 / 2) (1 / 2) = Fin (500000000 / 500000001).
Proof.
  rewrite beta_distribution_inside by lra.
  rewrite clip_id by (unfold eps; lra).
  replace (1 - 1 / 2) with (1 / 2) by lra.
  rewrite half_power_half. f_equal. unfold eps. field.
Qed.

(** C1, as the code has it.  For every [alpha] in (0,1), with
    [a = clip(alpha, 1e-9, 1 - 1e-9)] and [D = a^a (1-a)^(1-a)]: the
    envelope is 0 at [x = 0] and at [x = 1]; at [x = a] it is
    [D / (D + 1e-9)], which lies strictly between 0 and 1 (the [eps] added
    to the denominator keeps the peak below 1); that value is the maximum
    over [x] in [0,1]; and [a] is [alpha] itself whenever
    [1e-9 <= alpha <= 1 - 1e-9]. *)
Theorem beta_distribution_peak (alpha : R) :
  0 < alpha < 1 ->
  let a := clip alpha eps (1 - eps) in
  let D := Rpower a a * Rpower (1 - a) (1 - a) in
  beta_distribution 0 alpha = Fin 0 /\
  beta_distribution 1 alpha = Fin 0 /\
  beta_distribution a alpha = Fin (D / (D + eps)) /\
  0 < D / (D + eps) < 1 /\
  (eps <= alpha <= 1 - eps -> a = alpha) /\
  (forall x, 0 <= x <= 1 ->
     exists v, beta_distribution x alpha = Fin v /\ v <= D / (D + eps)).
Proof.
  intros Halpha a D.
  pose proof (clip_alpha_range alpha) as Ha. fold a in Ha.
  pose proof eps_pos as He.
  assert (HD : 0 < D).
  { apply Rmult_lt_0_compat; apply Rpower_pos. }
  assert (Hpeak : 0 < D / (D + eps) < 1).
  { split.
    - apply Rdiv_lt_0_compat; lra.
    - apply Rmult_lt_reg_r with (D + eps); [lra |].
      unfold Rdiv. rewrite Rmult_assoc, Rinv_l by lra. lra. }
  split; [apply beta_distribution_at_0 |].
  split; [apply beta_distribution_at_1 |].
  split; [apply beta_distribution_inside; lra |].
  split; [exact Hpeak |].
  split; [intros Hin; apply clip_id; exact Hin |].
  intros x Hx.
  destruct (Req_dec_T x 0) as [-> | Hx0].
  { exists 0. split; [apply beta_distribution_at_0 | lra]. }
  destruct (Req_dec_T x 1) as [-> | Hx1].
  { exists 0. split; [apply beta_distribution_at_1 | lra]. }
  eexists. split; [apply beta_distribution_inside; lra |].
  fold a. fold D.
  apply Rmult_le_compat_r.
  - left. apply Rinv_0_lt_compat. lra.
  - apply weighted_power_max; lra.
Qed.

Lemma beta_distribution_peak_witness :
  0 < 2 / 5 < 1 /\
  beta_distribution 0 (2 / 5) = Fin 0 /\
  beta_distribution 1 (2 / 5) = Fin 0 /\
  clip (2 / 5) eps (1 - eps) = 2 / 5.
Proof.
  split; [lra |].
  destruct (beta_distribution_peak (2 / 5)) as (H0 & H1 & _ & _ & Ha & _);
    [lra |].
  split; [exact H0 |]. split; [exact H1 |].
  apply Ha. unfold eps. lra.
Defined.

(** C1 as stated fails: at [alpha = 1/2] the value at [x = alpha] is
    [500000000 / 500000001], not 1. *)
Lemma symmetric_envelope_peak_below_1 :
  beta_distribution (1 / 2) (1 / 2) = Fin (500000000 / 500000001) /\
  500000000 / 500000001 < 1.
Proof. split; [apply beta_distribution_at_half | lra]. Qed.

(** X1.  With [kappa = 1] the extended envelope is the basic envelope, at
    every [x] and for every [alpha]. *)
Theorem beta_distribution_extended_kappa_1 (x alpha : R) :
  beta_distribution_extended x alpha 1 = beta_distribution x alpha.
Proof.
  unfold beta_distribution_extended, beta_distribution.
  set (a := clip alpha eps (1 - eps)).
  pose proof (clip_alpha_range alpha) as Ha. fold a in Ha.
  pose proof eps_pos as He.
  pose proof (Rpower_pos a a). pose proof (Rpower_pos (1 - a) (1 - a)).
  assert (Hden : (Fin a ** a * Fin (1 - a) ** (1 - a) + Fin eps)%npf
                 = Fin (Rpower a a * Rpower (1 - a) (1 - a) + eps)).
  { unfold np_power. now rewrite !pow_finite_pos by lra. }
  rewrite Hden, !Rmult_1_l. f_equal.
  cbn [np_power]. rewrite pow_finite_pos by nra. now rewrite Rpower_1 by nra.
Qed.

(** ** The thickness profile *)

Lemma clamped_a_range a : 1 / 10 <= clamped_a a <= 3 / 10.
Proof. apply clip_range. lra. Qed.

Lemma clamped_b_range b : 7 / 10 <= clamped_b b <= 9 / 10.
Proof. apply clip_range. lra. Qed.

(** After clamping, [a <= b], [a > 0] and [b < 1] always hold: the swap
    and the two [else] branches of [thickness_distribution] never run. *)
Lemma thickness_distribution_unfold x a b beta :
  thickness_distribution x a b beta =
  let a' := clamped_a a in
  let b' := clamped_b b in
  if Rleb b' x then
    (Fin ((1 + cos (PI * (x - b') / (1 - b'))) / 2) ** beta)%npf
  else if Rleb x a' then
    (Fin ((1 - cos (PI * x / a')) / 2) ** beta)%npf
  else Fin 1.
Proof.
  unfold thickness_distribution. fold (clamped_a a) (clamped_b b).
  pose proof (clamped_a_range a) as Ha. pose proof (clamped_b_range b) as Hb.
  cbv zeta.
  rewrite (Rleb_true (clamped_a a) (clamped_b b)) by lra.
  rewrite (Rltb_true 0 (clamped_a a)) by lra.
  rewrite (Rltb_true (clamped_b b) 1) by lra.
  destruct (Rleb (clamped_b b) x); reflexivity.
Qed.

Lemma thickness_at_0 a b beta :
  thickness_distribution 0 a b beta = pow_finite 0 beta.
Proof.
  rewrite thickness_distribution_unfold. cbv zeta.
  pose proof (clamped_a_range a) as Ha. pose proof (clamped_b_range b) as Hb.
  rewrite Rleb_false by lra. rewrite Rleb_true by lra.
  unfold np_power. f_equal.
  replace (PI * 0 / clamped_a a) with 0 by (unfold Rdiv; ring).
  rewrite cos_0. lra.
Qed.

Lemma thickness_at_1 a b beta :
  thickness_distribution 1 a b beta = pow_finite 0 beta.
Proof.
  rewrite thickness_distribution_unfold. cbv zeta.
  pose proof (clamped_a_range a) as Ha. pose proof (clamped_b_range b) as Hb.
  rewrite Rleb_true by lra.
  unfold np_power. f_equal.
  replace (PI * (1 - clamped_b b) / (1 - clamped_b b)) with PI
    by (field; lra).
  rewrite cos_PI. lra.
Qed.

Lemma thickness_flat x a b beta :
  clamped_a a <= x <= clamped_b b ->
  thickness_distribution x a b beta = Fin 1.
Proof.
  intros [Hax Hxb].
  rewrite thickness_distribution_unfold. cbv zeta.
  pose proof (clamped_a_range a) as Ha. pose proof (clamped_b_range b) as Hb.
  destruct (Req_dec_T x (clamped_b b)) as [-> | Hne].
  - rewrite Rleb_true by lra. unfold np_power.
    replace (PI * (clamped_b b - clamped_b b) / (1 - clamped_b b)) with 0
      by (field; lra).
    rewrite cos_0. replace ((1 + 1) / 2) with 1 by lra.
    apply pow_finite_one.
  - rewrite Rleb_false by lra.
    destruct (Req_dec_T x (clamped_a a)) as [-> | Hna].
    + rewrite Rleb_true by lra. unfold np_power.
      replace (PI * clamped_a a / clamped_a a) with PI by (field; lra).
      rewrite cos_PI. replace ((1 - -1) / 2) with 1 by lra.
      apply pow_finite_one.
    + rewrite Rleb_false by lra. reflexivity.
Qed.

(** The thickness is a non-negative number, or [inf] when [beta < 0]. *)
Lemma thickness_distribution_values x a b beta :
  (exists t, thickness_distribution x a b beta = Fin t /\ 0 <= t) \/
  (thickness_distribution x a b beta = PInf /\ beta < 0).
Proof.
  rewrite thickness_distribution_unfold. cbv zeta.
  destruct (Rleb (clamped_b b) x).
  - unfold np_power.
    destruct (pow_finite_nonneg_base
                ((1 + cos (PI * (x - clamped_b b) / (1 - clamped_b b))) / 2)
                beta) as [Hfin | (Hinf & _ & Hb)].
    + pose proof (COS_bound (PI * (x - clamped_b b) / (1 - clamped_b b))).
      lra.
    + left. exact Hfin.
    + right. split; assumption.
  - destruct (Rleb x (clamped_a a)).
    + unfold np_power.
      destruct (pow_finite_nonneg_base
                  ((1 - cos (PI * x / clamped_a a)) / 2) beta)
        as [Hfin | (Hinf & _ & Hb)].
      * pose proof (COS_bound (PI * x / clamped_a a)). lra.
      * left. exact Hfin.
      * right. split; assumption.
    + left. exists 1. split; [reflexivity | lra].
Qed.

(** C7, as the code has it.  For [a] in [0.1,0.3], [b] in [0.7,0.9] and
    [a < b]: the profile is 1 at every [x] in [a,b], for every [beta]; it
    is 0 at [x = 0] and at [x = 1] when [beta > 0]. *)
Theorem thickness_distribution_ends_and_plateau (a b beta : R) :
  1 / 10 <= a <= 3 / 10 -> 7 / 10 <= b <= 9 / 10 -> a < b ->
  (0 < beta ->
   thickness_distribution 0 a b beta = Fin 0 /\
   thickness_distribution 1 a b beta = Fin 0) /\
  (forall x, a <= x <= b -> thickness_distribution x a b beta = Fin 1).
Proof.
  intros Ha Hb Hab. split.
  - intros Hbeta. rewrite thickness_at_0, thickness_at_1.
    split; apply pow_finite_zero; assumption.
  - intros x Hx. apply thickness_flat.
    unfold clamped_a, clamped_b. rewrite !clip_id by assumption. exact Hx.
Qed.

Lemma thickness_distribution_ends_and_plateau_witness :
  (1 / 10 <= 1 / 5 <= 3 / 10 /\ 7 / 10 <= 4 / 5 <= 9 / 10 /\ 1 / 5 < 4 / 5) /\
  thickness_distribution 0 (1 / 5) (4 / 5) (3 / 10) = Fin 0 /\
  thickness_distribution 1 (1 / 5) (4 / 5) (3 / 10) = Fin 0 /\
  thickness_distribution (1 / 2) (1 / 5) (4 / 5) (3 / 10) = Fin 1.
Proof.
  split; [lra |].
  destruct (thickness_distribution_ends_and_plateau (1 / 5) (4 / 5) (3 / 10))
    as [Hends Hflat]; try lra.
  destruct Hends as [H0 H1]; [lra |].
  split; [exact H0 |]. split; [exact H1 |].
  apply Hflat. lra.
Defined.

(** C7 as stated fails for [beta = 0]: [0.0 ** 0.0] is 1, so the profile
    is 1, not 0, at the leading edge. *)
Lemma thickness_distribution_beta_0_leading_edge :
  thickness_distribution 0 (1 / 5) (4 / 5) 0 = Fin 1 /\
  feqb (thickness_distribution 0 (1 / 5) (4 / 5) 0) (Fin 0) = false.
Proof.
  rewrite thickness_at_0, pow_finite_exp_0. split; [reflexivity |].
  cbn [feqb]. apply Reqb_false. lra.
Qed.

(** C8, as the code has it.  For [x] and [taper] in [0,1] and every [a],
    [b], [beta], except when [beta < 0], [x = 1] and [taper = 1] together:
    the tapered profile equals the profile times [1 - taper*x], is at most
    the profile, and equals it when [taper = 0].  The comparisons are
    numpy's own. *)
Theorem tapered_thickness_attenuates (x a b beta taper : R) :
  0 <= x <= 1 -> 0 <= taper <= 1 ->
  ~ (beta < 0 /\ x = 1 /\ taper = 1) ->
  let base := thickness_distribution x a b beta in
  let tapered := tapered_thickness_distribution x a b beta taper in
  feqb tapered (base * Fin (1 - taper * x))%npf = true /\
  fleb tapered base = true /\
  (taper = 0 -> feqb tapered base = true).
Proof.
  intros Hx Ht Hexcl base tapered.
  assert (Hc : 0 <= 1 - taper * x <= 1) by nra.
  unfold tapered, tapered_thickness_distribution. fold base.
  destruct (thickness_distribution_values x a b beta)
    as [(t & Hbase & Htpos) | (Hbase & Hbeta)]; fold base in Hbase;
    rewrite Hbase; cbn [fmul].
  - split; [apply feqb_refl_fin |]. split.
    + apply fleb_fin. nra.
    + intros ->. cbn. apply Reqb_true. ring.
  - assert (Hcpos : 0 < 1 - taper * x).
    { destruct (Req_dec_T x 1) as [-> | Hx1].
      - destruct (Req_dec_T taper 1) as [-> | Ht1]; [tauto | lra].
      - nra. }
    unfold inf_times. rewrite Rltb_true by assumption.
    repeat split; reflexivity.
Qed.

Lemma tapered_thickness_attenuates_witness :
  (0 <= 1 / 2 <= 1 /\ 0 <= 1 / 2 <= 1) /\
  fleb (tapered_thickness_distribution (1 / 2) (1 / 5) (4 / 5) (3 / 10) (1 / 2))
       (thickness_distribution (1 / 2) (1 / 5) (4 / 5) (3 / 10)) = true.
Proof.
  split; [lra |].
  apply (tapered_thickness_attenuates (1 / 2) (1 / 5) (4 / 5) (3 / 10) (1 / 2));
    lra.
Defined.

(** C8 as stated fails at the tip for a negative exponent: with
    [beta = -1], [x = 1] and [taper = 1] the profile is [0.0 ** -1 = inf],
    the tapered profile is [inf * 0.0 = nan], and [nan <= inf] is false. *)
Lemma tapered_thickness_nan_at_tip :
  thickness_distribution 1 (1 / 5) (4 / 5) (-1) = PInf /\
  tapered_thickness_distribution 1 (1 / 5) (4 / 5) (-1) 1 = NaN /\
  fleb (tapered_thickness_distribution 1 (1 / 5) (4 / 5) (-1) 1)
       (thickness_distribution 1 (1 / 5) (4 / 5) (-1)) = false.
Proof.
  assert (Hbase : thickness_distribution 1 (1 / 5) (4 / 5) (-1) = PInf).
  { rewrite thickness_at_1. apply pow_finite_zero_neg. lra. }
  assert (Htap : tapered_thickness_distribution 1 (1 / 5) (4 / 5) (-1) 1 = NaN).
  { unfold tapered_thickness_distribution. rewrite Hbase. cbn [fmul].
    unfold inf_times. now rewrite !Rltb_false by lra. }
  rewrite Htap, Hbase. repeat split; reflexivity.
Qed.

(** ** Ranges and stacked arrays *)

Lemma range_length n : List.length (range n) = Z.to_nat n.
Proof. unfold range. now rewrite length_map, length_seq. Qed.

Lemma In_range i n : In i (range n) <-> (0 <= i < n)%Z.
Proof.
  unfold range. rewrite in_map_iff. split.
  - intros (k & <- & Hk). apply in_seq in Hk. lia.
  - intros Hi. exists (Z.to_nat i). split; [lia |]. apply in_seq. lia.
Qed.

Lemma range_nil n : (n <= 0)%Z -> range n = [].
Proof.
  intros Hn. unfold range. replace (Z.to_nat n) with 0%nat by lia. reflexivity.
Qed.

Lemma range_cons n : (0 < n)%Z -> exists tl, range n = 0%Z :: tl.
Proof.
  intros Hn. unfold range.
  destruct (Z.to_nat n) as [| k] eqn:E; [lia |].
  cbn. eexists. reflexivity.
Qed.

Lemma enumerate_length {A} (l : list A) :
  List.length (enumerate l) = List.length l.
Proof.
  unfold enumerate, len. rewrite length_combine, range_length. lia.
Qed.

Lemma length_concat_uniform {A} (ls : list (list A)) (n : nat) :
  Forall (fun l => List.length l = n) ls ->
  List.length (List.concat ls) = (List.length ls * n)%nat.
Proof.
  induction 1 as [| l ls Hl _ IH]; cbn; [reflexivity |].
  rewrite length_app, Hl, IH. reflexivity.
Qed.

Lemma vstack_cons {A} (ls : list (list A)) :
  ls <> [] -> vstack ls = Ok (List.concat ls).
Proof. destruct ls; [congruence | reflexivity]. Qed.

Lemma linspace_ok start stop num :
  (0 <= num)%Z ->
  exists xi, linspace start stop num = Ok xi /\ List.length xi = Z.to_nat num.
Proof.
  intros Hnum. unfold linspace.
  destruct (num <? 0)%Z eqn:E; [lia |].
  eexists. split; [reflexivity |]. now rewrite length_map, range_length.
Qed.

Lemma linspace_negative start stop num :
  (num < 0)%Z ->
  linspace start stop num = Raise (ValueError (negative_samples num)).
Proof.
  intros Hnum. unfold linspace.
  destruct (num <? 0)%Z eqn:E; [reflexivity | lia].
Qed.

(** ** The quad records of [build_faces] *)

Lemma quad_rows_nil N num_layers :
  (N < 2 \/ num_layers < 2)%Z -> quad_rows N num_layers = [].
Proof.
  intros H. unfold quad_rows.
  destruct (Z_lt_dec num_layers 2) as [Hl | Hl].
  - now rewrite (range_nil (num_layers - 1)) by lia.
  - rewrite (range_nil (N - 1)) by lia. cbn.
    induction (range (num_layers - 1)); [reflexivity | assumption].
Qed.

Lemma quad_rows_cons N num_layers :
  (2 <= N)%Z -> (2 <= num_layers)%Z -> quad_rows N num_layers <> [].
Proof.
  intros HN HL. unfold quad_rows.
  destruct (range_cons (num_layers - 1)) as [tl1 ->]; [lia |].
  destruct (range_cons (N - 1)) as [tl2 ->]; [lia |].
  cbn. discriminate.
Qed.

Lemma In_quad_rows N num_layers row :
  In row (quad_rows N num_layers) ->
  exists i j, (0 <= i < num_layers - 1)%Z /\ (0 <= j < N - 1)%Z /\
    row = [4; i * N + j; i * N + j + 1; (i + 1) * N + j + 1; (i + 1) * N + j]%Z.
Proof.
  unfold quad_rows. rewrite in_flat_map. intros (i & Hi & Hrow).
  apply in_map_iff in Hrow. destruct Hrow as (j & <- & Hj).
  apply In_range in Hi. apply In_range in Hj.
  exists i, j. repeat split; lia.
Qed.

(** ** Reading the records back *)

Lemma vtk_cells_concat rows : forall fuel,
  Forall well_formed_record rows ->
  (List.length rows <= fuel)%nat ->
  vtk_cells fuel (List.concat rows) = map (@tl Z) rows.
Proof.
  induction rows as [| r rows IH]; intros fuel Hwf Hfuel.
  - destruct fuel; reflexivity.
  - inversion Hwf as [| ? ? (n & ids & -> & Hn) Hrest]; subst.
    destruct fuel as [| fuel]; [cbn in Hfuel; lia |].
    cbn [List.concat app vtk_cells map tl]. rewrite Hn.
    rewrite firstn_app, firstn_all, Nat.sub_diag, firstn_O, app_nil_r.
    rewrite skipn_app, skipn_all, Nat.sub_diag, skipn_O. cbn [app].
    f_equal. apply IH; [assumption | cbn in Hfuel; lia].
Qed.

Lemma quad_rows_well_formed N num_layers :
  Forall well_formed_record (quad_rows N num_layers).
Proof.
  apply Forall_forall. intros row Hrow.
  apply In_quad_rows in Hrow. destruct Hrow as (i & j & _ & _ & ->).
  eexists _, _. split; reflexivity.
Qed.

Lemma length_concat_ge {A} (ls : list (list A)) :
  Forall (fun l => l <> []) ls ->
  (List.length ls <= List.length (List.concat ls))%nat.
Proof.
  induction 1 as [| l ls Hl _ IH]; cbn; [lia |].
  rewrite length_app. destruct l; [congruence | cbn; lia].
Qed.

Lemma vtk_point_ids_quads N num_layers :
  vtk_point_ids (List.concat (quad_rows N num_layers)) =
  List.concat (map (@tl Z) (quad_rows N num_layers)).
Proof.
  unfold vtk_point_ids. rewrite vtk_cells_concat; [reflexivity | |].
  - apply quad_rows_well_formed.
  - apply length_concat_ge. apply Forall_forall. intros row Hrow.
    apply In_quad_rows in Hrow. destruct Hrow as (i & j & _ & _ & ->).
    discriminate.
Qed.

Lemma quad_ids_in_range N num_layers :
  Forall (fun v => (0 <= v < num_layers * N)%Z)
         (vtk_point_ids (List.concat (quad_rows N num_layers))).
Proof.
  rewrite vtk_point_ids_quads. apply Forall_forall. intros v Hv.
  apply in_concat in Hv. destruct Hv as (ids & Hids & Hv).
  apply in_map_iff in Hids. destruct Hids as (row & <- & Hrow).
  apply In_quad_rows in Hrow. destruct Hrow as (i & j & Hi & Hj & ->).
  cbn [tl] in Hv.
  assert (Hb : ((i + 1) * N + j + 1 <= num_layers * N)%Z) by nia.
  cbn in Hv. intuition (subst; nia).
Qed.

(** ** Running [generate_surface] *)

Lemma generate_surface_run self N :
  generate_surface N self =
  match linspace 0 1 N with
  | Raise e => (self, Raise e)
  | Ok xi =>
      match layers self with
      | [] => (self, Raise (ValueError need_at_least_one_array))
      | _ :: _ =>
          match quad_rows N (len (layers self)) with
          | [] => (with_vertices self xi,
                   Raise (ValueError need_at_least_one_array))
          | _ :: _ =>
              (with_faces (List.concat (quad_rows N (len (layers self))))
                          (with_vertices self xi), Ok tt)
          end
      end
  end.
Proof.
  unfold generate_surface, bind, get, lift, modify.
  destruct (linspace 0 1 N) as [xi | e]; [| reflexivity].
  cbv zeta. fold (per_layer_points self xi).
  unfold with_vertices, stacked_upper, stacked_lower, stacked_center.
  assert (Hlen : List.length (per_layer_points self xi)
                 = List.length (layers self)).
  { unfold per_layer_points. now rewrite length_map, enumerate_length. }
  destruct (layers self) as [| l ls] eqn:El.
  - destruct (per_layer_points self xi); [reflexivity | discriminate].
  - destruct (per_layer_points self xi) as [| p ps]; [discriminate |].
    cbn [map vstack].
    unfold build_faces, hstack.
    destruct (quad_rows N (len (l :: ls))); reflexivity.
Qed.

Lemma layer_points_lengths self xi n i prm :
  let p := layer_points self xi n i prm in
  List.length (fst (fst p)) = List.length xi /\
  List.length (snd (fst p)) = List.length xi /\
  List.length (snd p) = List.length xi.
Proof. unfold layer_points. cbn. now rewrite !length_map. Qed.

Lemma stacked_lengths self xi :
  List.length (stacked_upper self xi)
    = (List.length (layers self) * List.length xi)%nat /\
  List.length (stacked_lower self xi)
    = (List.length (layers self) * List.length xi)%nat /\
  List.length (stacked_center self xi)
    = (List.length (layers self) * List.length xi)%nat.
Proof.
  assert (Hn : List.length (per_layer_points self xi)
               = List.length (layers self)).
  { unfold per_layer_points. now rewrite length_map, enumerate_length. }
  unfold stacked_upper, stacked_lower, stacked_center.
  repeat split.
  all: rewrite (length_concat_uniform _ (List.length xi));
    [ now rewrite length_map, Hn | ].
  all: apply Forall_forall; intros pts Hpts;
    apply in_map_iff in Hpts; destruct Hpts as (p & <- & Hp);
    unfold per_layer_points in Hp; apply in_map_iff in Hp;
    destruct Hp as ((i & prm) & <- & _);
    apply layer_points_lengths.
Qed.

Lemma generate_surface_ok self N :
  (2 <= len (layers self))%Z -> (2 <= N)%Z ->
  exists xi,
    linspace 0 1 N = Ok xi /\ List.length xi = Z.to_nat N /\
    generate_surface N self =
    (with_faces (List.concat (quad_rows N (len (layers self))))
                (with_vertices self xi), Ok tt).
Proof.
  intros HL HN.
  destruct (linspace_ok 0 1 N) as (xi & Hxi & Hlen); [lia |].
  exists xi. split; [assumption |]. split; [assumption |].
  rewrite generate_surface_run, Hxi.
  destruct (layers self) as [| l ls] eqn:El; [cbn in HL; lia |].
  pose proof (quad_rows_cons N (len (l :: ls)) HN HL) as Hq.
  destruct (quad_rows N (len (l :: ls))); [congruence | reflexivity].
Qed.

Lemma generate_surface_returns self N :
  snd (generate_surface N self) = Ok tt ->
  (2 <= len (layers self))%Z /\ (2 <= N)%Z.
Proof.
  rewrite generate_surface_run.
  destruct (linspace 0 1 N) as [xi | e]; [| discriminate].
  destruct (layers self) as [| l ls] eqn:El; [discriminate |].
  destruct (quad_rows N (len (l :: ls))) eqn:Eq; [discriminate |].
  intros _.
  destruct (Z_lt_dec N 2) as [HN | HN].
  { rewrite quad_rows_nil in Eq by lia. discriminate. }
  destruct (Z_lt_dec (len (l :: ls)) 2) as [HL | HL].
  { rewrite quad_rows_nil in Eq by lia. discriminate. }
  lia.
Qed.

(** X2.  [generate_surface] never assigns [z_coords]: whatever the
    outcome, the attribute is what it was before the call. *)
Theorem generate_surface_keeps_z_coords (self : Blade3D) (N : Z) :
  z_coords (fst (generate_surface N self)) = z_coords self.
Proof.
  rewrite generate_surface_run.
  destruct (linspace 0 1 N) as [xi | e]; [| reflexivity].
  destruct (layers self) as [| l ls]; [reflexivity |].
  destruct (quad_rows N (len (l :: ls))); reflexivity.
Qed.

(** C2.  On a blade with [L >= 2] layers, [generate_surface] with
    [points_per_chord = N] returns normally whenever [N >= 2]; and whenever
    it returns, each of [vertices_upper], [vertices_lower] and
    [vertices_center] holds exactly [L * N] points and every vertex index
    in [faces_upper], [faces_lower] and [faces_center] is non-negative and
    below [L * N]. *)
Theorem generate_surface_counts (self : Blade3D) (N : Z) :
  (2 <= List.length (layers self))%nat ->
  let L := len (layers self) in
  let self' := fst (generate_surface N self) in
  ((2 <= N)%Z -> snd (generate_surface N self) = Ok tt) /\
  (snd (generate_surface N self) = Ok tt ->
   exists vu vl vc fu fl fc,
     vertices_upper self' = Some vu /\
     vertices_lower self' = Some vl /\
     vertices_center self' = Some vc /\
     faces_upper self' = Some fu /\
     faces_lower self' = Some fl /\
     faces_center self' = Some fc /\
     len vu = (L * N)%Z /\ len vl = (L * N)%Z /\ len vc = (L * N)%Z /\
     Forall (fun v => (0 <= v < L * N)%Z) (vtk_point_ids fu) /\
     Forall (fun v => (0 <= v < L * N)%Z) (vtk_point_ids fl) /\
     Forall (fun v => (0 <= v < L * N)%Z) (vtk_point_ids fc)).
Proof.
  intros Hlayers L self'.
  assert (HL : (2 <= L)%Z) by (unfold L, len; lia).
  split.
  - intros HN.
    destruct (generate_surface_ok self N HL HN) as (xi & _ & _ & ->).
    reflexivity.
  - intros Hret. apply generate_surface_returns in Hret.
    destruct Hret as [_ HN].
    destruct (generate_surface_ok self N HL HN) as (xi & _ & Hxi & Hrun).
    unfold self'. rewrite Hrun. cbn [fst].
    destruct (stacked_lengths self xi) as (Hu & Hl & Hc).
    exists (stacked_upper self xi), (stacked_lower self xi),
           (stacked_center self xi).
    exists (List.concat (quad_rows N L)), (List.concat (quad_rows N L)),
           (List.concat (quad_rows N L)).
    repeat (split; [reflexivity |]).
    assert (Hcount : (Z.of_nat (List.length (layers self) * List.length xi)
                      = L * N)%Z).
    { rewrite Hxi. unfold L, len. lia. }
    unfold len at 1 2 3. rewrite Hu, Hl, Hc.
    repeat (split; [exact Hcount |]).
    repeat split; apply quad_ids_in_range.
Qed.

Lemma generate_surface_counts_witness :
  (2 <= List.length (layers demo_blade))%nat /\
  snd (generate_surface 2 demo_blade) = Ok tt.
Proof.
  assert (Hlayers : (2 <= List.length (layers demo_blade))%nat)
    by (cbn; lia).
  split; [exact Hlayers |].
  apply (proj1 (generate_surface_counts demo_blade 2 Hlayers)). lia.
Defined.

(** C6.  For a chord sample of [N >= 2] points (the invariant of the
    sample), [generate_surface] fails on every blade with fewer than two
    layers, with the [ValueError] "need at least one array to concatenate"
    of an empty [np.vstack] (no layer) or of the empty [np.hstack] in
    [build_faces] (one layer), which is the error kind of too few layers;
    on every blade with two or more layers it returns normally, so it
    raises neither that error nor any other; and that [ValueError] is the
    only error it raises. *)
Theorem generate_surface_layer_errors (self : Blade3D) (N : Z) :
  (2 <= N)%Z ->
  ((List.length (layers self) < 2)%nat ->
   snd (generate_surface N self)
   = Raise (ValueError need_at_least_one_array)) /\
  ((2 <= List.length (layers self))%nat ->
   snd (generate_surface N self) = Ok tt) /\
  (forall e, snd (generate_surface N self) = Raise e ->
     (List.length (layers self) < 2)%nat /\
     e = ValueError need_at_least_one_array).
Proof.
  intros HN.
  assert (Hfew : (List.length (layers self) < 2)%nat ->
                 snd (generate_surface N self)
                 = Raise (ValueError need_at_least_one_array)).
  { intros Hlayers. rewrite generate_surface_run.
    destruct (linspace_ok 0 1 N) as (xi & -> & _); [lia |].
    destruct (layers self) as [| l ls] eqn:El; [reflexivity |].
    rewrite quad_rows_nil; [reflexivity |].
    right. unfold len. cbn [List.length] in *. lia. }
  assert (Hmany : (2 <= List.length (layers self))%nat ->
                  snd (generate_surface N self) = Ok tt).
  { intros Hlayers.
    assert (HL : (2 <= len (layers self))%Z) by (unfold len; lia).
    destruct (generate_surface_ok self N HL HN) as (xi & _ & _ & ->).
    reflexivity. }
  split; [exact Hfew |]. split; [exact Hmany |].
  intros e He.
  destruct (Nat.lt_ge_cases (List.length (layers self)) 2) as [Hlt | Hge].
  - split; [exact Hlt |]. rewrite (Hfew Hlt) in He. now injection He as <-.
  - rewrite (Hmany Hge) in He. discriminate He.
Qed.

Lemma generate_surface_layer_errors_witness :
  (2 <= 2)%Z /\
  snd (generate_surface 2 single_layer_blade)
  = Raise (ValueError need_at_least_one_array) /\
  snd (generate_surface 2 demo_blade) = Ok tt.
Proof.
  assert (HN : (2 <= 2)%Z) by lia.
  split; [exact HN |]. split.
  - apply (proj1 (generate_surface_layer_errors single_layer_blade 2 HN)).
    cbn. lia.
  - apply (proj1 (proj2 (generate_surface_layer_errors demo_blade 2 HN))).
    cbn. lia.
Defined.

(** ** The blade mesh of the assembler *)

Lemma solid_both_run self vu vl :
  vertices_upper self = Some vu -> vertices_lower self = Some vl ->
  layers self <> [] ->
  exists mesh, _generate_solid_from_surfaces "both" self = (self, Ok mesh).
Proof.
  intros Hu Hl Hlayers.
  unfold _generate_solid_from_surfaces, bind, get.
  rewrite Hu. cbn [ret array_of]. rewrite Hu, Hl. cbn [ret array_of].
  assert (Hn : (len (layers self) =? 0)%Z = false).
  { apply Z.eqb_neq. unfold len.
    destruct (layers self); [congruence | cbn; lia]. }
  rewrite Hn. cbn. eexists. reflexivity.
Qed.

(** With the upper cloud in place neither mesh builder regenerates the
    surface, and nothing else they do assigns to the blade. *)
Lemma solid_state self mode vu :
  vertices_upper self = Some vu ->
  fst (_generate_solid_from_surfaces mode self) = self.
Proof.
  intros Hu.
  unfold _generate_solid_from_surfaces, bind, get.
  rewrite Hu. cbn [ret array_of]. rewrite Hu. cbn [ret array_of].
  destruct (len (layers self) =? 0)%Z; [reflexivity |].
  destruct (mode_in mode ["upper"; "both"]%string);
    destruct (mode_in mode ["lower"; "both"]%string);
    destruct (vertices_lower self); reflexivity.
Qed.

Section Assembly.

Context {pv : PyVista}.

Lemma to_pyvista_state self mode vu :
  vertices_upper self = Some vu ->
  fst (to_pyvista_mesh mode self) = self.
Proof.
  intros Hu.
  unfold to_pyvista_mesh, bind, get, ret, raise.
  rewrite Hu. cbn.
  destruct (_ ++ _) as [| m [| m' ms]]; reflexivity.
Qed.

Lemma blade_mesh_of_state self as_solid vu :
  vertices_upper self = Some vu ->
  fst (blade_mesh_of as_solid self) = self.
Proof.
  intros Hu. unfold blade_mesh_of, bind.
  destruct as_solid.
  - pose proof (solid_state self "both" vu Hu) as Hs.
    destruct (_generate_solid_from_surfaces "both" self) as [s [m | e]];
      cbn in *; assumption.
  - pose proof (to_pyvista_state self "both" vu Hu) as Hs.
    destruct (to_pyvista_mesh "both" self) as [s [d | e]];
      cbn in *; try assumption.
    destruct (pv_is_PolyData d); [| assumption].
    unfold lift. destruct (reshape_4 (pv_faces d)); assumption.
Qed.

Lemma blade_mesh_of_solid self vu vl :
  vertices_upper self = Some vu -> vertices_lower self = Some vl ->
  layers self <> [] ->
  exists mesh, blade_mesh_of true self = (self, Ok (inl mesh)).
Proof.
  intros Hu Hl Hlayers.
  destruct (solid_both_run self vu vl Hu Hl Hlayers) as (mesh & Hrun).
  exists mesh. unfold blade_mesh_of, bind. rewrite Hrun. reflexivity.
Qed.

(** ** The span check *)

Lemma assemble_run blade n_blades radius height z_base as_solid vu vl bm :
  vertices_upper blade = Some vu -> vertices_lower blade = Some vl ->
  blade_mesh_of as_solid blade = (blade, Ok bm) ->
  assemble_blades_on_cylinder n_blades radius height z_base as_solid blade =
  (blade_after blade vu vl,
   span_verdict bm (z_coords_after blade vu vl) n_blades radius height z_base).
Proof.
  intros Hu Hl Hbm.
  unfold assemble_blades_on_cylinder, bind. rewrite Hbm.
  unfold get, blade_after, z_coords_after, span_verdict.
  destruct (z_coords blade) as [z |] eqn:Ez.
  - cbn [ret]. rewrite Ez. cbn [array_of ret lift].
    destruct (amax z) as [z_max | e]; [| reflexivity].
    destruct (amin z) as [z_min | e]; [| reflexivity].
    cbv zeta. destruct (fltb _ _); [reflexivity |].
    destruct (blade_copies _ _ _); reflexivity.
  - rewrite Hu, Hl. cbn [array_of ret modify set_z_coords z_coords lift].
    set (zs := map vertex_z vu ++ map vertex_z vl).
    destruct (amax zs) as [z_max | e]; [| reflexivity].
    destruct (amin zs) as [z_min | e]; [| reflexivity].
    cbv zeta. destruct (fltb _ _); [reflexivity |].
    destruct (blade_copies _ _ _); reflexivity.
Qed.

Lemma amax_ok zs : zs <> [] -> exists z, amax zs = Ok z.
Proof. destruct zs; [congruence | eexists; reflexivity]. Qed.

Lemma amin_ok zs : zs <> [] -> exists z, amin zs = Ok z.
Proof. destruct zs; [congruence | eexists; reflexivity]. Qed.

(** X28.  On a blade that carries no [z_coords] yet, the span check is
    the one the specification states.  Take such a blade with its upper and
    lower clouds in place.  The span is the maximum minus the minimum of
    the combined upper and lower cached z-coordinates.  Whenever the blade
    mesh is obtained (the library calls that build it return), the call
    raises the span [ValueError] exactly when [height < span]; and when
    [height < span] is false and the blade mesh is a [trimesh], it returns
    the concatenation of the hub cylinder and the [n_blades] shifted and
    rotated copies. *)
Theorem assemble_span_check (blade : Blade3D) (n_blades : Z)
    (radius height z_base : R) (as_solid : bool) (vu vl : list vertex) :
  vertices_upper blade = Some vu -> vertices_lower blade = Some vl ->
  z_coords blade = None ->
  let zs := map vertex_z vu ++ map vertex_z vl in
  zs <> [] ->
  exists z_max z_min,
    amax zs = Ok z_max /\ amin zs = Ok z_min /\
    let span := (z_max - z_min)%npf in
    let z_shift :=
      (Fin (z_base + height / 2) - (z_min + span / Fin 2))%npf in
    let result :=
      snd (assemble_blades_on_cylinder n_blades radius height z_base
             as_solid blade) in
    forall bm, blade_mesh_of as_solid blade = (blade, Ok bm) ->
     (result = Raise (ValueError (height_less_than_span height span))
      <-> fltb (Fin height) span = true) /\
     (fltb (Fin height) span = false ->
      forall mesh, bm = inl mesh ->
      result =
      Ok (concatenate
            (hub_cylinder radius height z_base
             :: map (fun i =>
                       apply_transform
                         (apply_translation (copy mesh)
                            (Fin 0, Fin 0, z_shift))
                         (2 * PI * IZR i / IZR n_blades) (0, 0, 1))
                    (range n_blades)))).
Proof.
  intros Hu Hl Hz zs Hzs.
  destruct (amax_ok zs Hzs) as (z_max & Hmax).
  destruct (amin_ok zs Hzs) as (z_min & Hmin).
  exists z_max, z_min. split; [assumption |]. split; [assumption |].
  cbv zeta. intros bm Hbm.
  rewrite (assemble_run blade n_blades radius height z_base as_solid
             vu vl bm Hu Hl Hbm).
  cbn [snd]. unfold span_verdict, z_coords_after. rewrite Hz. fold zs.
  rewrite Hmax, Hmin. cbv zeta.
  destruct (fltb (Fin height) (z_max - z_min)%npf) eqn:Elt.
  - split; [split; intros _; reflexivity | intros Hf; discriminate Hf].
  - split.
    + split; [| intros Hf; discriminate Hf].
      unfold blade_copies.
      destruct bm; [| destruct (range n_blades)];
        intros Hf; discriminate Hf.
    + intros _ mesh ->. reflexivity.
Qed.

(** C9.  A call of [assemble_blades_on_cylinder] on a blade whose upper
    cloud is in place leaves [vertices_upper], [vertices_lower],
    [vertices_center], [faces_upper], [faces_lower] and [faces_center] as
    they were, whether it returns or raises. *)
Theorem assemble_keeps_surface_arrays (blade : Blade3D) (n_blades : Z)
    (radius height z_base : R) (as_solid : bool) (vu : list vertex) :
  vertices_upper blade = Some vu ->
  let blade' :=
    fst (assemble_blades_on_cylinder n_blades radius height z_base
           as_solid blade) in
  vertices_upper blade' = vertices_upper blade /\
  vertices_lower blade' = vertices_lower blade /\
  vertices_center blade' = vertices_center blade /\
  faces_upper blade' = faces_upper blade /\
  faces_lower blade' = faces_lower blade /\
  faces_center blade' = faces_center blade.
Proof.
  intros Hu blade'.
  assert (Hcases : blade' = blade \/ exists z, blade' = set_z_coords z blade).
  { unfold blade', assemble_blades_on_cylinder, bind.
    pose proof (blade_mesh_of_state blade as_solid vu Hu) as Hs.
    destruct (blade_mesh_of as_solid blade) as [s [bm | e]];
      cbn [fst] in Hs; subst s; [| left; reflexivity].
    unfold get.
    destruct (z_coords blade) as [z |] eqn:Ez.
    - cbn [ret]. rewrite Ez. cbn [array_of ret lift].
      left.
      destruct (amax z); [| reflexivity].
      destruct (amin z); [| reflexivity].
      cbv zeta. destruct (fltb _ _); [reflexivity |].
      destruct (blade_copies _ _ _); reflexivity.
    - rewrite Hu. cbn [array_of ret].
      destruct (vertices_lower blade) as [vl |]; [| left; reflexivity].
      cbn [array_of ret modify set_z_coords z_coords lift].
      right. eexists.
      destruct (amax _); [| reflexivity].
      destruct (amin _); [| reflexivity].
      cbv zeta. destruct (fltb _ _); [reflexivity |].
      destruct (blade_copies _ _ _); reflexivity. }
  destruct Hcases as [-> | (z & ->)]; repeat split; reflexivity.
Qed.

End Assembly.

(** ** A run of the assembler on the example blade *)

Lemma linspace_0_1_2 : linspace 0 1 2 = Ok [0; 1].
Proof.
  unfold linspace, range. simpl. do 2 f_equal. lra.
Qed.

Lemma linspace_0_1_3 : linspace 0 1 3 = Ok [0; 1 / 2; 1].
Proof.
  unfold linspace, range. simpl. do 2 f_equal; [lra |]. f_equal. lra.
Qed.

Lemma generate_surface_demo :
  generate_surface 2 demo_blade = (demo_surface, Ok tt).
Proof.
  destruct (generate_surface_ok demo_blade 2) as (xi & Hxi & _ & Hrun);
    [cbn; lia | lia |].
  rewrite linspace_0_1_2 in Hxi. injection Hxi as <-. exact Hrun.
Qed.

(** The z-coordinates of the clouds of a blade of two [flat_layer]s. *)
Lemma flat_layers_z self xi :
  layers self = [flat_layer; flat_layer] -> z0 self = 0 -> H self = 1 ->
  map vertex_z (stacked_upper self xi)
  = map flat_z_upper xi ++ map flat_z_upper xi /\
  map vertex_z (stacked_lower self xi)
  = map flat_z_lower xi ++ map flat_z_lower xi.
Proof.
  intros Hl Hz HH.
  unfold stacked_upper, stacked_lower, per_layer_points, enumerate.
  rewrite Hl. unfold len, range. cbn [List.length Z.of_nat Z.to_nat].
  simpl. rewrite !app_nil_r, !map_app, !map_map.
  unfold vertex_z. cbn [snd]. rewrite Hz, HH. split; reflexivity.
Qed.

Lemma flat_thickness_values :
  thickness_distribution 0 (1 / 5) (4 / 5) 1 = Fin 0 /\
  thickness_distribution (1 / 2) (1 / 5) (4 / 5) 1 = Fin 1 /\
  thickness_distribution 1 (1 / 5) (4 / 5) 1 = Fin 0.
Proof.
  rewrite thickness_at_0, thickness_at_1, pow_finite_zero by lra.
  repeat split. apply thickness_flat.
  unfold clamped_a, clamped_b. rewrite !clip_id by lra. lra.
Qed.

Lemma flat_heights :
  flat_z_upper 0 = Fin 0 /\ flat_z_lower 0 = Fin 0 /\
  flat_z_upper 1 = Fin 1 /\ flat_z_lower 1 = Fin 1 /\
  flat_z_upper (1 / 2) = Fin (1 / 2 - 500000000 / 500000001 + 1 / 10) /\
  flat_z_lower (1 / 2) = Fin (1 / 2 - 500000000 / 500000001 - 1 / 10).
Proof.
  destruct flat_thickness_values as (T0 & Th & T1).
  unfold flat_z_upper, flat_z_lower, flat_z_center.
  rewrite T0, Th, T1, beta_distribution_at_half,
    beta_distribution_at_0, beta_distribution_at_1.
  cbn [fsub fadd fmul fneg].
  repeat split; f_equal; lra.
Qed.

Lemma demo_surface_z_coords :
  map vertex_z (stacked_upper demo_blade [0; 1])
  ++ map vertex_z (stacked_lower demo_blade [0; 1])
  = [Fin 0; Fin 1; Fin 0; Fin 1; Fin 0; Fin 1; Fin 0; Fin 1].
Proof.
  destruct flat_heights as (U0 & L0 & U1 & L1 & _).
  destruct (flat_layers_z demo_blade [0; 1] eq_refl eq_refl eq_refl)
    as [-> ->].
  cbn [map app]. now rewrite U0, L0, U1, L1.
Qed.

Lemma assemble_span_check_witness :
  exists span,
    snd (assemble_blades_on_cylinder 4 1 (1 / 2) 0 true demo_surface)
    = Raise (ValueError (height_less_than_span (1 / 2) span)) /\
    fltb (Fin (1 / 2)) span = true.
Proof.
  assert (Hzs : map vertex_z (stacked_upper demo_blade [0; 1])
                ++ map vertex_z (stacked_lower demo_blade [0; 1]) <> []).
  { rewrite demo_surface_z_coords. discriminate. }
  destruct (assemble_span_check demo_surface 4 1 (1 / 2) 0 true
              (stacked_upper demo_blade [0; 1])
              (stacked_lower demo_blade [0; 1])
              eq_refl eq_refl eq_refl Hzs)
    as (z_max & z_min & Hmax & Hmin & Hcheck).
  rewrite demo_surface_z_coords in Hmax, Hmin.
  cbn [amax amin fold_left] in Hmax, Hmin.
  rewrite !fmax_fin in Hmax. rewrite !fmin_fin in Hmin.
  revert Hmax Hmin. eval_extrema. intros [= <-] [= <-].
  destruct (blade_mesh_of_solid demo_surface
              (stacked_upper demo_blade [0; 1])
              (stacked_lower demo_blade [0; 1]) eq_refl eq_refl)
    as (mesh & Hmesh); [discriminate |].
  assert (Hlt : fltb (Fin (1 / 2)) (Fin 1 - Fin 0)%npf = true).
  { cbn [fsub fadd fneg fltb]. apply Rltb_true. lra. }
  exists (Fin 1 - Fin 0)%npf. split; [| exact Hlt].
  exact (proj2 (proj1 (Hcheck _ Hmesh)) Hlt).
Defined.

Lemma assemble_keeps_surface_arrays_witness :
  vertices_upper demo_surface = Some (stacked_upper demo_blade [0; 1]) /\
  faces_upper
    (fst (assemble_blades_on_cylinder 4 1 (6 / 5) 0 true demo_surface))
  = faces_upper demo_surface.
Proof.
  split; [reflexivity |].
  apply (assemble_keeps_surface_arrays demo_surface 4 1 (6 / 5) 0 true
           (stacked_upper demo_blade [0; 1]) eq_refl).
Defined.

(** C3.  The span check reads a stale cache.  The calls are
    [generate_surface(2)], an assembly with [height = 1.2],
    [generate_surface(3)] and the same assembly again.  The first assembly
    attaches [z_coords] (span 1).  The second surface adds the mid-chord
    sample: the combined upper and lower cached z-coordinates now have the
    maximum 1 and the minimum [1/2 - 500000000/500000001 - 1/10], a span of
    about 1.6, and [height < span].  The claim has the second assembly
    fail with the span [ValueError]; the code returns a mesh, because the
    guard [if not hasattr(blade, "z_coords")] makes it read the
    z-coordinates the first assembly stored. *)
Lemma assemble_uses_stale_z_coords :
  let b1 := fst (generate_surface 2 demo_blade) in
  let b2 := fst (assemble_blades_on_cylinder 4 1 (6 / 5) 0 true b1) in
  let b3 := fst (generate_surface 3 b2) in
  exists vu vl mesh,
    vertices_upper b3 = Some vu /\ vertices_lower b3 = Some vl /\
    amax (map vertex_z vu ++ map vertex_z vl) = Ok (Fin 1) /\
    amin (map vertex_z vu ++ map vertex_z vl)
    = Ok (Fin (1 / 2 - 500000000 / 500000001 - 1 / 10)) /\
    fltb (Fin (6 / 5))
         (Fin 1 - Fin (1 / 2 - 500000000 / 500000001 - 1 / 10))%npf = true /\
    snd (assemble_blades_on_cylinder 4 1 (6 / 5) 0 true b3) = Ok mesh.
Proof.
  destruct flat_heights as (U0 & L0 & U1 & L1 & Uh & Lh).
  cbv zeta. rewrite generate_surface_demo. cbn [fst].
  (* the first assembly attaches z_coords *)
  destruct (blade_mesh_of_solid demo_surface (stacked_upper demo_blade [0; 1])
              (stacked_lower demo_blade [0; 1]) eq_refl eq_refl)
    as (mesh1 & Hmesh1); [discriminate |].
  rewrite (assemble_run demo_surface 4 1 (6 / 5) 0 true _ _ _
             eq_refl eq_refl Hmesh1).
  cbn [fst]. unfold blade_after.
  cbn [z_coords demo_surface with_faces with_vertices
    set_faces_center set_faces_lower set_faces_upper set_vertices_center
    set_vertices_lower set_vertices_upper demo_blade Blade3D_init].
  fold demo_blade. rewrite demo_surface_z_coords.
  set (s2 := set_z_coords _ _).
  (* the second surface, three samples per chord *)
  destruct (generate_surface_ok s2 3) as (xi3 & Hxi3 & _ & Hrun2);
    [cbn; lia | lia |].
  rewrite linspace_0_1_3 in Hxi3. injection Hxi3 as <-.
  rewrite Hrun2. cbn [fst].
  set (s3 := with_faces _ _).
  destruct (flat_layers_z s2 [0; 1 / 2; 1] eq_refl eq_refl eq_refl)
    as [Hzu3 Hzl3].
  destruct (blade_mesh_of_solid s3 (stacked_upper s2 [0; 1 / 2; 1])
              (stacked_lower s2 [0; 1 / 2; 1]) eq_refl eq_refl)
    as (mesh3 & Hmesh3); [discriminate |].
  exists (stacked_upper s2 [0; 1 / 2; 1]), (stacked_lower s2 [0; 1 / 2; 1]).
  eexists.
  split; [reflexivity |]. split; [reflexivity |].
  rewrite Hzu3, Hzl3. cbn [map app]. rewrite U0, L0, U1, L1, Uh, Lh.
  split.
  { cbn [amax fold_left]. rewrite !fmax_fin. eval_extrema. reflexivity. }
  split.
  { cbn [amin fold_left]. rewrite !fmin_fin. eval_extrema. reflexivity. }
  split.
  { cbn [fsub fadd fneg fltb]. apply Rltb_true. lra. }
  rewrite (assemble_run s3 4 1 (6 / 5) 0 true _ _ _ eq_refl eq_refl Hmesh3).
  cbn [snd]. unfold z_coords_after.
  cbn [z_coords s3 s2 set_z_coords with_faces with_vertices
    set_faces_center set_faces_lower set_faces_upper set_vertices_center
    set_vertices_lower set_vertices_upper].
  unfold span_verdict. cbn [amax amin fold_left].
  rewrite !fmax_fin, !fmin_fin. eval_extrema.
  cbn [fsub fadd fneg fltb]. rewrite Rltb_false by lra.
  cbn [blade_copies]. reflexivity.
Qed.

(** ** The diffuser *)

Lemma nth_error_grid {A B C} (f : A -> B -> C) (cols : list B) :
  forall (rows : list A) (i j : nat) (a : A) (b : B),
  nth_error rows i = Some a -> nth_error cols j = Some b ->
  nth_error (flat_map (fun a => map (f a) cols) rows)
            (i * List.length cols + j) = Some (f a b).
Proof.
  induction rows as [| r rows IH]; intros i j a b Hi Hj.
  - destruct i; discriminate.
  - assert (Hjlt : (j < List.length cols)%nat)
      by (apply nth_error_Some; congruence).
    destruct i as [| i]; cbn [flat_map].
    + cbn in Hi. injection Hi as ->. cbn [Nat.mul Nat.add].
      rewrite nth_error_app1 by (rewrite length_map; assumption).
      now rewrite nth_error_map, Hj.
    + cbn in Hi.
      rewrite nth_error_app2 by (rewrite length_map; cbn; lia).
      rewrite length_map.
      replace (S i * List.length cols + j - List.length cols)%nat
        with (i * List.length cols + j)%nat by (cbn; lia).
      now apply IH.
Qed.

Lemma nth_error_range n k :
  (k < Z.to_nat n)%nat -> nth_error (range n) k = Some (Z.of_nat k).
Proof.
  intros Hk. unfold range. rewrite nth_error_map.
  rewrite nth_error_nth' with (d := 0%nat) by (rewrite length_seq; assumption).
  now rewrite seq_nth.
Qed.

(** The first and the last sample of [linspace]. *)
Lemma linspace_first start stop num xi :
  (0 < num)%Z -> linspace start stop num = Ok xi ->
  nth_error xi 0 = Some start.
Proof.
  intros Hnum. unfold linspace.
  destruct (num <? 0)%Z eqn:E; [lia |]. intros [= <-].
  rewrite nth_error_map, nth_error_range by lia. cbn [option_map Z.of_nat].
  f_equal.
  destruct ((1 <? num)%Z && (0 =? num - 1)%Z) eqn:Eb.
  - apply andb_true_iff in Eb. lia.
  - cbn. ring.
Qed.

Lemma linspace_last start stop num xi :
  (1 < num)%Z -> linspace start stop num = Ok xi ->
  nth_error xi (Z.to_nat (num - 1)) = Some stop.
Proof.
  intros Hnum. unfold linspace.
  destruct (num <? 0)%Z eqn:E; [lia |]. intros [= <-].
  rewrite nth_error_map, nth_error_range by lia. cbn [option_map].
  f_equal.
  rewrite Z2Nat.id by lia.
  replace (1 <? num)%Z with true by (symmetry; apply Z.ltb_lt; lia).
  now rewrite Z.eqb_refl.
Qed.

Lemma create_diffuser_hemisphere_bottom radius_base radius_top height z_base :
  exists phi theta,
    linspace 0 (2 * PI) n_phi = Ok phi /\
    linspace 0 (PI / 2) n_theta = Ok theta /\
    List.length phi = 128%nat /\
    create_diffuser "hemisphere" radius_base radius_top height z_base "bottom"
    = Ok (Trimesh
            (hemisphere_verts radius_base
               (fun th => - radius_base * cos th + z_base + radius_base)
               phi theta)
            (grid_triangles n_theta n_phi true)).
Proof.
  destruct (linspace_ok 0 (2 * PI) n_phi) as (phi & Hphi & Hlen);
    [unfold n_phi; lia |].
  destruct (linspace_ok 0 (PI / 2) n_theta) as (theta & Htheta & _);
    [unfold n_theta; lia |].
  exists phi, theta. repeat split; try assumption.
  unfold create_diffuser. cbn [String.eqb Ascii.eqb Bool.eqb].
  rewrite Hphi, Htheta. reflexivity.
Qed.

(** C5, as the code has it.  For [radius_base > 0], the hemisphere with
    [position = "bottom"] is built, and for every azimuth sample [phi[j]]:
    the point of polar angle 0 (row 0 of the grid, the apex) is
    [(0, 0, z_base)], and the point of polar angle pi/2 (row 63, the rim)
    is [(radius_base cos phi, radius_base sin phi, z_base + radius_base)].
    So the apex lies below the rim, the apex is at [z_base], and the rim
    circle of radius [radius_base] is at [z_base + radius_base]. *)
Theorem hemisphere_bottom_geometry (radius_base radius_top height z_base : R) :
  0 < radius_base ->
  exists verts faces phi,
    create_diffuser "hemisphere" radius_base radius_top height z_base "bottom"
    = Ok (Trimesh verts faces) /\
    linspace 0 (2 * PI) n_phi = Ok phi /\
    (forall j ph, nth_error phi j = Some ph ->
       nth_error verts j = Some (Fin 0, Fin 0, Fin z_base) /\
       nth_error verts (63 * 128 + j)
       = Some (Fin (radius_base * cos ph), Fin (radius_base * sin ph),
               Fin (z_base + radius_base))) /\
    z_base < z_base + radius_base.
Proof.
  intros Hr.
  destruct (create_diffuser_hemisphere_bottom radius_base radius_top height
              z_base) as (phi & theta & Hphi & Htheta & Hlen & Hmesh).
  eexists _, _, phi. split; [exact Hmesh |]. split; [exact Hphi |].
  split; [| lra].
  intros j ph Hj.
  pose proof (linspace_first 0 (PI / 2) n_theta theta eq_refl Htheta) as H0.
  pose proof (linspace_last 0 (PI / 2) n_theta theta eq_refl Htheta) as H63.
  change (Z.to_nat (n_theta - 1)) with 63%nat in H63.
  unfold hemisphere_verts. split.
  - change j with (0 * 128 + j)%nat. rewrite <- Hlen.
    rewrite (nth_error_grid _ phi theta 0 j 0 ph H0 Hj).
    rewrite sin_0, cos_0. do 2 f_equal; [f_equal |]; f_equal; ring.
  - rewrite <- Hlen.
    rewrite (nth_error_grid _ phi theta 63 j (PI / 2) ph H63 Hj).
    rewrite sin_PI2, cos_PI2. do 2 f_equal; [f_equal |]; f_equal; ring.
Qed.

Lemma hemisphere_bottom_geometry_witness :
  0 < 1 /\
  exists verts faces,
    create_diffuser "hemisphere" 1 1 1 0 "bottom" = Ok (Trimesh verts faces).
Proof.
  split; [lra |].
  destruct (hemisphere_bottom_geometry 1 1 1 0) as (verts & faces & _ & H & _);
    [lra |].
  exists verts, faces. exact H.
Defined.

(** C5 as stated fails: with [radius_base = 1] and [z_base = 0] the rim
    point at azimuth 0 is [(1, 0, 1)]; the rim is at [z = 1], not at
    [z_base]. *)
Lemma hemisphere_bottom_rim_above_z_base :
  exists verts faces,
    create_diffuser "hemisphere" 1 1 1 0 "bottom" = Ok (Trimesh verts faces) /\
    nth_error verts (63 * 128) = Some (Fin 1, Fin 0, Fin 1) /\
    feqb (Fin 1) (Fin 0) = false.
Proof.
  destruct (create_diffuser_hemisphere_bottom 1 1 1 0)
    as (phi & theta & Hphi & Htheta & Hlen & Hmesh).
  eexists _, _. split; [exact Hmesh |]. split.
  - pose proof (linspace_first 0 (2 * PI) n_phi phi eq_refl Hphi) as H0.
    pose proof (linspace_last 0 (PI / 2) n_theta theta eq_refl Htheta) as H63.
    change (Z.to_nat (n_theta - 1)) with 63%nat in H63.
    unfold hemisphere_verts.
    replace (63 * 128)%nat with (63 * List.length phi + 0)%nat
      by (rewrite Hlen; reflexivity).
    rewrite (nth_error_grid _ phi theta 63 0 (PI / 2) 0 H63 H0).
    rewrite sin_PI2, cos_PI2, sin_0, cos_0.
    do 2 f_equal; [f_equal |]; f_equal; ring.
  - cbn. apply Reqb_false. lra.
Qed.

Lemma create_diffuser_hemisphere_top radius_base radius_top height z_base :
  exists phi theta,
    linspace 0 (2 * PI) n_phi = Ok phi /\
    linspace 0 (PI / 2) n_theta = Ok theta /\
    List.length phi = 128%nat /\
    create_diffuser "hemisphere" radius_base radius_top height z_base "top"
    = Ok (Trimesh
            (hemisphere_verts radius_base
               (fun th => radius_base * cos th + z_base) phi theta)
            (grid_triangles n_theta n_phi true)).
Proof.
  destruct (linspace_ok 0 (2 * PI) n_phi) as (phi & Hphi & Hlen);
    [unfold n_phi; lia |].
  destruct (linspace_ok 0 (PI / 2) n_theta) as (theta & Htheta & _);
    [unfold n_theta; lia |].
  exists phi, theta. repeat split; try assumption.
  unfold create_diffuser. cbn [String.eqb Ascii.eqb Bool.eqb].
  rewrite Hphi, Htheta. reflexivity.
Qed.

(** X3.  For [radius_base > 0], the hemisphere with [position = "top"]
    has its rim circle (polar angle pi/2) at [z_base] and its apex (polar
    angle 0) above it, at [z_base + radius_base]. *)
Theorem hemisphere_top_geometry (radius_base radius_top height z_base : R) :
  0 < radius_base ->
  exists verts faces phi,
    create_diffuser "hemisphere" radius_base radius_top height z_base "top"
    = Ok (Trimesh verts faces) /\
    linspace 0 (2 * PI) n_phi = Ok phi /\
    (forall j ph, nth_error phi j = Some ph ->
       nth_error verts j = Some (Fin 0, Fin 0, Fin (z_base + radius_base)) /\
       nth_error verts (63 * 128 + j)
       = Some (Fin (radius_base * cos ph), Fin (radius_base * sin ph),
               Fin z_base)) /\
    z_base < z_base + radius_base.
Proof.
  intros Hr.
  destruct (create_diffuser_hemisphere_top radius_base radius_top height
              z_base) as (phi & theta & Hphi & Htheta & Hlen & Hmesh).
  eexists _, _, phi. split; [exact Hmesh |]. split; [exact Hphi |].
  split; [| lra].
  intros j ph Hj.
  pose proof (linspace_first 0 (PI / 2) n_theta theta eq_refl Htheta) as H0.
  pose proof (linspace_last 0 (PI / 2) n_theta theta eq_refl Htheta) as H63.
  change (Z.to_nat (n_theta - 1)) with 63%nat in H63.
  unfold hemisphere_verts. split.
  - change j with (0 * 128 + j)%nat. rewrite <- Hlen.
    rewrite (nth_error_grid _ phi theta 0 j 0 ph H0 Hj).
    rewrite sin_0, cos_0. do 2 f_equal; [f_equal |]; f_equal; ring.
  - rewrite <- Hlen.
    rewrite (nth_error_grid _ phi theta 63 j (PI / 2) ph H63 Hj).
    rewrite sin_PI2, cos_PI2. do 2 f_equal; [f_equal |]; f_equal; ring.
Qed.

Lemma hemisphere_top_geometry_witness :
  0 < 1 /\
  exists verts faces,
    create_diffuser "hemisphere" 1 1 1 0 "top" = Ok (Trimesh verts faces).
Proof.
  split; [lra |].
  destruct (hemisphere_top_geometry 1 1 1 0) as (verts & faces & _ & Hm & _);
    [lra |].
  exists verts, faces. exact Hm.
Defined.

Lemma create_diffuser_paraboloid_bottom radius_base radius_top height z_base :
  exists phi r,
    linspace 0 (2 * PI) 128 = Ok phi /\
    linspace 0 radius_base 128 = Ok r /\
    List.length r = 128%nat /\
    create_diffuser "paraboloid" radius_base radius_top height z_base "bottom"
    = Ok (Trimesh
            (paraboloid_verts
               (fun rr => (Fin height * (Fin rr / Fin radius_base) ** 2
                           + Fin z_base)%npf) phi r)
            (grid_triangles 128 128 false)).
Proof.
  destruct (linspace_ok 0 (2 * PI) 128) as (phi & Hphi & _); [lia |].
  destruct (linspace_ok 0 radius_base 128) as (r & Hr & Hlen); [lia |].
  exists phi, r. repeat split; try assumption.
  unfold create_diffuser. cbn [String.eqb Ascii.eqb Bool.eqb].
  rewrite Hphi, Hr. reflexivity.
Qed.

(** X4.  For [radius_base > 0], the paraboloid with
    [position = "bottom"] has its apex ([r = 0]) at [z_base] and its rim
    ([r = radius_base]) at [z_base + height]: the same convention as the
    bottom hemisphere. *)
Theorem paraboloid_bottom_geometry
    (radius_base radius_top height z_base : R) :
  0 < radius_base ->
  exists verts faces phi,
    create_diffuser "paraboloid" radius_base radius_top height z_base "bottom"
    = Ok (Trimesh verts faces) /\
    linspace 0 (2 * PI) 128 = Ok phi /\
    (forall i ph, nth_error phi i = Some ph ->
       nth_error verts (i * 128) = Some (Fin 0, Fin 0, Fin z_base) /\
       nth_error verts (i * 128 + 127)
       = Some (Fin (radius_base * cos ph), Fin (radius_base * sin ph),
               Fin (z_base + height))).
Proof.
  intros Hrb.
  destruct (create_diffuser_paraboloid_bottom radius_base radius_top height
              z_base) as (phi & r & Hphi & Hr & Hlen & Hmesh).
  eexists _, _, phi. split; [exact Hmesh |]. split; [exact Hphi |].
  intros i ph Hi.
  pose proof (linspace_first 0 radius_base 128 r eq_refl Hr) as H0.
  pose proof (linspace_last 0 radius_base 128 r eq_refl Hr) as H127.
  change (Z.to_nat (128 - 1)) with 127%nat in H127.
  unfold paraboloid_verts. split.
  - replace (i * 128)%nat with (i * List.length r + 0)%nat
      by (rewrite Hlen; lia).
    rewrite (nth_error_grid _ r phi i 0 ph 0 Hi H0).
    cbn [fdiv]. rewrite Reqb_false by lra.
    replace (0 / radius_base) with 0 by (unfold Rdiv; ring).
    cbn [np_power]. rewrite pow_finite_zero by lra. cbn [fmul fadd].
    do 2 f_equal; [f_equal |]; f_equal; ring.
  - rewrite <- Hlen.
    rewrite (nth_error_grid _ r phi i 127 ph radius_base Hi H127).
    cbn [fdiv]. rewrite Reqb_false by lra.
    replace (radius_base / radius_base) with 1 by (field; lra).
    cbn [np_power]. rewrite pow_finite_one. cbn [fmul fadd].
    do 2 f_equal; f_equal; ring.
Qed.

Lemma paraboloid_bottom_geometry_witness :
  0 < 1 /\
  exists verts faces,
    create_diffuser "paraboloid" 1 1 1 0 "bottom" = Ok (Trimesh verts faces).
Proof.
  split; [lra |].
  destruct (paraboloid_bottom_geometry 1 1 1 0) as (verts & faces & _ & Hm & _);
    [lra |].
  exists verts, faces. exact Hm.
Defined.

(** C10.  Two calls of [create_diffuser] that differ only in
    [radius_top] give the same result (mesh or error); for the shape
    ["hemisphere"] the result does not depend on [height] either. *)
Theorem create_diffuser_ignores_radius_top
    (shape position : string)
    (radius_base radius_top radius_top' height height' z_base : R) :
  create_diffuser shape radius_base radius_top height z_base position
  = create_diffuser shape radius_base radius_top' height z_base position /\
  create_diffuser "hemisphere" radius_base radius_top height z_base position
  = create_diffuser "hemisphere" radius_base radius_top' height' z_base
      position.
Proof. split; reflexivity. Qed.

(** ** More on the shape primitives *)

Lemma frac_part_small a : 0 < a < 1 -> frac_part a = a.
Proof.
  intros Ha.
  destruct (Int_part_frac_part_spec a 0 a) as [_ Hf]; [lra | simpl; lra |].
  now rewrite <- Hf.
Qed.

Lemma pow_finite_neg_base x a : x < 0 -> 0 < a < 1 -> pow_finite x a = NaN.
Proof.
  intros Hx Ha. unfold pow_finite, is_integer.
  rewrite Reqb_false by lra. rewrite Rltb_false by lra.
  rewrite Reqb_false by lra. rewrite frac_part_small by assumption.
  now rewrite Reqb_false by lra.
Qed.

Lemma fmul_nan_r u : fmul u NaN = NaN.
Proof. destruct u; reflexivity. Qed.

Lemma pow_finite_unit x y :
  0 <= x <= 1 -> 0 <= y ->
  exists t, pow_finite x y = Fin t /\ 0 <= t <= 1.
Proof.
  intros Hx Hy.
  destruct (Req_dec_T y 0) as [-> | Hy0].
  { rewrite pow_finite_exp_0. exists 1. split; [reflexivity | lra]. }
  destruct (Req_dec_T x 0) as [-> | Hx0].
  { rewrite pow_finite_zero by lra. exists 0. split; [reflexivity | lra]. }
  rewrite pow_finite_pos by lra. eexists. split; [reflexivity |].
  split; [left; apply Rpower_pos |].
  unfold Rpower. rewrite <- exp_0.
  assert (Hln : ln x <= 0) by (pose proof (ln_le_minus_1 x); lra).
  assert (Hprod : y * ln x <= 0) by nra.
  destruct Hprod as [Hlt | Heq].
  - left. now apply exp_increasing.
  - right. now rewrite Heq.
Qed.

(** X5.  A chord coordinate outside [0,1] does not raise: the envelope is
    [nan] there, for every [alpha]. *)
Theorem beta_distribution_outside_chord (x alpha : R) :
  x < 0 \/ 1 < x -> beta_distribution x alpha = NaN.
Proof.
  intros Hx. unfold beta_distribution.
  set (a := clip alpha eps (1 - eps)).
  pose proof (clip_alpha_range alpha) as Ha. fold a in Ha.
  pose proof eps_pos as He. assert (eps < 1) by (unfold eps; lra).
  destruct Hx as [Hx | Hx].
  - cbn [np_power]. rewrite (pow_finite_neg_base x a) by lra. reflexivity.
  - cbn [np_power]. rewrite (pow_finite_neg_base (1 - x) (1 - a)) by lra.
    rewrite fmul_nan_r. reflexivity.
Qed.

Lemma beta_distribution_outside_chord_witness :
  (-1 < 0 \/ 1 < -1) /\ beta_distribution (-1) (2 / 5) = NaN.
Proof.
  assert (Hx : -1 < 0 \/ 1 < -1) by (left; lra).
  split; [exact Hx |].
  exact (beta_distribution_outside_chord (-1) (2 / 5) Hx).
Defined.

Lemma thickness_distribution_unit x a b beta :
  0 <= beta ->
  exists t, thickness_distribution x a b beta = Fin t /\ 0 <= t <= 1.
Proof.
  intros Hbeta. rewrite thickness_distribution_unfold. cbv zeta.
  destruct (Rleb (clamped_b b) x).
  - apply pow_finite_unit; [| assumption].
    pose proof (COS_bound (PI * (x - clamped_b b) / (1 - clamped_b b))).
    lra.
  - destruct (Rleb x (clamped_a a)).
    + apply pow_finite_unit; [| assumption].
      pose proof (COS_bound (PI * x / clamped_a a)). lra.
    + exists 1. split; [reflexivity | lra].
Qed.

Lemma tapered_thickness_unit x a b beta taper :
  0 <= beta -> 0 <= x <= 1 -> 0 <= taper <= 1 ->
  exists t, tapered_thickness_distribution x a b beta taper = Fin t
            /\ 0 <= t <= 1.
Proof.
  intros Hbeta Hx Ht.
  destruct (thickness_distribution_unit x a b beta Hbeta)
    as (t & Ht0 & Hrange).
  unfold tapered_thickness_distribution. rewrite Ht0. cbn [fmul].
  assert (Hc : 0 <= 1 - taper * x <= 1) by nra.
  eexists. split; [reflexivity |]. nra.
Qed.

(** X6.  For [beta >= 0] the thickness profile is a number in [0,1] at
    every [x] and for every [a], [b]; and so is the tapered profile for
    [x] and [taper] in [0,1]. *)
Theorem thickness_distribution_unit_range (x a b beta taper : R) :
  0 <= beta ->
  (exists t, thickness_distribution x a b beta = Fin t /\ 0 <= t <= 1) /\
  (0 <= x <= 1 -> 0 <= taper <= 1 ->
   exists t, tapered_thickness_distribution x a b beta taper = Fin t
             /\ 0 <= t <= 1).
Proof.
  intros Hbeta. split.
  - now apply thickness_distribution_unit.
  - intros Hx Ht. now apply tapered_thickness_unit.
Qed.

Lemma thickness_distribution_unit_range_witness :
  0 <= 3 / 10 /\
  exists t, thickness_distribution (1 / 20) (1 / 5) (4 / 5) (3 / 10) = Fin t
            /\ 0 <= t <= 1.
Proof.
  split; [lra |].
  apply (thickness_distribution_unit_range (1 / 20) (1 / 5) (4 / 5) (3 / 10) 0).
  lra.
Defined.

Lemma clip_idempotent v lo hi : lo <= hi ->
  clip (clip v lo hi) lo hi = clip v lo hi.
Proof. intros Hle. apply clip_id. now apply clip_range. Qed.

(** X7.  Parameters out of range act as the nearest bound: the thickness
    profile depends on [a] and [b] only through their clamped values (so
    [a >= 0.3] acts as 0.3 and [b <= 0.7] as 0.7), and both envelopes depend
    on [alpha] only through [clip(alpha, 1e-9, 1 - 1e-9)]. *)
Theorem shape_parameters_clamped (x a b beta alpha kappa : R) :
  thickness_distribution x a b beta
  = thickness_distribution x (clip a (1 / 10) (3 / 10))
      (clip b (7 / 10) (9 / 10)) beta /\
  beta_distribution x alpha
  = beta_distribution x (clip alpha eps (1 - eps)) /\
  beta_distribution_extended x alpha kappa
  = beta_distribution_extended x (clip alpha eps (1 - eps)) kappa.
Proof.
  assert (He : eps <= 1 - eps) by (unfold eps; lra).
  unfold thickness_distribution, beta_distribution,
    beta_distribution_extended.
  rewrite !clip_idempotent by lra. repeat split; reflexivity.
Qed.

(** ** The layer radius *)

(** X8.  [_layer_radius]: a layer's own ['radius'] wins; otherwise a
    blade of at most one layer sits at the hub radius, and with [n >= 2]
    layers the radius runs linearly from the hub radius at layer 0 to the
    shroud radius at layer [n - 1], staying between the two when
    [hub_radius <= shroud_radius]. *)
Theorem layer_radius_interpolates (self : Blade3D) (li : Layer) (i n : Z) :
  (forall r, layer_radius li = Some r -> _layer_radius self li i n = r) /\
  (layer_radius li = None ->
   ((n <= 1)%Z -> _layer_radius self li i n = hub_radius self) /\
   ((2 <= n)%Z ->
    _layer_radius self li 0 n = hub_radius self /\
    _layer_radius self li (n - 1) n = shroud_radius self /\
    ((0 <= i <= n - 1)%Z -> hub_radius self <= shroud_radius self ->
     hub_radius self <= _layer_radius self li i n <= shroud_radius self))).
Proof.
  unfold _layer_radius. split.
  - intros r ->. reflexivity.
  - intros ->. split.
    + intros Hn. replace (n <=? 1)%Z with true by (symmetry; apply Z.leb_le; lia).
      ring.
    + intros Hn.
      replace (n <=? 1)%Z with false by (symmetry; apply Z.leb_gt; lia).
      assert (Hpos : 0 < IZR (n - 1)) by (apply IZR_lt; lia).
      split; [unfold Rdiv; ring |].
      split; [field; lra |].
      intros Hi Hle.
      assert (H0 : 0 <= IZR i) by (apply IZR_le; lia).
      assert (H1 : IZR i <= IZR (n - 1)) by (apply IZR_le; lia).
      assert (Hw : 0 <= IZR i / IZR (n - 1) <= 1).
      { split.
        - apply Rmult_le_pos; [assumption |].
          left. now apply Rinv_0_lt_compat.
        - apply Rmult_le_reg_r with (IZR (n - 1)); [assumption |].
          unfold Rdiv. rewrite Rmult_assoc, Rinv_l by lra. lra. }
      nra.
Qed.

(** ** Where [generate_surface] puts the vertices *)

Lemma nth_error_combine {A B} (l1 : list A) : forall (l2 : list B) i a b,
  nth_error l1 i = Some a -> nth_error l2 i = Some b ->
  nth_error (combine l1 l2) i = Some (a, b).
Proof.
  induction l1 as [| x l1 IH]; intros l2 i a b H1 H2.
  - destruct i; discriminate.
  - destruct l2 as [| y l2]; [destruct i; discriminate |].
    destruct i as [| i]; cbn in *.
    + congruence.
    + now apply IH.
Qed.

Lemma nth_error_enumerate {A} (l : list A) i a :
  nth_error l i = Some a ->
  nth_error (enumerate l) i = Some (Z.of_nat i, a).
Proof.
  intros Hi.
  assert (Hlt : (i < List.length l)%nat) by (apply nth_error_Some; congruence).
  unfold enumerate. apply nth_error_combine; [| assumption].
  apply nth_error_range. unfold len. lia.
Qed.

Lemma layer_points_rows self xi n i prm :
  n = len (layers self) ->
  layer_points self xi n i prm =
  (map (fun x => (layer_xy self prm i x,
                  (layer_z_center self prm x + layer_half_thickness prm x)%npf))
       xi,
   map (fun x => (layer_xy self prm i x,
                  (layer_z_center self prm x - layer_half_thickness prm x)%npf))
       xi,
   map (fun x => (layer_xy self prm i x, layer_z_center self prm x)) xi).
Proof.
  intros ->.
  unfold layer_points, layer_xy, layer_z_center, layer_half_thickness,
    layer_gamma, layer_tau.
  destruct (mode_is prm "extended"), (mode_is prm "tapered"); reflexivity.
Qed.

Lemma flat_map_rows {A B C} (f : A -> list C) (g : A -> B -> C)
    (cols : list B) (rows : list A) :
  (forall a, f a = map (g a) cols) ->
  List.concat (map f rows) = flat_map (fun a => map (g a) cols) rows.
Proof.
  intros Hf. rewrite <- flat_map_concat_map.
  apply flat_map_ext. exact Hf.
Qed.

Lemma stacked_as_grids self xi :
  stacked_upper self xi
  = flat_map (fun ip : Z * Layer =>
      map (fun x => (layer_xy self (snd ip) (fst ip) x,
             (layer_z_center self (snd ip) x
              + layer_half_thickness (snd ip) x)%npf)) xi)
      (enumerate (layers self)) /\
  stacked_lower self xi
  = flat_map (fun ip : Z * Layer =>
      map (fun x => (layer_xy self (snd ip) (fst ip) x,
             (layer_z_center self (snd ip) x
              - layer_half_thickness (snd ip) x)%npf)) xi)
      (enumerate (layers self)) /\
  stacked_center self xi
  = flat_map (fun ip : Z * Layer =>
      map (fun x => (layer_xy self (snd ip) (fst ip) x,
                     layer_z_center self (snd ip) x)) xi)
      (enumerate (layers self)).
Proof.
  unfold stacked_upper, stacked_lower, stacked_center, per_layer_points.
  rewrite !map_map.
  repeat split; apply flat_map_rows; intros [i prm];
    rewrite (layer_points_rows self xi _ i prm eq_refl); reflexivity.
Qed.

(** The vertex of layer [i] and chord sample [j] sits at the flat index
    [i * N + j] of each cloud. *)
Lemma surface_vertex_at self N xi i j prm x :
  snd (generate_surface N self) = Ok tt ->
  linspace 0 1 N = Ok xi ->
  nth_error (layers self) i = Some prm -> nth_error xi j = Some x ->
  let self' := fst (generate_surface N self) in
  let k := (i * Z.to_nat N + j)%nat in
  let xy := layer_xy self prm (Z.of_nat i) x in
  let zc := layer_z_center self prm x in
  let d := layer_half_thickness prm x in
  exists vu vl vc,
    vertices_upper self' = Some vu /\ vertices_lower self' = Some vl /\
    vertices_center self' = Some vc /\
    nth_error vu k = Some (xy, (zc + d)%npf) /\
    nth_error vl k = Some (xy, (zc - d)%npf) /\
    nth_error vc k = Some (xy, zc).
Proof.
  intros Hret Hxi Hi Hj. cbv zeta.
  apply generate_surface_returns in Hret. destruct Hret as [HL HN].
  destruct (generate_surface_ok self N HL HN) as (xi' & Hxi' & Hlen & Hrun).
  rewrite Hxi in Hxi'. injection Hxi' as <-.
  rewrite Hrun. cbn [fst].
  exists (stacked_upper self xi), (stacked_lower self xi),
         (stacked_center self xi).
  repeat (split; [reflexivity |]).
  destruct (stacked_as_grids self xi) as (-> & -> & ->).
  pose proof (nth_error_enumerate _ _ _ Hi) as Hrow.
  rewrite <- Hlen.
  repeat split;
    rewrite (nth_error_grid _ xi (enumerate (layers self)) i j _ x Hrow Hj);
    reflexivity.
Qed.

(** X9.  Where [generate_surface] puts a vertex.  After a returning call
    with [N] points per chord, the sample [xi[j]] of layer [i] is at index
    [i * N + j] of each of the three clouds; the three vertices share
    their position in the plane, which lies on the circle of the layer's
    radius around the axis, at the angle [theta0 + x * Theta]; and their
    heights are the camber height plus, minus and without the half
    thickness. *)
Theorem surface_vertex_layout (self : Blade3D) (N : Z) (xi : list R)
    (i j : nat) (prm : Layer) (x : R) :
  snd (generate_surface N self) = Ok tt ->
  linspace 0 1 N = Ok xi ->
  nth_error (layers self) i = Some prm -> nth_error xi j = Some x ->
  let self' := fst (generate_surface N self) in
  let k := (i * Z.to_nat N + j)%nat in
  let radius := _layer_radius self prm (Z.of_nat i) (len (layers self)) in
  let theta := layer_theta0 prm + x * Theta self in
  let zc := layer_z_center self prm x in
  let d := layer_half_thickness prm x in
  exists vu vl vc,
    vertices_upper self' = Some vu /\ vertices_lower self' = Some vl /\
    vertices_center self' = Some vc /\
    nth_error vu k
    = Some (Fin (cos theta * radius), Fin (sin theta * radius), (zc + d)%npf) /\
    nth_error vl k
    = Some (Fin (cos theta * radius), Fin (sin theta * radius), (zc - d)%npf) /\
    nth_error vc k
    = Some (Fin (cos theta * radius), Fin (sin theta * radius), zc) /\
    (cos theta * radius) * (cos theta * radius)
    + (sin theta * radius) * (sin theta * radius) = radius * radius.
Proof.
  intros Hret Hxi Hi Hj. cbv zeta.
  destruct (surface_vertex_at self N xi i j prm x Hret Hxi Hi Hj)
    as (vu & vl & vc & Hu & Hl & Hc & Ku & Kl & Kc).
  exists vu, vl, vc. repeat (split; [assumption |]).
  pose proof (sin2_cos2 (layer_theta0 prm + x * Theta self)) as Hsc.
  unfold Rsqr in Hsc. nra.
Qed.

Lemma surface_vertex_layout_witness :
  snd (generate_surface 2 demo_blade) = Ok tt /\
  exists vu z,
    vertices_upper (fst (generate_surface 2 demo_blade)) = Some vu /\
    nth_error vu 3 = Some (Fin (cos (0 + 1 * 0) * 2), Fin (sin (0 + 1 * 0) * 2), z).
Proof.
  assert (Hret : snd (generate_surface 2 demo_blade) = Ok tt)
    by (now rewrite generate_surface_demo).
  split; [exact Hret |].
  destruct (surface_vertex_layout demo_blade 2 [0; 1] 1 1 flat_layer 1
              Hret linspace_0_1_2 eq_refl eq_refl)
    as (vu & _ & _ & Hu & _ & _ & Ku & _).
  exists vu. eexists. split; [exact Hu |].
  cbn [Z.to_nat Pos.to_nat Pos.iter_op Nat.add Nat.mul] in Ku.
  unfold _layer_radius in Ku. cbn in Ku.
  replace ((1 - 1 / 1) * 1 + 1 / 1 * 2) with 2 in Ku by field.
  exact Ku.
Defined.

(** ** The leading and the trailing edge *)

Lemma extended_denominator alpha kappa :
  let a := clip alpha eps (1 - eps) in
  exists d, ((Fin a ** a * Fin (1 - a) ** (1 - a) + Fin eps) ** kappa)%npf
            = Fin d /\ 0 < d.
Proof.
  intros a.
  pose proof (clip_alpha_range alpha) as Ha. fold a in Ha.
  pose proof eps_pos as He. assert (eps < 1) by (unfold eps; lra).
  pose proof (Rpower_pos a a). pose proof (Rpower_pos (1 - a) (1 - a)).
  cbn [np_power]. rewrite !pow_finite_pos by lra. cbn [fmul fadd np_power].
  rewrite pow_finite_pos by nra.
  eexists. split; [reflexivity | apply Rpower_pos].
Qed.

Lemma beta_distribution_extended_ends alpha kappa :
  0 < kappa ->
  beta_distribution_extended 0 alpha kappa = Fin 0 /\
  beta_distribution_extended 1 alpha kappa = Fin 0.
Proof.
  intros Hk. unfold beta_distribution_extended.
  destruct (extended_denominator alpha kappa) as (d & -> & Hd).
  set (a := clip alpha eps (1 - eps)).
  pose proof (clip_alpha_range alpha) as Ha. fold a in Ha.
  pose proof eps_pos as He. assert (eps < 1) by (unfold eps; lra).
  assert (0 < kappa * a) by nra. assert (0 < kappa * (1 - a)) by nra.
  split; cbn [np_power].
  - rewrite (pow_finite_zero (kappa * a)) by assumption.
    replace (1 - 0) with 1 by ring. rewrite pow_finite_one.
    cbn [fmul fdiv]. rewrite Reqb_false by lra. f_equal. unfold Rdiv. ring.
  - replace (1 - 1) with 0 by ring.
    rewrite (pow_finite_zero (kappa * (1 - a))) by assumption.
    rewrite pow_finite_one.
    cbn [fmul fdiv]. rewrite Reqb_false by lra. f_equal. unfold Rdiv. ring.
Qed.

Lemma layer_gamma_ends prm :
  (mode_is prm "extended" = true -> 0 < get_or (layer_kappa prm) (3 / 2)) ->
  layer_gamma prm 0 = Fin 0 /\ layer_gamma prm 1 = Fin 0.
Proof.
  intros Hk. unfold layer_gamma.
  destruct (mode_is prm "extended").
  - apply beta_distribution_extended_ends. now apply Hk.
  - split; [apply beta_distribution_at_0 | apply beta_distribution_at_1].
Qed.

Lemma layer_tau_ends prm :
  0 < layer_beta prm ->
  layer_tau prm 0 = Fin 0 /\ layer_tau prm 1 = Fin 0.
Proof.
  intros Hb. unfold layer_tau, tapered_thickness_distribution.
  rewrite thickness_at_0, thickness_at_1, pow_finite_zero by assumption.
  destruct (mode_is prm "tapered"); cbn [fmul];
    split; try reflexivity; f_equal; ring.
Qed.

Lemma Some_vertex_eq (xy : npfloat * npfloat) (a b : R) :
  a = b -> Some (xy, Fin a) = Some (xy, Fin b).
Proof. now intros ->. Qed.

(** X10.  The blade is closed at both edges.  For a layer with
    [beta > 0] (and, in the extended mode, [kappa] between 0.01 and 100,
    where the envelope's denominator does not underflow) the upper, the
    lower and the center cloud have the same vertex at the first sample of
    the layer, at height [z0], and the same vertex at its last sample, at
    height [z0 + H]. *)
Theorem blade_edges_closed (self : Blade3D) (N : Z) (i : nat) (prm : Layer) :
  snd (generate_surface N self) = Ok tt ->
  nth_error (layers self) i = Some prm ->
  0 < layer_beta prm ->
  kappa_in_range prm ->
  let self' := fst (generate_surface N self) in
  let n := Z.to_nat N in
  exists vu vl vc leading trailing,
    vertices_upper self' = Some vu /\ vertices_lower self' = Some vl /\
    vertices_center self' = Some vc /\
    nth_error vu (i * n) = Some leading /\
    nth_error vl (i * n) = Some leading /\
    nth_error vc (i * n) = Some leading /\
    vertex_z leading = Fin (z0 self) /\
    nth_error vu (i * n + (n - 1)) = Some trailing /\
    nth_error vl (i * n + (n - 1)) = Some trailing /\
    nth_error vc (i * n + (n - 1)) = Some trailing /\
    vertex_z trailing = Fin (z0 self + H self).
Proof.
  intros Hret Hi Hbeta Hkappa. cbv zeta.
  pose proof (generate_surface_returns self N Hret) as [HL HN].
  destruct (linspace_ok 0 1 N) as (xi & Hxi & Hlen); [lia |].
  pose proof (linspace_first 0 1 N xi ltac:(lia) Hxi) as Hfirst.
  pose proof (linspace_last 0 1 N xi ltac:(lia) Hxi) as Hlast.
  destruct (surface_vertex_at self N xi i 0 prm 0 Hret Hxi Hi Hfirst)
    as (vu & vl & vc & Hu & Hl & Hc & Ku & Kl & Kc).
  destruct (surface_vertex_at self N xi i _ prm 1 Hret Hxi Hi Hlast)
    as (vu' & vl' & vc' & Hu' & Hl' & Hc' & Ku' & Kl' & Kc').
  rewrite Hu in Hu'. rewrite Hl in Hl'. rewrite Hc in Hc'.
  injection Hu' as <-. injection Hl' as <-. injection Hc' as <-.
  assert (Hpos : mode_is prm "extended" = true ->
                 0 < get_or (layer_kappa prm) (3 / 2)).
  { intros Hm. specialize (Hkappa Hm). lra. }
  destruct (layer_gamma_ends prm Hpos) as [G0 G1].
  destruct (layer_tau_ends prm Hbeta) as [T0 T1].
  unfold layer_z_center, layer_half_thickness in *.
  rewrite G0 in Ku, Kl, Kc. rewrite T0 in Ku, Kl.
  rewrite G1 in Ku', Kl', Kc'. rewrite T1 in Ku', Kl'.
  cbn [fmul fsub fadd fneg] in Ku, Kl, Kc, Ku', Kl', Kc'.
  rewrite Nat.add_0_r in Ku, Kl, Kc.
  replace (Z.to_nat (N - 1)) with (Z.to_nat N - 1)%nat in Ku', Kl', Kc' by lia.
  exists vu, vl, vc.
  exists (layer_xy self prm (Z.of_nat i) 0, Fin (z0 self)),
         (layer_xy self prm (Z.of_nat i) 1, Fin (z0 self + H self)).
  repeat (split; [assumption |]).
  repeat split.
  all: first [ reflexivity
             | rewrite Ku | rewrite Kl | rewrite Kc
             | rewrite Ku' | rewrite Kl' | rewrite Kc' ];
    try (apply Some_vertex_eq; ring).
Qed.

Lemma blade_edges_closed_witness :
  (snd (generate_surface 2 demo_blade) = Ok tt /\ 0 < layer_beta flat_layer) /\
  exists vu vl leading,
    vertices_upper (fst (generate_surface 2 demo_blade)) = Some vu /\
    vertices_lower (fst (generate_surface 2 demo_blade)) = Some vl /\
    nth_error vu 2 = Some leading /\ nth_error vl 2 = Some leading /\
    vertex_z leading = Fin 0.
Proof.
  assert (Hret : snd (generate_surface 2 demo_blade) = Ok tt)
    by (now rewrite generate_surface_demo).
  assert (Hbeta : 0 < layer_beta flat_layer) by (cbn; lra).
  split; [split; assumption |].
  destruct (blade_edges_closed demo_blade 2 1 flat_layer Hret eq_refl Hbeta)
    as (vu & vl & _ & leading & _ & Hu & Hl & _ & Ku & Kl & _ & Kz & _).
  { intros Hmode. discriminate Hmode. }
  exists vu, vl, leading. repeat split; assumption.
Defined.

(** ** The triangles of the solid *)

Lemma length_flat_map_const {A B} (f : A -> list B) (l : list A) (k : nat) :
  (forall a, In a l -> List.length (f a) = k) ->
  List.length (flat_map f l) = (List.length l * k)%nat.
Proof.
  induction l as [| a l IH]; intros Hf; cbn; [reflexivity |].
  rewrite length_app, Hf by (left; reflexivity).
  rewrite IH by (intros b Hb; apply Hf; right; exact Hb). reflexivity.
Qed.

Lemma quad_corners_in_block N L offset i j :
  (0 <= i < L - 1)%Z -> (0 <= j < N - 1)%Z ->
  quad_corner_bound N L offset (i * N + offset + j) /\
  quad_corner_bound N L offset (i * N + offset + j + 1) /\
  quad_corner_bound N L offset ((i + 1) * N + offset + j + 1) /\
  quad_corner_bound N L offset ((i + 1) * N + offset + j).
Proof.
  intros Hi Hj. unfold quad_corner_bound.
  assert ((i + 1) * N + j + 1 <= L * N)%Z by nia.
  assert (0 <= i * N)%Z by nia.
  repeat split; nia.
Qed.

Lemma upper_triangles_length N L :
  List.length (upper_triangles N L)
  = (Z.to_nat (L - 1) * (Z.to_nat (N - 1) * 2))%nat.
Proof.
  unfold upper_triangles.
  rewrite (length_flat_map_const _ _ (Z.to_nat (N - 1) * 2));
    [now rewrite range_length |].
  intros i _. rewrite (length_flat_map_const _ _ 2);
    [now rewrite range_length | reflexivity].
Qed.

Lemma lower_triangles_length N L offset :
  List.length (lower_triangles N L offset)
  = (Z.to_nat (L - 1) * (Z.to_nat (N - 1) * 2))%nat.
Proof.
  unfold lower_triangles.
  rewrite (length_flat_map_const _ _ (Z.to_nat (N - 1) * 2));
    [now rewrite range_length |].
  intros i _. rewrite (length_flat_map_const _ _ 2);
    [now rewrite range_length | reflexivity].
Qed.

Lemma side_triangles_length N L offset :
  List.length (side_triangles N L offset)
  = (Z.to_nat L * (Z.to_nat (N - 1) * 2))%nat.
Proof.
  unfold side_triangles.
  rewrite (length_flat_map_const _ _ (Z.to_nat (N - 1) * 2));
    [now rewrite range_length |].
  intros i _. rewrite (length_flat_map_const _ _ 2);
    [now rewrite range_length | reflexivity].
Qed.

Lemma upper_triangles_within N L :
  Forall (triangle_within 0 (L * N)) (upper_triangles N L).
Proof.
  apply Forall_forall. intros f Hf. unfold upper_triangles in Hf.
  apply in_flat_map in Hf. destruct Hf as (i & Hi & Hf).
  apply in_flat_map in Hf. destruct Hf as (j & Hj & Hf).
  apply In_range in Hi. apply In_range in Hj.
  destruct (quad_corners_in_block N L 0 i j Hi Hj) as (H0 & H1 & H2 & H3).
  unfold quad_corner_bound in *. rewrite !Z.add_0_r in *.
  cbn in Hf. destruct Hf as [<- | [<- | []]];
    eexists _, _, _; (split; [reflexivity |]); repeat split; lia.
Qed.

Lemma lower_triangles_within N L offset :
  Forall (triangle_within offset (offset + L * N))
         (lower_triangles N L offset).
Proof.
  apply Forall_forall. intros f Hf. unfold lower_triangles in Hf.
  apply in_flat_map in Hf. destruct Hf as (i & Hi & Hf).
  apply in_flat_map in Hf. destruct Hf as (j & Hj & Hf).
  apply In_range in Hi. apply In_range in Hj.
  destruct (quad_corners_in_block N L offset i j Hi Hj) as (H0 & H1 & H2 & H3).
  unfold quad_corner_bound in *.
  cbn in Hf. destruct Hf as [<- | [<- | []]];
    eexists _, _, _; (split; [reflexivity |]); repeat split; lia.
Qed.

Lemma side_triangles_within N L offset :
  (0 <= offset)%Z ->
  Forall (triangle_within 0 (offset + L * N)) (side_triangles N L offset).
Proof.
  intros Hoff.
  apply Forall_forall. intros f Hf. unfold side_triangles in Hf.
  apply in_flat_map in Hf. destruct Hf as (i & Hi & Hf).
  apply in_flat_map in Hf. destruct Hf as (j & Hj & Hf).
  apply In_range in Hi. apply In_range in Hj.
  assert (i * N + j + 1 < L * N)%Z by nia.
  assert (0 <= i * N)%Z by nia.
  cbn in Hf. destruct Hf as [<- | [<- | []]];
    eexists _, _, _; (split; [reflexivity |]); repeat split; lia.
Qed.

Lemma triangle_within_weaken lo hi lo' hi' f :
  (lo' <= lo)%Z -> (hi <= hi')%Z ->
  triangle_within lo hi f -> triangle_within lo' hi' f.
Proof.
  intros Hlo Hhi (a & b & c & -> & Ha & Hb & Hc).
  exists a, b, c. repeat split; lia.
Qed.

Lemma solid_value self mode vu :
  vertices_upper self = Some vu -> layers self <> [] ->
  (mode_in mode ["lower"; "both"]%string = true ->
   vertices_lower self <> None) ->
  let L := len (layers self) in
  let N := (len vu / L)%Z in
  let upper := if mode_in mode ["upper"; "both"]%string then vu else [] in
  let lower :=
    if mode_in mode ["lower"; "both"]%string
    then get_or (vertices_lower self) [] else [] in
  let offset := if mode_in mode ["both"]%string then len vu else 0%Z in
  _generate_solid_from_surfaces mode self =
  (self,
   Ok (post_processed (upper ++ lower)
         ((if mode_in mode ["upper"; "both"]%string
           then upper_triangles N L else [])
          ++ (if mode_in mode ["lower"; "both"]%string
              then lower_triangles N L offset else [])
          ++ (if String.eqb mode "both"
              then side_triangles N L offset else [])))).
Proof.
  intros Hu Hlayers Hlower. cbv zeta.
  unfold _generate_solid_from_surfaces, bind, get.
  rewrite Hu. cbn [ret array_of]. rewrite Hu. cbn [ret array_of].
  assert (Hn : (len (layers self) =? 0)%Z = false).
  { apply Z.eqb_neq. unfold len.
    destruct (layers self); [congruence | cbn; lia]. }
  rewrite Hn.
  destruct (mode_in mode ["upper"; "both"]%string);
    destruct (mode_in mode ["lower"; "both"]%string) eqn:El;
    cbn [ret array_of];
    try (destruct (vertices_lower self) as [vl |]; [| now elim Hlower]);
    reflexivity.
Qed.

(** X11.  What [_generate_solid_from_surfaces("both")] hands to trimesh.
    With clouds of [L * N] points each ([L >= 1] layers, [N >= 2] points
    per chord) the call leaves the blade as it was, and whenever it returns,
    the mesh is the post-processed [Trimesh] of the [2 L N] vertices, upper
    cloud first, and of [4 (L-1) (N-1)] surface triangles and [2 L (N-1)]
    side triangles; there is at least one triangle, and every vertex index
    of every triangle is in range. *)
Theorem solid_both_mesh (self : Blade3D) (vu vl : list vertex) (N : Z) :
  vertices_upper self = Some vu -> vertices_lower self = Some vl ->
  let L := len (layers self) in
  (1 <= L)%Z -> (2 <= N)%Z ->
  len vu = (L * N)%Z -> len vl = (L * N)%Z ->
  let run := _generate_solid_from_surfaces "both" self in
  fst run = self /\
  exists faces,
    (forall mesh, snd run = Ok mesh ->
       mesh = post_processed (vu ++ vl) faces) /\
    len (vu ++ vl) = (2 * L * N)%Z /\
    len faces = (4 * (L - 1) * (N - 1) + 2 * L * (N - 1))%Z /\
    faces <> [] /\
    Forall (triangle_within 0 (len (vu ++ vl))) faces.
Proof.
  intros Hu Hl L HL HN Hlu Hll run.
  assert (Hlayers : layers self <> []).
  { intros E. unfold L, len in HL. rewrite E in HL. cbn in HL. lia. }
  assert (Hdiv : (len vu / L = N)%Z).
  { rewrite Hlu, Z.mul_comm. apply Z.div_mul. lia. }
  pose proof (solid_value self "both" vu Hu Hlayers) as Hrun.
  cbv zeta in Hrun. fold L in Hrun. rewrite Hdiv, Hl in Hrun.
  cbn [mode_in existsb String.eqb Ascii.eqb Bool.eqb orb get_or] in Hrun.
  specialize (Hrun ltac:(intros _; discriminate)).
  unfold run. rewrite Hrun. cbn [fst snd].
  split; [reflexivity |].
  eexists. split; [intros mesh [= <-]; reflexivity |].
  assert (Hlen : len (vu ++ vl) = (2 * L * N)%Z).
  { unfold len in *. rewrite length_app. lia. }
  split; [exact Hlen |].
  assert (Hcount :
    len (upper_triangles N L ++ lower_triangles N L (len vu)
         ++ side_triangles N L (len vu))
    = (4 * (L - 1) * (N - 1) + 2 * L * (N - 1))%Z).
  { unfold len. rewrite !length_app, upper_triangles_length,
      lower_triangles_length, side_triangles_length.
    rewrite !Nat2Z.inj_add, !Nat2Z.inj_mul, !Z2Nat.id by lia.
    change (Z.of_nat 2) with 2%Z. ring. }
  split; [exact Hcount |]. split.
  - intros E. rewrite E in Hcount. change (len (@nil (list Z))) with 0%Z in Hcount.
    assert (H1 : (0 <= (L - 1) * (N - 1))%Z) by (apply Z.mul_nonneg_nonneg; lia).
    assert (H2 : (0 < L * (N - 1))%Z) by (apply Z.mul_pos_pos; lia).
    lia.
  - rewrite Hlen.
    apply Forall_app. split; [| apply Forall_app; split].
    + eapply Forall_impl; [| apply upper_triangles_within].
      intros f. apply triangle_within_weaken; lia.
    + eapply Forall_impl; [| apply lower_triangles_within].
      intros f. apply triangle_within_weaken; lia.
    + eapply Forall_impl; [| apply side_triangles_within; unfold len; lia].
      intros f. apply triangle_within_weaken; lia.
Qed.

Lemma solid_both_mesh_witness :
  (len (layers demo_surface) = 2%Z /\
   len (stacked_upper demo_blade [0; 1]) = (2 * 2)%Z) /\
  fst (_generate_solid_from_surfaces "both" demo_surface) = demo_surface /\
  exists faces,
    (forall mesh,
       snd (_generate_solid_from_surfaces "both" demo_surface) = Ok mesh ->
       mesh = post_processed
                (stacked_upper demo_blade [0; 1]
                 ++ stacked_lower demo_blade [0; 1]) faces) /\
    len faces = 8%Z.
Proof.
  assert (Hu : len (stacked_upper demo_blade [0; 1]) = (2 * 2)%Z)
    by reflexivity.
  assert (Hl : len (stacked_lower demo_blade [0; 1]) = (2 * 2)%Z)
    by reflexivity.
  split; [split; [reflexivity | exact Hu] |].
  destruct (solid_both_mesh demo_surface _ _ 2 eq_refl eq_refl)
    as (Hstate & faces & Hrun & _ & Hcount & _); try exact Hu; try exact Hl;
    try (cbn; lia).
  split; [exact Hstate |].
  exists faces. split; [exact Hrun | rewrite Hcount; reflexivity].
Defined.

(** X12.  What the modes ["upper"] and ["lower"] hand to trimesh.  With
    clouds of [L * N] points each ([L >= 2], [N >= 2]) either call leaves
    the blade as it was, and whenever it returns, the mesh is the
    post-processed [Trimesh] of the one cloud and its [2 (L-1) (N-1)]
    triangles, with no offset and no side faces; every vertex index is in
    range. *)
Theorem solid_single_surface (self : Blade3D) (vu vl : list vertex) (N : Z) :
  vertices_upper self = Some vu -> vertices_lower self = Some vl ->
  let L := len (layers self) in
  (2 <= L)%Z -> (2 <= N)%Z ->
  len vu = (L * N)%Z -> len vl = (L * N)%Z ->
  let upper := _generate_solid_from_surfaces "upper" self in
  let lower := _generate_solid_from_surfaces "lower" self in
  fst upper = self /\ fst lower = self /\
  (forall mesh, snd upper = Ok mesh ->
     mesh = post_processed vu (upper_triangles N L)) /\
  (forall mesh, snd lower = Ok mesh ->
     mesh = post_processed vl (lower_triangles N L 0)) /\
  len (upper_triangles N L) = (2 * (L - 1) * (N - 1))%Z /\
  len (lower_triangles N L 0) = (2 * (L - 1) * (N - 1))%Z /\
  Forall (triangle_within 0 (len vu)) (upper_triangles N L) /\
  Forall (triangle_within 0 (len vl)) (lower_triangles N L 0).
Proof.
  intros Hu Hl L HL HN Hlu Hll upper lower.
  assert (Hlayers : layers self <> []).
  { intros E. unfold L, len in HL. rewrite E in HL. cbn in HL. lia. }
  assert (Hdiv : (len vu / L = N)%Z).
  { rewrite Hlu, Z.mul_comm. apply Z.div_mul. lia. }
  assert (Hup : upper = (self, Ok (post_processed vu (upper_triangles N L)))).
  { pose proof (solid_value self "upper" vu Hu Hlayers) as Hrun.
    cbv zeta in Hrun. fold L in Hrun. rewrite Hdiv in Hrun.
    cbn [mode_in existsb String.eqb Ascii.eqb Bool.eqb orb] in Hrun.
    rewrite !app_nil_r in Hrun. apply Hrun. intros Hf. discriminate Hf. }
  assert (Hlo : lower
                = (self, Ok (post_processed vl (lower_triangles N L 0)))).
  { pose proof (solid_value self "lower" vu Hu Hlayers) as Hrun.
    cbv zeta in Hrun. fold L in Hrun. rewrite Hdiv, Hl in Hrun.
    cbn [mode_in existsb String.eqb Ascii.eqb Bool.eqb orb get_or app]
      in Hrun.
    rewrite !app_nil_r in Hrun. apply Hrun. intros _. discriminate. }
  rewrite Hup, Hlo. cbn [fst snd].
  split; [reflexivity |]. split; [reflexivity |].
  split; [intros mesh [= <-]; reflexivity |].
  split; [intros mesh [= <-]; reflexivity |].
  split.
  { unfold len. rewrite upper_triangles_length.
    rewrite !Nat2Z.inj_mul, !Z2Nat.id by lia. change (Z.of_nat 2) with 2%Z.
    ring. }
  split.
  { unfold len. rewrite lower_triangles_length.
    rewrite !Nat2Z.inj_mul, !Z2Nat.id by lia. change (Z.of_nat 2) with 2%Z.
    ring. }
  split.
  - rewrite Hlu. apply upper_triangles_within.
  - rewrite Hll. pose proof (lower_triangles_within N L 0) as Hw.
    now rewrite Z.add_0_l in Hw.
Qed.

Lemma solid_single_surface_witness :
  len (stacked_upper demo_blade [0; 1]) = (2 * 2)%Z /\
  forall mesh,
    snd (_generate_solid_from_surfaces "upper" demo_surface) = Ok mesh ->
    mesh = post_processed (stacked_upper demo_blade [0; 1])
             [[0; 1; 3]; [0; 3; 2]]%Z.
Proof.
  assert (Hu : len (stacked_upper demo_blade [0; 1]) = (2 * 2)%Z)
    by reflexivity.
  assert (Hl : len (stacked_lower demo_blade [0; 1]) = (2 * 2)%Z)
    by reflexivity.
  split; [exact Hu |].
  destruct (solid_single_surface demo_surface _ _ 2 eq_refl eq_refl)
    as (_ & _ & Hrun & _); try exact Hu; try exact Hl; try (cbn; lia).
  exact Hrun.
Defined.

Lemma mode_not_surface mode :
  mode_in mode ["upper"; "lower"; "both"]%string = false ->
  mode_in mode ["upper"; "both"]%string = false /\
  mode_in mode ["lower"; "both"]%string = false /\
  mode_in mode ["both"]%string = false /\
  String.eqb mode "both" = false.
Proof.
  unfold mode_in. cbn [existsb].
  destruct (String.eqb mode "upper"), (String.eqb mode "lower"),
    (String.eqb mode "both"); cbn; intros Hm;
    try discriminate Hm; repeat split; reflexivity.
Qed.

Section ModeHandling.

Context {pv : PyVista}.

(** X13.  [to_pyvista_mesh] does not reject a mode outside ["upper"],
    ["lower"], ["both"].  With the surface in place it returns the center
    surface for ["center"], and for any other such mode it fails with an
    [IndexError], [meshes[0]] of an empty list; the blade is left as it
    was. *)
Theorem unrecognised_mode (self : Blade3D) (mode : string)
    (vu : list vertex) :
  vertices_upper self = Some vu ->
  mode_in mode ["upper"; "lower"; "both"]%string = false ->
  (String.eqb mode "center" = true ->
   to_pyvista_mesh mode self
   = (self, Ok (pv_PolyData (vertices_center self) (faces_center self))))
  /\ (String.eqb mode "center" = false ->
      to_pyvista_mesh mode self = (self, Raise IndexError)).
Proof.
  intros Hu Hmode.
  destruct (mode_not_surface mode Hmode) as (Hub & Hlb & Hb & Hboth).
  unfold to_pyvista_mesh, bind, get. rewrite Hu. cbn [ret].
  rewrite Hub, Hlb. cbn [app].
  split; intros ->; reflexivity.
Qed.

(** X14.  Both mesh builders generate the surface on first use.  On a
    blade without an upper cloud they first run [generate_surface] with 300
    points per chord: if that raises, they raise the same error and leave
    the blade as [generate_surface] left it; if it returns, they continue as
    on the generated blade. *)
Theorem mesh_builders_generate_on_first_use (self : Blade3D)
    (mode : string) :
  vertices_upper self = None ->
  let generated := generate_surface default_points_per_chord self in
  (forall e, snd generated = Raise e ->
     _generate_solid_from_surfaces mode self = (fst generated, Raise e) /\
     to_pyvista_mesh mode self = (fst generated, Raise e)) /\
  (snd generated = Ok tt ->
     _generate_solid_from_surfaces mode self
     = _generate_solid_from_surfaces mode (fst generated) /\
     to_pyvista_mesh mode self = to_pyvista_mesh mode (fst generated)).
Proof.
  intros Hnone. cbv zeta. split.
  - intros e He.
    unfold _generate_solid_from_surfaces, to_pyvista_mesh, bind, get.
    rewrite Hnone.
    destruct (generate_surface default_points_per_chord self) as [s' r].
    cbn [snd fst] in *. subst r. split; reflexivity.
  - intros Hok.
    pose proof (generate_surface_returns _ _ Hok) as [HL HN].
    destruct (generate_surface_ok self default_points_per_chord HL HN)
      as (xi & _ & _ & Hrun).
    unfold _generate_solid_from_surfaces, to_pyvista_mesh, bind, get.
    rewrite Hnone, Hrun. cbn [fst]. split; reflexivity.
Qed.

End ModeHandling.

Lemma unrecognised_mode_witness :
  mode_in "centre" ["upper"; "lower"; "both"]%string = false /\
  to_pyvista_mesh "centre" demo_surface = (demo_surface, Raise IndexError).
Proof.
  split; [reflexivity |].
  destruct (unrecognised_mode demo_surface "centre" _ eq_refl eq_refl)
    as (_ & Hpv).
  apply Hpv. reflexivity.
Defined.

Lemma mesh_builders_generate_on_first_use_witness :
  vertices_upper single_layer_blade = None /\
  snd (_generate_solid_from_surfaces "both" single_layer_blade)
  = Raise (ValueError need_at_least_one_array).
Proof.
  split; [reflexivity |].
  destruct (mesh_builders_generate_on_first_use single_layer_blade "both"
              eq_refl) as [Hraise _].
  assert (He : snd (generate_surface default_points_per_chord
                      single_layer_blade)
               = Raise (ValueError need_at_least_one_array)).
  { rewrite generate_surface_run.
    destruct (linspace_ok 0 1 default_points_per_chord) as (xi & -> & _);
      [unfold default_points_per_chord; lia |].
    reflexivity. }
  destruct (Hraise _ He) as [Hs _]. rewrite Hs. reflexivity.
Defined.

(** ** More on the radial assembler *)

Lemma fold_fmax_fin rs : forall r0,
  fold_left fmax (map Fin rs) (Fin r0) = Fin (fold_left Rmax rs r0).
Proof.
  induction rs as [| r rs IH]; intros r0; cbn [map fold_left];
    [reflexivity |].
  now rewrite fmax_fin, IH.
Qed.

Lemma fold_fmin_fin rs : forall r0,
  fold_left fmin (map Fin rs) (Fin r0) = Fin (fold_left Rmin rs r0).
Proof.
  induction rs as [| r rs IH]; intros r0; cbn [map fold_left];
    [reflexivity |].
  now rewrite fmin_fin, IH.
Qed.

Lemma fold_Rmax_bounds rs : forall r0,
  r0 <= fold_left Rmax rs r0 /\
  Forall (fun r => r <= fold_left Rmax rs r0) rs.
Proof.
  induction rs as [| r rs IH]; intros r0; cbn [fold_left].
  - split; [lra | constructor].
  - destruct (IH (Rmax r0 r)) as [H0 Hall].
    pose proof (Rmax_l r0 r). pose proof (Rmax_r r0 r).
    split; [lra |]. constructor; [lra | assumption].
Qed.

Lemma fold_Rmin_bounds rs : forall r0,
  fold_left Rmin rs r0 <= r0 /\
  Forall (fun r => fold_left Rmin rs r0 <= r) rs.
Proof.
  induction rs as [| r rs IH]; intros r0; cbn [fold_left].
  - split; [lra | constructor].
  - destruct (IH (Rmin r0 r)) as [H0 Hall].
    pose proof (Rmin_l r0 r). pose proof (Rmin_r r0 r).
    split; [lra |]. constructor; [lra | assumption].
Qed.

Section Copies.

Context {pv : PyVista}.

Lemma blade_copies_length bm n_blades z_shift copies :
  blade_copies bm n_blades z_shift = Ok copies ->
  List.length copies = Z.to_nat n_blades.
Proof.
  unfold blade_copies. destruct bm as [mesh | d].
  - intros [= <-]. now rewrite length_map, range_length.
  - pose proof (range_length n_blades) as Hlen.
    destruct (range n_blades); [| discriminate].
    intros [= <-]. exact Hlen.
Qed.

(** X15.  Whenever [assemble_blades_on_cylinder] returns, the mesh is the
    concatenation of the hub cylinder and exactly [n_blades] blade copies,
    in that order; with [n_blades <= 0] it is the hub alone. *)
Theorem assemble_returns_hub_and_copies (blade : Blade3D) (n_blades : Z)
    (radius height z_base : R) (as_solid : bool) (mesh : Mesh) :
  snd (assemble_blades_on_cylinder n_blades radius height z_base as_solid
         blade) = Ok mesh ->
  exists copies,
    mesh = concatenate (hub_cylinder radius height z_base :: copies) /\
    List.length copies = Z.to_nat n_blades /\
    ((n_blades <= 0)%Z -> copies = []).
Proof.
  unfold assemble_blades_on_cylinder, bind.
  destruct (blade_mesh_of as_solid blade) as [s [bm | e]];
    [| intros Hf; discriminate Hf].
  unfold get.
  assert (Hrest : forall s' zs,
    snd (let (s'0, o) := lift (amax zs) s' in
         match o with
         | Ok z_max =>
             let (s'1, o0) := lift (amin zs) s'0 in
             match o0 with
             | Ok z_min =>
                 (if fltb (Fin height) (z_max - z_min)%npf
                  then raise (ValueError
                         (height_less_than_span height (z_max - z_min)%npf))
                  else
                   fun s2 =>
                   let (s'2, o1) :=
                     lift (blade_copies bm n_blades
                             (Fin (z_base + height / 2)
                              - (z_min + (z_max - z_min) / Fin 2))%npf) s2 in
                   match o1 with
                   | Ok copies =>
                       ret (concatenate
                              (hub_cylinder radius height z_base :: copies))
                         s'2
                   | Raise e => (s'2, Raise e)
                   end) s'1
             | Raise e => (s'1, Raise e)
             end
         | Raise e => (s'0, Raise e)
         end) = Ok mesh ->
    exists copies,
      mesh = concatenate (hub_cylinder radius height z_base :: copies) /\
      List.length copies = Z.to_nat n_blades /\
      ((n_blades <= 0)%Z -> copies = [])).
  { intros s' zs. unfold lift, raise, ret.
    destruct (amax zs) as [z_max | e]; [| intros Hf; discriminate Hf].
    destruct (amin zs) as [z_min | e]; [| intros Hf; discriminate Hf].
    destruct (fltb _ _); [intros Hf; discriminate Hf |].
    destruct (blade_copies _ _ _) as [copies | e] eqn:Ec;
      [| intros Hf; discriminate Hf].
    cbn [snd]. intros [= <-]. exists copies.
    pose proof (blade_copies_length _ _ _ _ Ec) as Hlen.
    split; [reflexivity |]. split; [exact Hlen |].
    intros Hn. destruct copies; [reflexivity | cbn in Hlen; lia]. }
  destruct (z_coords s) as [z |] eqn:Ez.
  - cbn [ret]. rewrite Ez. cbn [array_of ret]. apply Hrest.
  - destruct (vertices_upper s) as [vu |];
      [| intros Hf; discriminate Hf].
    destruct (vertices_lower s) as [vl |];
      [| intros Hf; discriminate Hf].
    cbn [array_of ret modify set_z_coords z_coords]. apply Hrest.
Qed.

End Copies.

Lemma fold_Rmax_In rs : forall r0, In (fold_left Rmax rs r0) (r0 :: rs).
Proof.
  induction rs as [| r rs IH]; intros r0; cbn [fold_left]; [now left |].
  destruct (IH (Rmax r0 r)) as [H | H].
  - rewrite <- H.
    assert (Rmax r0 r = r0 \/ Rmax r0 r = r) as [E | E]
      by (unfold Rmax; destruct (Rle_dec r0 r); auto); rewrite E.
    + now left.
    + right. now left.
  - right. right. exact H.
Qed.

Lemma fold_Rmin_In rs : forall r0, In (fold_left Rmin rs r0) (r0 :: rs).
Proof.
  induction rs as [| r rs IH]; intros r0; cbn [fold_left]; [now left |].
  destruct (IH (Rmin r0 r)) as [H | H].
  - rewrite <- H.
    assert (Rmin r0 r = r0 \/ Rmin r0 r = r) as [E | E]
      by (unfold Rmin; destruct (Rle_dec r0 r); auto); rewrite E.
    + now left.
    + right. now left.
  - right. right. exact H.
Qed.

Lemma finite_extrema_attained rs :
  rs <> [] ->
  exists lo hi,
    amax (map Fin rs) = Ok (Fin hi) /\ amin (map Fin rs) = Ok (Fin lo) /\
    In lo rs /\ In hi rs /\ Forall (fun r => lo <= r <= hi) rs.
Proof.
  destruct rs as [| r0 rs]; [congruence | intros _].
  exists (fold_left Rmin rs r0), (fold_left Rmax rs r0).
  cbn [map amax amin]. rewrite fold_fmax_fin, fold_fmin_fin.
  split; [reflexivity |]. split; [reflexivity |].
  split; [apply fold_Rmin_In |]. split; [apply fold_Rmax_In |].
  destruct (fold_Rmax_bounds rs r0) as [Hx Hxs].
  destruct (fold_Rmin_bounds rs r0) as [Hn Hns].
  constructor; [lra |].
  apply Forall_forall. intros r Hr.
  rewrite Forall_forall in Hxs, Hns. split; [now apply Hns | now apply Hxs].
Qed.

Lemma fdiv_2 a : fdiv (Fin a) (Fin 2) = Fin (a / 2).
Proof. unfold fdiv. rewrite Reqb_false by lra. reflexivity. Qed.

Section Centring.

Context {pv : PyVista}.


(** X17.  With [as_solid=False] the pyvista surface is converted by
    [faces.reshape(-1, 4)].  When the merged surface is a [PolyData] whose
    face array has a size that 4 does not divide, the call fails with
    numpy's reshape [ValueError] whatever the height is: the conversion
    comes before the span check, and the blade is left without
    [z_coords]. *)
Theorem surface_conversion_fails_before_span_check (blade : Blade3D)
    (vu : list vertex) (n_blades : Z) (radius height z_base : R) :
  vertices_upper blade = Some vu ->
  let d := pv_merge
             (pv_PolyData (vertices_upper blade) (faces_upper blade))
             [pv_PolyData (vertices_lower blade) (faces_lower blade)] in
  pv_is_PolyData d = true ->
  (List.length (pv_faces d) mod 4 <> 0)%nat ->
  assemble_blades_on_cylinder n_blades radius height z_base false blade =
  (blade, Raise (ValueError (cannot_reshape (List.length (pv_faces d))))).
Proof.
  intros Hu d Hpoly Hmod.
  unfold assemble_blades_on_cylinder, blade_mesh_of, to_pyvista_mesh,
    bind, get, ret, lift.
  rewrite Hu. cbn [mode_in existsb String.eqb Ascii.eqb Bool.eqb orb app].
  fold d. rewrite Hpoly. unfold reshape_4.
  destruct (Nat.eqb_spec (List.length (pv_faces d) mod 4) 0) as [E | _];
    [contradiction |].
  reflexivity.
Qed.

End Centring.

Lemma surface_conversion_fails_before_span_check_witness :
  assemble_blades_on_cylinder 6 (1 / 2) 2 0 false demo_surface =
  (demo_surface, Raise (ValueError (cannot_reshape 10))).
Proof.
  change 10%nat with
    (List.length
       (pv_faces
          (pv_merge
             (pv_PolyData (vertices_upper demo_surface)
                (faces_upper demo_surface))
             [pv_PolyData (vertices_lower demo_surface)
                (faces_lower demo_surface)]))).
  apply (surface_conversion_fails_before_span_check demo_surface
           (get_or (vertices_upper demo_surface) []) 6 (1 / 2) 2 0).
  - reflexivity.
  - reflexivity.
  - cbn. discriminate.
Defined.

(** The assembly of four copies of the example blade on a hub of height
    [6/5] returns. *)
Lemma assemble_demo_returns :
  exists mesh result,
    blade_mesh_of true demo_surface = (demo_surface, Ok (inl mesh)) /\
    z_coords_after demo_surface (stacked_upper demo_blade [0; 1])
      (stacked_lower demo_blade [0; 1])
    = map Fin [0; 1; 0; 1; 0; 1; 0; 1] /\
    snd (assemble_blades_on_cylinder 4 1 (6 / 5) 0 true demo_surface)
    = Ok result.
Proof.
  destruct (blade_mesh_of_solid demo_surface (stacked_upper demo_blade [0; 1])
              (stacked_lower demo_blade [0; 1]) eq_refl eq_refl)
    as (mesh & Hmesh); [discriminate |].
  exists mesh. eexists. split; [exact Hmesh |].
  assert (Hz : z_coords_after demo_surface (stacked_upper demo_blade [0; 1])
                 (stacked_lower demo_blade [0; 1])
               = map Fin [0; 1; 0; 1; 0; 1; 0; 1]).
  { unfold z_coords_after. cbn [z_coords demo_surface with_faces with_vertices
      set_faces_center set_faces_lower set_faces_upper set_vertices_center
      set_vertices_lower set_vertices_upper demo_blade Blade3D_init].
    apply demo_surface_z_coords. }
  split; [exact Hz |].
  rewrite (assemble_run demo_surface 4 1 (6 / 5) 0 true _ _ _
             eq_refl eq_refl Hmesh).
  cbn [snd]. rewrite Hz.
  unfold span_verdict. cbn [map amax amin fold_left].
  rewrite !fmax_fin, !fmin_fin. eval_extrema.
  cbn [fsub fadd fneg fltb]. rewrite Rltb_false by lra.
  cbn [blade_copies]. reflexivity.
Qed.

Lemma assemble_returns_hub_and_copies_witness :
  exists result copies,
    snd (assemble_blades_on_cylinder 4 1 (6 / 5) 0 true demo_surface)
    = Ok result /\
    result = concatenate (hub_cylinder 1 (6 / 5) 0 :: copies) /\
    List.length copies = 4%nat.
Proof.
  destruct assemble_demo_returns as (mesh & result & _ & _ & Hres).
  exists result.
  destruct (assemble_returns_hub_and_copies demo_surface 4 1 (6 / 5) 0 true
              result Hres) as (copies & Hcat & Hlen & _).
  exists copies. split; [exact Hres |]. split; [exact Hcat | exact Hlen].
Defined.


(** ** More on the diffuser *)

Lemma grid_triangles_length rows cols wrap :
  List.length (grid_triangles rows cols wrap)
  = (Z.to_nat (rows - 1)
     * (Z.to_nat (cols - 1) * 2 + (if wrap then 2 else 0)))%nat.
Proof.
  unfold grid_triangles.
  rewrite length_flat_map_const
    with (k := (Z.to_nat (cols - 1) * 2 + (if wrap then 2 else 0))%nat).
  - now rewrite range_length.
  - intros i _. rewrite length_app.
    rewrite length_flat_map_const with (k := 2%nat)
      by (intros; reflexivity).
    rewrite range_length. now destruct wrap.
Qed.

Lemma grid_triangles_within rows cols wrap :
  (1 <= cols)%Z ->
  Forall (triangle_within 0 (rows * cols)) (grid_triangles rows cols wrap).
Proof.
  intros Hcols. apply Forall_forall. intros f Hf.
  unfold grid_triangles in Hf.
  apply in_flat_map in Hf. destruct Hf as (i & Hi & Hf).
  apply In_range in Hi.
  assert (Hrow : (i * cols + cols <= (rows - 1) * cols)%Z) by nia.
  assert (Hi0 : (0 <= i * cols)%Z) by nia.
  apply in_app_or in Hf. destruct Hf as [Hf | Hf].
  - apply in_flat_map in Hf. destruct Hf as (j & Hj & Hf).
    apply In_range in Hj.
    cbn in Hf. destruct Hf as [<- | [<- | []]];
      eexists _, _, _; (split; [reflexivity |]); repeat split; lia.
  - destruct wrap; [| contradiction].
    cbn in Hf. destruct Hf as [<- | [<- | []]];
      eexists _, _, _; (split; [reflexivity |]); repeat split; lia.
Qed.

Lemma hemisphere_verts_length radius_base Zc phi theta :
  List.length (hemisphere_verts radius_base Zc phi theta)
  = (List.length theta * List.length phi)%nat.
Proof.
  unfold hemisphere_verts. apply length_flat_map_const.
  intros th _. apply length_map.
Qed.

Lemma paraboloid_verts_length Zc phi r :
  List.length (paraboloid_verts Zc phi r)
  = (List.length phi * List.length r)%nat.
Proof.
  unfold paraboloid_verts. apply length_flat_map_const.
  intros ph _. apply length_map.
Qed.

(** What [create_diffuser] returns when it returns: the grid of one of
    the two shapes. *)
Lemma create_diffuser_value shape radius_base radius_top height z_base
    position mesh :
  create_diffuser shape radius_base radius_top height z_base position
  = Ok mesh ->
  (shape = "hemisphere"%string /\
   exists Zc phi theta,
     linspace 0 (2 * PI) n_phi = Ok phi /\
     linspace 0 (PI / 2) n_theta = Ok theta /\
     mesh = Trimesh (hemisphere_verts radius_base Zc phi theta)
                    (grid_triangles n_theta n_phi true)) \/
  (shape = "paraboloid"%string /\
   exists Zc phi r,
     linspace 0 (2 * PI) 128 = Ok phi /\
     linspace 0 radius_base 128 = Ok r /\
     mesh = Trimesh (paraboloid_verts Zc phi r)
                    (grid_triangles 128 128 false)).
Proof.
  unfold create_diffuser.
  destruct (String.eqb_spec shape "hemisphere") as [-> | Hh].
  - intros Hm. left. split; [reflexivity |].
    destruct (linspace 0 (2 * PI) n_phi) as [phi | e];
      [| discriminate Hm].
    destruct (linspace 0 (PI / 2) n_theta) as [theta | e];
      [| discriminate Hm].
    cbn [obind] in Hm.
    destruct (String.eqb position "bottom").
    + cbn [obind] in Hm. injection Hm as <-.
      eexists _, phi, theta. repeat split.
    + destruct (String.eqb position "top"); [| discriminate Hm].
      cbn [obind] in Hm. injection Hm as <-.
      eexists _, phi, theta. repeat split.
  - destruct (String.eqb_spec shape "paraboloid") as [-> | Hp];
      [| intros Hm; discriminate Hm].
    intros Hm. right. split; [reflexivity |].
    cbv zeta in Hm.
    destruct (linspace 0 (2 * PI) 128) as [phi | e];
      [| discriminate Hm].
    destruct (linspace 0 radius_base 128) as [r | e];
      [| discriminate Hm].
    cbn [obind] in Hm.
    destruct (String.eqb position "bottom").
    + cbn [obind] in Hm. injection Hm as <-.
      eexists _, phi, r. repeat split.
    + destruct (String.eqb position "top"); [| discriminate Hm].
      cbn [obind] in Hm. injection Hm as <-.
      eexists _, phi, r. repeat split.
Qed.

Lemma linspace_length start stop num xi :
  linspace start stop num = Ok xi -> List.length xi = Z.to_nat num.
Proof.
  unfold linspace. destruct (num <? 0)%Z; [discriminate |].
  intros [= <-]. now rewrite length_map, range_length.
Qed.

(** X18.  [create_diffuser] returns a mesh exactly when the shape is
    ["hemisphere"] or ["paraboloid"] and the position is ["bottom"] or
    ["top"].  An unknown shape raises the unknown-shape [ValueError]
    whatever the position is, and a known shape with another position
    raises the position [ValueError] of that shape. *)
Theorem create_diffuser_succeeds_iff (shape position : string)
    (radius_base radius_top height z_base : R) :
  let result :=
    create_diffuser shape radius_base radius_top height z_base position in
  ((exists mesh, result = Ok mesh) <->
   (shape = "hemisphere" \/ shape = "paraboloid")%string /\
   (position = "bottom" \/ position = "top")%string) /\
  (shape <> "hemisphere"%string -> shape <> "paraboloid"%string ->
   result = Raise (ValueError (unknown_diffuser_shape shape))) /\
  (position <> "bottom"%string -> position <> "top"%string ->
   (shape = "hemisphere"%string ->
    result = Raise (ValueError bad_hemisphere_position)) /\
   (shape = "paraboloid"%string ->
    result = Raise (ValueError bad_position))).
Proof.
  cbv zeta. unfold create_diffuser.
  destruct (linspace_ok 0 (2 * PI) n_phi) as (phi & Hphi & _);
    [unfold n_phi; lia |].
  destruct (linspace_ok 0 (PI / 2) n_theta) as (theta & Htheta & _);
    [unfold n_theta; lia |].
  destruct (linspace_ok 0 (2 * PI) 128) as (phi' & Hphi' & _); [lia |].
  destruct (linspace_ok 0 radius_base 128) as (r & Hr & _); [lia |].
  destruct (String.eqb_spec shape "hemisphere") as [-> | Hh];
    [| destruct (String.eqb_spec shape "paraboloid") as [-> | Hp]].
  - rewrite Hphi, Htheta. cbn [obind].
    destruct (String.eqb_spec position "bottom") as [-> | Hb];
      [| destruct (String.eqb_spec position "top") as [-> | Ht]];
      cbn [obind].
    + split; [split; [intros _; auto | intros _; eexists; reflexivity] |].
      split; [congruence |]. intros Hb; congruence.
    + split; [split; [intros _; auto | intros _; eexists; reflexivity] |].
      split; [congruence |]. intros _ Ht; congruence.
    + split.
      { split; [intros (m & Hm); discriminate Hm |].
        intros (_ & [Hpos | Hpos]); congruence. }
      split; [congruence |]. intros _ _. split; [reflexivity | discriminate].
  - cbv zeta. rewrite Hphi', Hr. cbn [obind].
    destruct (String.eqb_spec position "bottom") as [-> | Hb];
      [| destruct (String.eqb_spec position "top") as [-> | Ht]];
      cbn [obind].
    + split; [split; [intros _; auto | intros _; eexists; reflexivity] |].
      split; [congruence |]. intros Hb; congruence.
    + split; [split; [intros _; auto | intros _; eexists; reflexivity] |].
      split; [congruence |]. intros _ Ht; congruence.
    + split.
      { split; [intros (m & Hm); discriminate Hm |].
        intros (_ & [Hpos | Hpos]); congruence. }
      split; [congruence |]. intros _ _. split; [discriminate | reflexivity].
  - split.
    { split; [intros (m & Hm); discriminate Hm |].
      intros ([Hs | Hs] & _); congruence. }
    split; [reflexivity |]. intros _ _. split; congruence.
Qed.

(** X19.  The arrays [create_diffuser] hands to [trimesh.Trimesh] are
    well formed.  Whenever it returns, the mesh is [trimesh.Trimesh] called
    on a vertex array and an array of triangles whose vertex indices are
    within the vertex array.  For the hemisphere the vertex array has
    [64 * 128] rows and there are [63 * 128 * 2] triangles (the seam
    between the last and the first column is closed), for the paraboloid
    [128 * 128] rows and [127 * 127 * 2] triangles.  These are the sizes of
    the arguments; what [trimesh.Trimesh] makes of them (it merges
    coincident vertices such as the apex row) is not part of the statement. *)
Theorem diffuser_arrays_well_formed (shape position : string)
    (radius_base radius_top height z_base : R) (mesh : Mesh) :
  create_diffuser shape radius_base radius_top height z_base position
  = Ok mesh ->
  exists verts faces,
    mesh = Trimesh verts faces /\
    Forall (triangle_within 0 (len verts)) faces /\
    (shape = "hemisphere"%string ->
     len verts = (64 * 128)%Z /\ len faces = (63 * 128 * 2)%Z) /\
    (shape = "paraboloid"%string ->
     len verts = (128 * 128)%Z /\ len faces = (127 * 127 * 2)%Z).
Proof.
  intros Hm.
  destruct (create_diffuser_value _ _ _ _ _ _ _ Hm)
    as [(-> & Zc & phi & theta & Hphi & Htheta & ->)
       | (-> & Zc & phi & r & Hphi & Hr & ->)].
  - apply linspace_length in Hphi, Htheta.
    eexists _, _. split; [reflexivity |].
    assert (Hlen : len (hemisphere_verts radius_base Zc phi theta)
                   = (64 * 128)%Z).
    { unfold len. rewrite hemisphere_verts_length, Hphi, Htheta.
      reflexivity. }
    rewrite Hlen. split; [| split].
    + apply (grid_triangles_within 64 128 true). lia.
    + intros _. split; [reflexivity |].
      unfold len. rewrite grid_triangles_length. reflexivity.
    + discriminate.
  - apply linspace_length in Hphi, Hr.
    eexists _, _. split; [reflexivity |].
    assert (Hlen : len (paraboloid_verts Zc phi r) = (128 * 128)%Z).
    { unfold len. rewrite paraboloid_verts_length, Hphi, Hr. reflexivity. }
    rewrite Hlen. split; [| split].
    + apply (grid_triangles_within 128 128 false). lia.
    + discriminate.
    + intros _. split; [reflexivity |].
      unfold len. rewrite grid_triangles_length. reflexivity.
Qed.

Lemma diffuser_arrays_well_formed_witness :
  exists verts faces,
    create_diffuser "hemisphere" 1 1 1 0 "top" = Ok (Trimesh verts faces) /\
    len verts = 8192%Z /\ len faces = 16128%Z.
Proof.
  destruct (create_diffuser_hemisphere_top 1 1 1 0)
    as (phi & theta & _ & _ & _ & Hm).
  destruct (diffuser_arrays_well_formed "hemisphere" "top" 1 1 1 0 _ Hm)
    as (verts & faces & Hmesh & _ & Hh & _).
  destruct (Hh eq_refl) as [Hv Hf].
  exists verts, faces. rewrite Hm, Hmesh. repeat split; assumption.
Defined.

Lemma create_diffuser_paraboloid_top radius_base radius_top height z_base :
  exists phi r,
    linspace 0 (2 * PI) 128 = Ok phi /\
    linspace 0 radius_base 128 = Ok r /\
    List.length r = 128%nat /\
    create_diffuser "paraboloid" radius_base radius_top height z_base "top"
    = Ok (Trimesh
            (paraboloid_verts
               (fun rr =>
                  (Fin height * (Fin 1 - (Fin rr / Fin radius_base) ** 2)
                   + Fin z_base)%npf) phi r)
            (grid_triangles 128 128 false)).
Proof.
  destruct (linspace_ok 0 (2 * PI) 128) as (phi & Hphi & _); [lia |].
  destruct (linspace_ok 0 radius_base 128) as (r & Hr & Hlen); [lia |].
  exists phi, r. repeat split; try assumption.
  unfold create_diffuser. cbn [String.eqb Ascii.eqb Bool.eqb].
  rewrite Hphi, Hr. reflexivity.
Qed.

(** X20.  For [radius_base > 0], the paraboloid with [position = "top"]
    has its apex ([r = 0]) at [z_base + height] and its rim
    ([r = radius_base]) at [z_base]. *)
Theorem paraboloid_top_geometry
    (radius_base radius_top height z_base : R) :
  0 < radius_base ->
  exists verts faces phi,
    create_diffuser "paraboloid" radius_base radius_top height z_base "top"
    = Ok (Trimesh verts faces) /\
    linspace 0 (2 * PI) 128 = Ok phi /\
    (forall i ph, nth_error phi i = Some ph ->
       nth_error verts (i * 128)
       = Some (Fin 0, Fin 0, Fin (z_base + height)) /\
       nth_error verts (i * 128 + 127)
       = Some (Fin (radius_base * cos ph), Fin (radius_base * sin ph),
               Fin z_base)).
Proof.
  intros Hrb.
  destruct (create_diffuser_paraboloid_top radius_base radius_top height
              z_base) as (phi & r & Hphi & Hr & Hlen & Hmesh).
  eexists _, _, phi. split; [exact Hmesh |]. split; [exact Hphi |].
  intros i ph Hi.
  pose proof (linspace_first 0 radius_base 128 r eq_refl Hr) as H0.
  pose proof (linspace_last 0 radius_base 128 r eq_refl Hr) as H127.
  change (Z.to_nat (128 - 1)) with 127%nat in H127.
  unfold paraboloid_verts. split.
  - replace (i * 128)%nat with (i * List.length r + 0)%nat
      by (rewrite Hlen; lia).
    rewrite (nth_error_grid _ r phi i 0 ph 0 Hi H0).
    cbn [fdiv]. rewrite Reqb_false by lra.
    replace (0 / radius_base) with 0 by (unfold Rdiv; ring).
    cbn [np_power]. rewrite pow_finite_zero by lra.
    cbn [fsub fneg fmul fadd].
    do 2 f_equal; [f_equal |]; f_equal; ring.
  - rewrite <- Hlen.
    rewrite (nth_error_grid _ r phi i 127 ph radius_base Hi H127).
    cbn [fdiv]. rewrite Reqb_false by lra.
    replace (radius_base / radius_base) with 1 by (field; lra).
    cbn [np_power]. rewrite pow_finite_one.
    cbn [fsub fneg fmul fadd].
    do 2 f_equal; f_equal; ring.
Qed.

Lemma paraboloid_top_geometry_witness :
  0 < 1 /\
  exists verts faces,
    create_diffuser "paraboloid" 1 1 1 0 "top" = Ok (Trimesh verts faces).
Proof.
  split; [lra |].
  destruct (paraboloid_top_geometry 1 1 1 0) as (verts & faces & _ & Hm & _);
    [lra |].
  exists verts, faces. exact Hm.
Defined.

(** Every sample of [linspace] between equal ends is that end. *)
Lemma linspace_constant s num xi :
  linspace s s num = Ok xi -> Forall (fun x => x = s) xi.
Proof.
  unfold linspace. destruct (num <? 0)%Z; [discriminate |].
  intros [= <-]. apply Forall_forall. intros x Hx.
  apply in_map_iff in Hx. destruct Hx as (i & <- & _).
  destruct ((1 <? num)%Z && (i =? num - 1)%Z); [reflexivity |].
  destruct (1 <? num)%Z; unfold Rdiv; ring.
Qed.

(** X21.  [radius_base = 0] is not rejected.  For the paraboloid,
    [create_diffuser] then calls [trimesh.Trimesh] on a vertex array of
    [128 * 128] rows that are all [(0, 0, nan)], the height being computed
    from [0.0 / 0.0].  This is the argument of the call; what
    [trimesh.Trimesh] makes of it (it drops vertices that are not finite)
    is not part of the statement. *)
Theorem paraboloid_zero_radius_arrays (position : string)
    (radius_top height z_base : R) :
  position = "bottom"%string \/ position = "top"%string ->
  exists verts faces,
    create_diffuser "paraboloid" 0 radius_top height z_base position
    = Ok (Trimesh verts faces) /\
    len verts = (128 * 128)%Z /\
    Forall (fun v => v = (Fin 0, Fin 0, NaN)) verts.
Proof.
  intros Hpos.
  assert (Hnan : forall rr, rr = 0 ->
            (Fin height * (Fin rr / Fin 0) ** 2 + Fin z_base)%npf = NaN /\
            (Fin height * (Fin 1 - (Fin rr / Fin 0) ** 2)
             + Fin z_base)%npf = NaN).
  { intros rr ->. cbn [fdiv]. rewrite !Reqb_true by reflexivity.
    cbn [np_power]. rewrite Reqb_false by lra. split; reflexivity. }
  assert (Hverts : forall Zc phi r,
            linspace 0 (2 * PI) 128 = Ok phi -> linspace 0 0 128 = Ok r ->
            (forall rr, rr = 0 -> Zc rr = NaN) ->
            len (paraboloid_verts Zc phi r) = (128 * 128)%Z /\
            Forall (fun v => v = (Fin 0, Fin 0, NaN))
                   (paraboloid_verts Zc phi r)).
  { intros Zc phi r Hphi Hr HZc. split.
    - unfold len. rewrite paraboloid_verts_length.
      apply linspace_length in Hphi, Hr. rewrite Hphi, Hr. reflexivity.
    - apply linspace_constant in Hr. rewrite Forall_forall in Hr.
      apply Forall_forall. intros v Hv. unfold paraboloid_verts in Hv.
      apply in_flat_map in Hv. destruct Hv as (ph & _ & Hv).
      apply in_map_iff in Hv. destruct Hv as (rr & <- & Hrr).
      rewrite (HZc rr (Hr rr Hrr)), (Hr rr Hrr).
      f_equal. f_equal; f_equal; ring. }
  destruct Hpos as [-> | ->].
  - destruct (create_diffuser_paraboloid_bottom 0 radius_top height z_base)
      as (phi & r & Hphi & Hr & _ & ->).
    eexists _, _. split; [reflexivity |].
    apply (Hverts _ phi r Hphi Hr). intros rr E. apply (Hnan rr E).
  - destruct (create_diffuser_paraboloid_top 0 radius_top height z_base)
      as (phi & r & Hphi & Hr & _ & ->).
    eexists _, _. split; [reflexivity |].
    apply (Hverts _ phi r Hphi Hr). intros rr E. apply (Hnan rr E).
Qed.

Lemma paraboloid_zero_radius_arrays_witness :
  exists verts faces,
    create_diffuser "paraboloid" 0 1 1 0 "bottom" = Ok (Trimesh verts faces) /\
    Forall (fun v => v = (Fin 0, Fin 0, NaN)) verts.
Proof.
  destruct (paraboloid_zero_radius_arrays "bottom" 1 1 0 (or_introl eq_refl))
    as (verts & faces & Hm & _ & Hall).
  exists verts, faces. split; assumption.
Defined.

(** ** Quad records read in rows of four *)

Lemma quad_rows_length N L :
  List.length (quad_rows N L)
  = (Z.to_nat (L - 1) * Z.to_nat (N - 1))%nat.
Proof.
  unfold quad_rows.
  rewrite length_flat_map_const with (k := Z.to_nat (N - 1)).
  - now rewrite range_length.
  - intros i _. now rewrite length_map, range_length.
Qed.

Lemma quad_array_length N L :
  List.length (List.concat (quad_rows N L))
  = (5 * (Z.to_nat (L - 1) * Z.to_nat (N - 1)))%nat.
Proof.
  rewrite length_concat_uniform with (n := 5%nat).
  - rewrite quad_rows_length. lia.
  - apply Forall_forall. intros q Hq.
    apply In_quad_rows in Hq. destruct Hq as (i & j & _ & _ & ->).
    reflexivity.
Qed.

Lemma rows_of_4_length k : forall arr,
  List.length arr = (4 * k)%nat -> List.length (rows_of_4 arr) = k.
Proof.
  induction k as [| k IH]; intros arr Hlen.
  - destruct arr; [reflexivity | discriminate].
  - destruct arr as [| a [| b [| c [| d rest]]]]; cbn in Hlen; try lia.
    cbn [rows_of_4 List.length]. f_equal. apply IH. lia.
Qed.

Section SurfaceConversion.

Context {pv : PyVista}.

(** The blade mesh of [as_solid=False] on a blade whose surface is in
    place and merges to a [PolyData]. *)
Lemma blade_mesh_of_surface self vu :
  vertices_upper self = Some vu ->
  let d := pv_merge
             (pv_PolyData (vertices_upper self) (faces_upper self))
             [pv_PolyData (vertices_lower self) (faces_lower self)] in
  pv_is_PolyData d = true ->
  blade_mesh_of false self =
  (self,
   match reshape_4 (pv_faces d) with
   | Ok rows => Ok (inl (Trimesh (pv_points d) (drop_first_column rows)))
   | Raise e => Raise e
   end).
Proof.
  intros Hu d Hpoly.
  unfold blade_mesh_of, to_pyvista_mesh, bind, get, ret, lift.
  rewrite Hu. cbn [mode_in existsb String.eqb Ascii.eqb Bool.eqb orb app].
  fold d. rewrite Hpoly.
  destruct (reshape_4 (pv_faces d)); reflexivity.
Qed.

(** X22.  When the conversion of [as_solid=False] fails.  [build_faces]
    writes quad records of five numbers, [4, v0, v1, v2, v3], and
    [assemble_blades_on_cylinder] reads the merged face array in rows of
    four ([faces.reshape(-1, 4)]).  Take a freshly generated surface of [L]
    layers and [N] points per chord, with [(L-1) (N-1)] quads on each
    side, and a pyvista whose merge of the upper and the lower surface is a
    [PolyData] with a face array as large as the two face arrays together
    (it keeps every cell).  The merged array then has [10 (L-1) (N-1)]
    numbers.  If [(L-1) (N-1)] is odd, the call fails with numpy's reshape
    [ValueError], for every height.  If it is even, the reshape goes
    through, and the rows it yields, which are what the call hands to
    [trimesh.Trimesh] as triangles, are [5 (L-1) (N-1) / 2] in number, more
    than the [2 (L-1) (N-1)] quads of the two surfaces: a row is not a
    quad. *)
Theorem surface_conversion_by_quad_count (self : Blade3D) (N n_blades : Z)
    (radius height z_base : R) :
  snd (generate_surface N self) = Ok tt ->
  let self' := fst (generate_surface N self) in
  let cells :=
    (Z.to_nat (len (layers self) - 1) * Z.to_nat (N - 1))%nat in
  let d := pv_merge
             (pv_PolyData (vertices_upper self') (faces_upper self'))
             [pv_PolyData (vertices_lower self') (faces_lower self')] in
  pv_is_PolyData d = true ->
  List.length (pv_faces d)
  = (List.length (get_or (faces_upper self') [])
     + List.length (get_or (faces_lower self') []))%nat ->
  (1 <= cells)%nat /\
  List.length (pv_faces d) = (10 * cells)%nat /\
  (Nat.odd cells = true ->
   assemble_blades_on_cylinder n_blades radius height z_base false self'
   = (self', Raise (ValueError (cannot_reshape (10 * cells))))) /\
  (Nat.even cells = true ->
   exists rows,
     reshape_4 (pv_faces d) = Ok rows /\
     List.length (drop_first_column rows) = (5 * (cells / 2))%nat /\
     (2 * cells < 5 * (cells / 2))%nat /\
     forall bm, snd (blade_mesh_of false self') = Ok bm ->
       bm = inl (Trimesh (pv_points d) (drop_first_column rows))).
Proof.
  intros Hret.
  pose proof (generate_surface_returns self N Hret) as [HL HN].
  destruct (generate_surface_ok self N HL HN) as (xi & _ & _ & Hrun).
  rewrite Hrun. cbv zeta. cbn [fst].
  set (self' := with_faces _ _).
  set (cells := (Z.to_nat (len (layers self) - 1) * Z.to_nat (N - 1))%nat).
  set (d := pv_merge _ _).
  intros Hpoly Hsize.
  assert (Hcells : (1 <= cells)%nat).
  { unfold cells.
    assert ((1 <= Z.to_nat (len (layers self) - 1))%nat) by lia.
    assert ((1 <= Z.to_nat (N - 1))%nat) by lia.
    nia. }
  assert (Hlen : List.length (pv_faces d) = (10 * cells)%nat).
  { rewrite Hsize. unfold self'. cbn [faces_upper faces_lower with_faces
      set_faces_center set_faces_lower set_faces_upper get_or].
    rewrite quad_array_length. fold cells. lia. }
  pose proof (blade_mesh_of_surface self' (stacked_upper self xi) eq_refl
                Hpoly) as Hbm.
  fold d in Hbm. unfold reshape_4 in Hbm |- *. rewrite Hlen in Hbm |- *.
  split; [exact Hcells |]. split; [reflexivity |]. split.
  - intros Hodd. apply Nat.odd_spec in Hodd. destruct Hodd as (m & Hm).
    assert (Hmod : ((10 * cells) mod 4 =? 0)%nat = false).
    { replace (10 * cells)%nat with (2 + (5 * m + 2) * 4)%nat by lia.
      rewrite Nat.Div0.mod_add. reflexivity. }
    rewrite Hmod in Hbm.
    unfold assemble_blades_on_cylinder, bind. rewrite Hbm. reflexivity.
  - intros Heven. apply Nat.even_spec in Heven. destruct Heven as (m & Hm).
    assert (Hmod : ((10 * cells) mod 4 =? 0)%nat = true).
    { replace (10 * cells)%nat with (0 + (5 * m) * 4)%nat by lia.
      rewrite Nat.Div0.mod_add. reflexivity. }
    rewrite Hmod in Hbm |- *.
    exists (rows_of_4 (pv_faces d)). split; [reflexivity |].
    assert (Hhalf : (cells / 2 = m)%nat).
    { rewrite Hm, Nat.mul_comm. apply Nat.div_mul. lia. }
    rewrite Hhalf. split.
    { unfold drop_first_column. rewrite length_map.
      apply rows_of_4_length. lia. }
    split; [lia |].
    intros bm Hret'. rewrite Hbm in Hret'. cbn [snd] in Hret'.
    now injection Hret' as <-.
Qed.

End SurfaceConversion.

Lemma surface_conversion_by_quad_count_witness :
  snd (generate_surface 2 demo_blade) = Ok tt /\
  assemble_blades_on_cylinder 6 (1 / 2) 2 0 false
    (fst (generate_surface 2 demo_blade))
  = (fst (generate_surface 2 demo_blade),
     Raise (ValueError (cannot_reshape 10))).
Proof.
  assert (Hret : snd (generate_surface 2 demo_blade) = Ok tt)
    by (now rewrite generate_surface_demo).
  split; [exact Hret |].
  pose proof (surface_conversion_by_quad_count demo_blade 2 6 (1 / 2) 2 0
                Hret) as Hconv.
  cbv zeta in Hconv. rewrite generate_surface_demo in Hconv |- *.
  cbn [fst] in Hconv |- *.
  destruct (Hconv eq_refl eq_refl) as (_ & _ & Hodd & _).
  exact (Hodd eq_refl).
Defined.

(** ** The extent of the blade *)

Lemma linspace_unit N xi :
  linspace 0 1 N = Ok xi -> Forall (fun x => 0 <= x <= 1) xi.
Proof.
  unfold linspace. destruct (N <? 0)%Z; [discriminate |].
  intros [= <-]. apply Forall_forall. intros x Hx.
  apply in_map_iff in Hx. destruct Hx as (i & <- & Hi).
  apply In_range in Hi.
  destruct (Z.ltb_spec 1 N) as [HN | HN]; cbn [andb].
  - destruct (Z.eqb_spec i (N - 1)) as [-> | Hne]; [lra |].
    assert (Hpos : 0 < IZR (N - 1)) by (apply IZR_lt; lia).
    assert (H0 : 0 <= IZR i) by (apply IZR_le; lia).
    assert (H1 : IZR i <= IZR (N - 1)) by (apply IZR_le; lia).
    replace (IZR i * ((1 - 0) / IZR (N - 1)) + 0)
      with (IZR i / IZR (N - 1)) by (field; lra).
    split.
    + apply Rmult_le_pos; [assumption |].
      left. now apply Rinv_0_lt_compat.
    + apply Rmult_le_reg_r with (IZR (N - 1)); [assumption |].
      unfold Rdiv. rewrite Rmult_assoc, Rinv_l by lra. lra.
  - assert (i = 0%Z) as -> by lia. lra.
Qed.

Lemma beta_distribution_unit x alpha :
  0 <= x <= 1 ->
  exists v, beta_distribution x alpha = Fin v /\ 0 <= v < 1.
Proof.
  intros [[Hx0 | <-] [Hx1 | Hx1]].
  - rewrite beta_distribution_inside by lra. cbv zeta.
    set (a := clip alpha eps (1 - eps)).
    pose proof (clip_alpha_range alpha) as Ha. fold a in Ha.
    pose proof eps_pos as He. assert (eps < 1) by (unfold eps; lra).
    pose proof (weighted_power_max a x ltac:(lra) ltac:(lra)) as Hmax.
    pose proof (Rpower_pos x a) as P1.
    pose proof (Rpower_pos (1 - x) (1 - a)) as P2.
    pose proof (Rpower_pos a a) as D1.
    pose proof (Rpower_pos (1 - a) (1 - a)) as D2.
    set (P := Rpower x a * Rpower (1 - x) (1 - a)) in *.
    set (D := Rpower a a * Rpower (1 - a) (1 - a)) in *.
    assert (HP : 0 < P) by (unfold P; nra).
    assert (HD : 0 < D + eps) by (unfold D; nra).
    eexists. split; [reflexivity |]. split.
    + left. now apply Rdiv_lt_0_compat.
    + apply Rmult_lt_reg_r with (D + eps); [assumption |].
      unfold Rdiv. rewrite Rmult_assoc, Rinv_l by lra. lra.
  - subst x. rewrite beta_distribution_at_1. exists 0. split; [reflexivity | lra].
  - rewrite beta_distribution_at_0. exists 0. split; [reflexivity | lra].
  - rewrite beta_distribution_at_0. exists 0. split; [reflexivity | lra].
Qed.

Lemma beta_distribution_extended_unit x alpha kappa :
  0 < kappa -> 0 <= x <= 1 ->
  exists v, beta_distribution_extended x alpha kappa = Fin v /\ 0 <= v < 1.
Proof.
  intros Hk [[Hx0 | <-] [Hx1 | Hx1]].
  - unfold beta_distribution_extended.
    set (a := clip alpha eps (1 - eps)).
    pose proof (clip_alpha_range alpha) as Ha. fold a in Ha.
    pose proof eps_pos as He. assert (eps < 1) by (unfold eps; lra).
    pose proof (weighted_power_max a x ltac:(lra) ltac:(lra)) as Hmax.
    pose proof (Rpower_pos x a) as P1.
    pose proof (Rpower_pos (1 - x) (1 - a)) as P2.
    pose proof (Rpower_pos a a) as D1.
    pose proof (Rpower_pos (1 - a) (1 - a)) as D2.
    cbn [np_power]. rewrite !pow_finite_pos by lra.
    cbn [fmul fadd np_power]. rewrite pow_finite_pos by nra.
    cbn [fdiv].
    set (D := Rpower a a * Rpower (1 - a) (1 - a) + eps) in *.
    assert (HD : 0 < D) by (unfold D; nra).
    pose proof (Rpower_pos D kappa) as HDk.
    rewrite Reqb_false by lra.
    replace (kappa * a) with (a * kappa) by ring.
    replace (kappa * (1 - a)) with ((1 - a) * kappa) by ring.
    rewrite <- !Rpower_mult.
    rewrite Rpower_mult_distr by assumption.
    set (P := Rpower x a * Rpower (1 - x) (1 - a)) in *.
    assert (HP : 0 < P) by (unfold P; nra).
    pose proof (Rpower_pos P kappa) as HPk.
    assert (Hlt : Rpower P kappa < Rpower D kappa).
    { apply Rlt_Rpower_l; [assumption |]. unfold D. lra. }
    eexists. split; [reflexivity |]. split.
    + left. now apply Rdiv_lt_0_compat.
    + apply Rmult_lt_reg_r with (Rpower D kappa); [assumption |].
      unfold Rdiv. rewrite Rmult_assoc, Rinv_l by lra. lra.
  - subst x.
    rewrite (proj2 (beta_distribution_extended_ends alpha kappa Hk)).
    exists 0. split; [reflexivity | lra].
  - rewrite (proj1 (beta_distribution_extended_ends alpha kappa Hk)).
    exists 0. split; [reflexivity | lra].
  - rewrite (proj1 (beta_distribution_extended_ends alpha kappa Hk)).
    exists 0. split; [reflexivity | lra].
Qed.

Lemma layer_z_bounds self prm x :
  regular_layer prm -> 0 <= H self -> 0 <= x <= 1 ->
  exists c d,
    layer_z_center self prm x = Fin c /\
    layer_half_thickness prm x = Fin d /\
    z0 self - layer_h_max prm <= c <= z0 self + H self /\
    0 <= d <= layer_t_max prm.
Proof.
  intros (Hh & Ht & Hb & Hk & Htp) HH Hx. unfold kappa_in_range in Hk.
  assert (Hg : exists g, layer_gamma prm x = Fin g /\ 0 <= g < 1).
  { unfold layer_gamma. destruct (mode_is prm "extended").
    - apply beta_distribution_extended_unit; [| assumption].
      specialize (Hk eq_refl). lra.
    - now apply beta_distribution_unit. }
  assert (Htau : exists t, layer_tau prm x = Fin t /\ 0 <= t <= 1).
  { unfold layer_tau. destruct (mode_is prm "tapered").
    - apply tapered_thickness_unit; [assumption | assumption | now apply Htp].
    - now apply thickness_distribution_unit. }
  destruct Hg as (g & Hg & Hgr). destruct Htau as (t & Htau & Htr).
  unfold layer_z_center, layer_half_thickness. rewrite Hg, Htau.
  cbn [fmul fsub fadd fneg].
  eexists _, _. split; [reflexivity |]. split; [reflexivity |].
  split; nra.
Qed.

(** A grid is the image of the list of its index pairs. *)
Lemma flat_map_pairs {A B C} (f : A -> B -> C) (cols : list B)
    (rows : list A) :
  flat_map (fun a => map (f a) cols) rows
  = map (fun p => f (fst p) (snd p))
        (flat_map (fun a => map (pair a) cols) rows).
Proof.
  induction rows as [| a rows IH]; cbn [flat_map map]; [reflexivity |].
  rewrite map_app, map_map, IH. reflexivity.
Qed.

Lemma in_pairs {A B} (cols : list B) (rows : list A) p :
  In p (flat_map (fun a => map (pair a) cols) rows) ->
  In (fst p) rows /\ In (snd p) cols.
Proof.
  intros Hp. apply in_flat_map in Hp. destruct Hp as (a & Ha & Hp).
  apply in_map_iff in Hp. destruct Hp as (b & <- & Hb). now split.
Qed.

Lemma map_rows {T} (Fc Fu Fl : T -> vertex)
    (Q : npfloat * npfloat * R * R -> Prop) (l : list T) :
  (forall p, In p l ->
     exists r, Fc p = center_vertex r /\ Fu p = upper_vertex r /\
               Fl p = lower_vertex r /\ Q r) ->
  exists rs,
    map Fc l = map center_vertex rs /\ map Fu l = map upper_vertex rs /\
    map Fl l = map lower_vertex rs /\ Forall Q rs.
Proof.
  induction l as [| p l IH]; intros Hl.
  - exists []. repeat split. constructor.
  - destruct (Hl p (or_introl eq_refl)) as (r & Hc & Hu & Hlo & Hq).
    destruct IH as (rs & Ec & Eu & El & Hall).
    { intros q Hq'. apply Hl. now right. }
    exists (r :: rs). cbn [map]. rewrite Hc, Hu, Hlo, Ec, Eu, El.
    repeat split. now constructor.
Qed.

Lemma in_enumerate {A} (l : list A) i a :
  In (i, a) (enumerate l) -> In a l.
Proof. unfold enumerate. apply in_combine_r. Qed.

(** The three clouds of a blade of regular layers, index by index. *)
Lemma surface_rows self N h_bound t_bound :
  snd (generate_surface N self) = Ok tt ->
  0 <= H self ->
  Forall (fun prm => regular_layer prm /\ layer_h_max prm <= h_bound /\
                     layer_t_max prm <= t_bound) (layers self) ->
  exists rs,
    rs <> [] /\
    generate_surface N self
    = (with_faces (List.concat (quad_rows N (len (layers self))))
         (set_vertices_center (map center_vertex rs)
            (set_vertices_lower (map lower_vertex rs)
               (set_vertices_upper (map upper_vertex rs) self))), Ok tt) /\
    Forall (fun '(xy, c, d) =>
              z0 self - h_bound <= c <= z0 self + H self /\
              0 <= d <= t_bound) rs.
Proof.
  intros Hret HH Hlayers.
  apply generate_surface_returns in Hret. destruct Hret as [HL HN].
  destruct (generate_surface_ok self N HL HN) as (xi & Hxi & Hlen & Hrun).
  pose proof (linspace_unit N xi Hxi) as Hunit.
  rewrite Forall_forall in Hunit, Hlayers.
  destruct (stacked_as_grids self xi) as (Eu & El & Ec).
  rewrite flat_map_pairs in Eu, El, Ec. cbv beta in Eu, El, Ec.
  set (pairs := flat_map (fun a => map (pair a) xi)
                         (enumerate (layers self))) in *.
  destruct (map_rows
              (fun p : Z * Layer * R =>
                 (layer_xy self (snd (fst p)) (fst (fst p)) (snd p),
                  layer_z_center self (snd (fst p)) (snd p)))
              (fun p : Z * Layer * R =>
                 (layer_xy self (snd (fst p)) (fst (fst p)) (snd p),
                  (layer_z_center self (snd (fst p)) (snd p)
                   + layer_half_thickness (snd (fst p)) (snd p))%npf))
              (fun p : Z * Layer * R =>
                 (layer_xy self (snd (fst p)) (fst (fst p)) (snd p),
                  (layer_z_center self (snd (fst p)) (snd p)
                   - layer_half_thickness (snd (fst p)) (snd p))%npf))
              (fun '(xy, c, d) =>
                 z0 self - h_bound <= c <= z0 self + H self /\
                 0 <= d <= t_bound)
              pairs) as (rs & Rc & Ru & Rl & Hall).
  { intros [[i prm] x] Hp. apply in_pairs in Hp. cbn [fst snd] in *.
    destruct Hp as [Hprm Hx]. apply in_enumerate in Hprm.
    destruct (Hlayers prm Hprm) as (Hreg & Hhb & Htb).
    destruct (layer_z_bounds self prm x Hreg HH (Hunit x Hx))
      as (c & d & -> & -> & Hc & Hd).
    exists (layer_xy self prm i x, c, d).
    cbn [center_vertex upper_vertex lower_vertex fadd fsub fneg].
    repeat split; lra. }
  unfold vertex in Rc, Ru, Rl.
  exists rs. split.
  { intros ->. rewrite Ru in Eu.
    pose proof (stacked_lengths self xi) as (Hlu & _).
    rewrite Eu, Hlen in Hlu. cbn [map List.length] in Hlu.
    unfold len in HL. nia. }
  split; [| exact Hall].
  rewrite Hrun. unfold with_vertices. rewrite Eu, El, Ec, Ru, Rl, Rc.
  reflexivity.
Qed.

(** X23.  The extent of a generated blade.  For a blade with [H >= 0]
    whose layers are regular (in the extended mode [kappa] lies between
    0.01 and 100, where the envelope does not underflow), with
    [h_max <= h_bound] and [t_max <= t_bound], the three clouds of a returning [generate_surface]
    are, index by index, a camber point at a finite height [c] with
    [z0 - h_bound <= c <= z0 + H], the upper point at [c + d] and the lower
    point at [c - d] over the same position in the plane, with
    [0 <= d <= t_bound].  So the upper surface is nowhere below the lower
    one, and no height is [nan] or infinite. *)
Theorem surface_within_slab (self : Blade3D) (N : Z) (h_bound t_bound : R) :
  snd (generate_surface N self) = Ok tt ->
  0 <= H self ->
  Forall (fun prm => regular_layer prm /\ layer_h_max prm <= h_bound /\
                     layer_t_max prm <= t_bound) (layers self) ->
  let self' := fst (generate_surface N self) in
  exists rs,
    vertices_center self' = Some (map center_vertex rs) /\
    vertices_upper self' = Some (map upper_vertex rs) /\
    vertices_lower self' = Some (map lower_vertex rs) /\
    Forall (fun '(xy, c, d) =>
              z0 self - h_bound <= c <= z0 self + H self /\
              0 <= d <= t_bound) rs.
Proof.
  intros Hret HH Hlayers. cbv zeta.
  destruct (surface_rows self N h_bound t_bound Hret HH Hlayers)
    as (rs & _ & -> & Hall).
  exists rs. repeat split. exact Hall.
Qed.

Lemma demo_blade_regular :
  Forall (fun prm => regular_layer prm /\ layer_h_max prm <= 1 /\
                     layer_t_max prm <= 1 / 10) (layers demo_blade).
Proof.
  assert (Hflat : regular_layer flat_layer /\ layer_h_max flat_layer <= 1 /\
                  layer_t_max flat_layer <= 1 / 10).
  { unfold regular_layer, kappa_in_range. cbn.
    repeat split; try lra; discriminate. }
  cbn [layers demo_blade Blade3D_init].
  constructor; [exact Hflat |]. constructor; [exact Hflat |]. constructor.
Qed.

Lemma generate_surface_demo_300 :
  snd (generate_surface 300 demo_blade) = Ok tt.
Proof.
  destruct (generate_surface_ok demo_blade 300) as (xi & _ & _ & ->);
    [cbn; lia | lia | reflexivity].
Qed.

Lemma surface_within_slab_witness :
  exists rs,
    vertices_upper (fst (generate_surface 300 demo_blade))
    = Some (map upper_vertex rs) /\
    Forall (fun '(xy, c, d) => 0 - 1 <= c <= 0 + 1 /\ 0 <= d <= 1 / 10) rs.
Proof.
  destruct (surface_within_slab demo_blade 300 1 (1 / 10)
              generate_surface_demo_300 ltac:(cbn; lra) demo_blade_regular)
    as (rs & _ & Hu & _ & Hall).
  exists rs. split; [exact Hu | exact Hall].
Defined.

Lemma map_vertex_z_upper rs :
  map vertex_z (map upper_vertex rs)
  = map Fin (map (fun '(xy, c, d) => c + d) rs).
Proof.
  rewrite !map_map. apply map_ext. now intros [[xy c] d].
Qed.

Lemma map_vertex_z_lower rs :
  map vertex_z (map lower_vertex rs)
  = map Fin (map (fun '(xy, c, d) => c - d) rs).
Proof.
  rewrite !map_map. apply map_ext. now intros [[xy c] d].
Qed.

Section Fit.

Context {pv : PyVista}.

(** The assembly of a freshly generated blade of regular layers on a hub
    that is tall enough, once the blade mesh is obtained. *)
Lemma assemble_regular_blade self N h_bound t_bound n_blades radius height
    z_base as_solid mesh :
  snd (generate_surface N self) = Ok tt ->
  z_coords self = None ->
  0 <= H self ->
  Forall (fun prm => regular_layer prm /\ layer_h_max prm <= h_bound /\
                     layer_t_max prm <= t_bound) (layers self) ->
  H self + h_bound + 2 * t_bound <= height ->
  snd (blade_mesh_of as_solid (fst (generate_surface N self)))
  = Ok (inl mesh) ->
  exists z_shift,
    snd (assemble_blades_on_cylinder n_blades radius height z_base as_solid
           (fst (generate_surface N self)))
    = Ok (concatenate
            (hub_cylinder radius height z_base
             :: map (fun i =>
                       apply_transform
                         (apply_translation (copy mesh)
                            (Fin 0, Fin 0, Fin z_shift))
                         (2 * PI * IZR i / IZR n_blades) (0, 0, 1))
                  (range n_blades))).
Proof.
  intros Hret Hz HH Hlayers Hheight.
  pose proof (generate_surface_returns self N Hret) as [HL HN].
  destruct (surface_rows self N h_bound t_bound Hret HH Hlayers)
    as (rs & Hne & -> & Hall).
  cbn [fst].
  set (self' := with_faces _ _).
  intros Hbm.
  assert (Hmesh : blade_mesh_of as_solid self' = (self', Ok (inl mesh))).
  { pose proof (blade_mesh_of_state self' as_solid (map upper_vertex rs)
                  eq_refl) as Hst.
    destruct (blade_mesh_of as_solid self') as [s o].
    cbn [fst snd] in *. now subst. }
  rewrite (assemble_run self' n_blades radius height z_base as_solid
             (map upper_vertex rs) (map lower_vertex rs) _
             eq_refl eq_refl Hmesh).
  cbn [snd]. unfold z_coords_after.
  replace (z_coords self') with (@None (list npfloat)) by (cbn; now rewrite Hz).
  rewrite map_vertex_z_upper, map_vertex_z_lower, <- map_app.
  set (zs := map _ rs ++ map _ rs).
  assert (Hzs : zs <> []).
  { unfold zs. destruct rs; [congruence | discriminate]. }
  assert (Hin : forall z, In z zs ->
            z0 self - h_bound - t_bound <= z <= z0 self + H self + t_bound).
  { intros z Hin. unfold zs in Hin. rewrite Forall_forall in Hall.
    apply in_app_or in Hin.
    destruct Hin as [Hin | Hin]; apply in_map_iff in Hin;
      destruct Hin as ([[xy c] d] & <- & Hr);
      specialize (Hall _ Hr); cbn in Hall; lra. }
  destruct (finite_extrema_attained zs Hzs)
    as (lo & hi & Hmax & Hmin & Hlo & Hhi & _).
  unfold span_verdict. rewrite Hmax, Hmin.
  specialize (Hin lo Hlo) as Blo. specialize (Hin hi Hhi) as Bhi.
  cbv zeta. unfold fsub. cbn [fneg fadd fltb]. rewrite fdiv_2.
  cbn [fadd fneg]. rewrite Rltb_false by lra.
  cbn [blade_copies]. eexists. reflexivity.
Qed.

(** X24.  A hub section of height at least [H + h_bound + 2 t_bound]
    takes every freshly generated blade of regular layers.  Whenever the
    blade mesh is obtained as a [trimesh] (the library calls that build it
    return), the span [ValueError] is not raised:
    [assemble_blades_on_cylinder] returns the concatenation of the hub
    cylinder and the [n_blades] shifted and rotated copies. *)
Theorem assemble_accepts_regular_blade (self : Blade3D) (N n_blades : Z)
    (h_bound t_bound radius height z_base : R) (as_solid : bool)
    (mesh : Mesh) :
  snd (generate_surface N self) = Ok tt ->
  z_coords self = None ->
  0 <= H self ->
  Forall (fun prm => regular_layer prm /\ layer_h_max prm <= h_bound /\
                     layer_t_max prm <= t_bound) (layers self) ->
  H self + h_bound + 2 * t_bound <= height ->
  snd (blade_mesh_of as_solid (fst (generate_surface N self)))
  = Ok (inl mesh) ->
  exists z_shift,
    snd (assemble_blades_on_cylinder n_blades radius height z_base as_solid
           (fst (generate_surface N self)))
    = Ok (concatenate
            (hub_cylinder radius height z_base
             :: map (fun i =>
                       apply_transform
                         (apply_translation (copy mesh)
                            (Fin 0, Fin 0, Fin z_shift))
                         (2 * PI * IZR i / IZR n_blades) (0, 0, 1))
                  (range n_blades))).
Proof. apply assemble_regular_blade. Qed.

(** In the model the solid of a generated blade is always obtained. *)
Lemma generated_solid_obtained self N :
  snd (generate_surface N self) = Ok tt ->
  exists mesh,
    snd (blade_mesh_of true (fst (generate_surface N self)))
    = Ok (inl mesh).
Proof.
  intros Hret.
  pose proof (generate_surface_returns self N Hret) as [HL HN].
  destruct (generate_surface_ok self N HL HN) as (xi & _ & _ & ->).
  cbn [fst]. set (self' := with_faces _ _).
  assert (Hlay : layers self' <> []).
  { cbn. unfold len in HL. destruct (layers self); [cbn in HL; lia |].
    discriminate. }
  destruct (blade_mesh_of_solid self' _ _ eq_refl eq_refl Hlay)
    as (mesh & ->).
  exists mesh. reflexivity.
Qed.

End Fit.

Lemma assemble_accepts_regular_blade_witness :
  exists mesh result,
    snd (blade_mesh_of true (fst (generate_surface 300 demo_blade)))
    = Ok (inl mesh) /\
    snd (assemble_blades_on_cylinder 6 1 (5 / 2) 0 true
           (fst (generate_surface 300 demo_blade))) = Ok result.
Proof.
  destruct (generated_solid_obtained demo_blade 300 generate_surface_demo_300)
    as (mesh & Hmesh).
  destruct (assemble_accepts_regular_blade demo_blade 300 6 1 (1 / 10) 1
              (5 / 2) 0 true mesh generate_surface_demo_300 eq_refl
              ltac:(cbn; lra) demo_blade_regular ltac:(cbn; lra) Hmesh)
    as (z_shift & Hres).
  exists mesh. eexists. split; [exact Hmesh | exact Hres].
Defined.

(** ** The pump *)

Lemma generate_surface_keeps_hub_radius N self :
  hub_radius (fst (generate_surface N self)) = hub_radius self.
Proof.
  rewrite generate_surface_run.
  destruct (linspace 0 1 N) as [xi | e]; [| reflexivity].
  destruct (layers self); [reflexivity |].
  destruct (quad_rows _ _); reflexivity.
Qed.

Lemma isclose_spec a b atol :
  isclose a b atol = true <->
  Rabs (a - b) <= atol + 1 / 100000 * Rabs b.
Proof.
  unfold isclose, Rleb. destruct (Rle_dec _ _); split; try easy.
Qed.

Section PumpFacts.

Context {pv : PyVista}.
Variable load_metadata : string -> outcome Blade3D.

Local Open Scope string_scope.

Lemma load_blade_returns file blade :
  load_blade load_metadata file = Returns blade ->
  exists blade0,
    load_metadata file = Ok blade0 /\
    generate_surface 300 blade0 = (blade, Ok tt) /\
    (2 <= len (layers blade0))%Z /\
    hub_radius blade = hub_radius blade0.
Proof.
  unfold load_blade.
  destruct (load_metadata file) as [blade0 | e]; [| discriminate].
  cbn [called pbind].
  destruct (generate_surface 300 blade0) as [b gen] eqn:Egen.
  destruct gen as [[] | e]; [| discriminate].
  cbn [called pbind]. intros [= <-].
  exists blade0. split; [reflexivity |]. split; [exact Egen |].
  split.
  - apply (generate_surface_returns blade0 300). now rewrite Egen.
  - pose proof (generate_surface_keeps_hub_radius 300 blade0) as Hh.
    now rewrite Egen in Hh.
Qed.

(** What a returning call of [assemble_pump] went through. *)
Lemma assemble_pump_inv rotor_blade_file vane_blade_file rotor_height
    vane_height n_rotor_blades n_vane_blades outlet_shaft_radius
    outlet_shaft_length inlet_shape outlet_shape as_solid parts :
  assemble_pump load_metadata rotor_blade_file vane_blade_file rotor_height
    vane_height n_rotor_blades n_vane_blades outlet_shaft_radius
    outlet_shaft_length inlet_shape outlet_shape as_solid = Returns parts ->
  exists rotor_blade rotor_span inlet rotor vane current_z outlet_diffuser,
    let hub := hub_radius rotor_blade in
    load_blade load_metadata rotor_blade_file = Returns rotor_blade /\
    surface_span rotor_blade = Ok rotor_span /\
    fltb (Fin rotor_height) rotor_span = false /\
    create_diffuser inlet_shape hub hub hub (- hub) "bottom" = Ok inlet /\
    snd (assemble_blades_on_cylinder n_rotor_blades hub rotor_height 0
           as_solid rotor_blade) = Ok rotor /\
    ((vane_blade_file = None /\ vane = None /\ current_z = rotor_height) \/
     (exists file vane_blade vane_span vane_mesh,
        vane_blade_file = Some file /\
        load_blade load_metadata file = Returns vane_blade /\
        isclose (hub_radius vane_blade) hub (1 / 1000000) = true /\
        surface_span vane_blade = Ok vane_span /\
        fltb (Fin vane_height) vane_span = false /\
        snd (assemble_blades_on_cylinder n_vane_blades hub vane_height
               rotor_height as_solid vane_blade) = Ok vane_mesh /\
        vane = Some vane_mesh /\
        current_z = rotor_height + vane_height)) /\
    ~ hub < outlet_shaft_radius /\
    create_diffuser outlet_shape hub outlet_shaft_radius hub current_z "top"
    = Ok outlet_diffuser /\
    let outlet :=
      merged [part outlet_diffuser;
              translated
                (default_cylinder outlet_shaft_radius outlet_shaft_length)
                (Fin 0, Fin 0, Fin (current_z + outlet_shaft_length / 2))] in
    let others :=
      ([("inlet", part inlet); ("rotor", part rotor); ("outlet", outlet)]
       ++ match vane with
          | Some vane_mesh => [("vane", part vane_mesh)]
          | None => []
          end)%list in
    parts = (others ++ [("assembly", merged (map snd others))])%list.
Proof.
  unfold assemble_pump.
  destruct (load_blade load_metadata rotor_blade_file) as [rb | e] eqn:Eload;
    [| discriminate].
  cbn [pbind]. cbv zeta.
  destruct (surface_span rb) as [rotor_span | e] eqn:Erspan;
    [| discriminate].
  cbn [called pbind].
  destruct (fltb (Fin rotor_height) rotor_span) eqn:Espan; [discriminate |].
  destruct (create_diffuser inlet_shape _ _ _ _ "bottom")
    as [inlet | e] eqn:Einlet; [| discriminate].
  cbn [called pbind].
  destruct (snd (assemble_blades_on_cylinder n_rotor_blades _ _ _ _ rb))
    as [rotor | e] eqn:Erotor; [| discriminate].
  cbn [called pbind].
  destruct vane_blade_file as [file |].
  - destruct (load_blade load_metadata file) as [vb | e] eqn:Evane;
      [| discriminate].
    cbn [pbind].
    destruct (isclose (hub_radius vb) (hub_radius rb) (1 / 1000000))
      eqn:Eclose; [| discriminate].
    cbn [negb].
    destruct (surface_span vb) as [vane_span | e] eqn:Evspan;
      [| discriminate].
    cbn [called pbind].
    destruct (fltb (Fin vane_height) vane_span) eqn:Evcheck; [discriminate |].
    destruct (snd (assemble_blades_on_cylinder n_vane_blades _ _ _ _ vb))
      as [vane | e] eqn:Evmesh; [| discriminate].
    cbn [called pbind]. unfold Rltb.
    destruct (Rlt_dec (hub_radius rb) outlet_shaft_radius) as [Hlt | Hge];
      [discriminate |].
    destruct (create_diffuser outlet_shape _ _ _ _ "top")
      as [outlet_diffuser | e] eqn:Eoutlet; [| discriminate].
    cbn [called pbind]. intros [= <-].
    exists rb, rotor_span, inlet, rotor, (Some vane),
      (rotor_height + vane_height), outlet_diffuser.
    repeat (split; [first [reflexivity | assumption] |]).
    split.
    { right. exists file, vb, vane_span, vane. repeat split; assumption. }
    repeat (split; [first [reflexivity | assumption] |]).
    reflexivity.
  - cbn [pbind]. unfold Rltb.
    destruct (Rlt_dec (hub_radius rb) outlet_shaft_radius) as [Hlt | Hge];
      [discriminate |].
    destruct (create_diffuser outlet_shape _ _ _ _ "top")
      as [outlet_diffuser | e] eqn:Eoutlet; [| discriminate].
    cbn [called pbind]. intros [= <-].
    exists rb, rotor_span, inlet, rotor, None, rotor_height, outlet_diffuser.
    repeat (split; [first [reflexivity | assumption] |]).
    split; [left; repeat split |].
    repeat (split; [first [reflexivity | assumption] |]).
    reflexivity.
Qed.

(** X25.  [assemble_pump] returns only after every check has passed: the
    rotor blade was loaded and has at least two layers, the outlet shaft
    radius does not exceed the rotor's hub radius, both diffuser shapes are
    ["hemisphere"] or ["paraboloid"], and a vane blade, when one is given,
    was loaded, has at least two layers and a hub radius within
    [1e-6 + 1e-5 * |hub_radius|] of the rotor's. *)
Theorem assemble_pump_returns_only_valid (rotor_blade_file : string)
    (vane_blade_file : option string) (rotor_height vane_height : R)
    (n_rotor_blades n_vane_blades : Z)
    (outlet_shaft_radius outlet_shaft_length : R)
    (inlet_shape outlet_shape : string) (as_solid : bool)
    (parts : list (string * PumpMesh)) :
  assemble_pump load_metadata rotor_blade_file vane_blade_file rotor_height
    vane_height n_rotor_blades n_vane_blades outlet_shaft_radius
    outlet_shaft_length inlet_shape outlet_shape as_solid = Returns parts ->
  exists rotor_blade,
    load_metadata rotor_blade_file = Ok rotor_blade /\
    (2 <= len (layers rotor_blade))%Z /\
    outlet_shaft_radius <= hub_radius rotor_blade /\
    (inlet_shape = "hemisphere" \/ inlet_shape = "paraboloid") /\
    (outlet_shape = "hemisphere" \/ outlet_shape = "paraboloid") /\
    (forall file, vane_blade_file = Some file ->
     exists vane_blade,
       load_metadata file = Ok vane_blade /\
       (2 <= len (layers vane_blade))%Z /\
       Rabs (hub_radius vane_blade - hub_radius rotor_blade)
       <= 1 / 1000000 + 1 / 100000 * Rabs (hub_radius rotor_blade)).
Proof.
  intros Hret. apply assemble_pump_inv in Hret.
  destruct Hret as (rb & rotor_span & inlet & rotor & vane & current_z
                    & outlet_diffuser & Hload & _ & _ & Einlet & _ & Hvane
                    & Hshaft & Eoutlet & _).
  apply load_blade_returns in Hload.
  destruct Hload as (rb0 & Hload & _ & Hlayers & Hhub).
  rewrite Hhub in *.
  exists rb0. split; [exact Hload |]. split; [exact Hlayers |].
  split; [lra |].
  split.
  { destruct (create_diffuser_value _ _ _ _ _ _ _ Einlet)
      as [(Hs & _) | (Hs & _)]; [left | right]; exact Hs. }
  split.
  { destruct (create_diffuser_value _ _ _ _ _ _ _ Eoutlet)
      as [(Hs & _) | (Hs & _)]; [left | right]; exact Hs. }
  intros file Hfile.
  destruct Hvane as [(Hnone & _) | (file' & vb & vane_span & vane_mesh
                                    & Hsome & Hvload & Hclose & _)];
    [congruence |].
  rewrite Hfile in Hsome. injection Hsome as <-.
  apply load_blade_returns in Hvload.
  destruct Hvload as (vb0 & Hvload & _ & Hvlayers & Hvhub).
  apply isclose_spec in Hclose. rewrite Hvhub in Hclose.
  exists vb0. repeat split; assumption.
Qed.

(** X26.  The dictionary [assemble_pump] returns.  Its keys are, in
    insertion order, ["inlet"], ["rotor"], ["outlet"], then ["vane"] when
    a vane file was given, then ["assembly"]; the assembly is the
    concatenation of all the other parts in that order, so the vane comes
    after the outlet; and the outlet is the outlet diffuser concatenated
    with the shaft cylinder, whose centre is half the shaft length above
    the top of the rotor, or of the vane when there is one. *)
Theorem assemble_pump_parts (rotor_blade_file : string)
    (vane_blade_file : option string) (rotor_height vane_height : R)
    (n_rotor_blades n_vane_blades : Z)
    (outlet_shaft_radius outlet_shaft_length : R)
    (inlet_shape outlet_shape : string) (as_solid : bool)
    (parts : list (string * PumpMesh)) :
  assemble_pump load_metadata rotor_blade_file vane_blade_file rotor_height
    vane_height n_rotor_blades n_vane_blades outlet_shaft_radius
    outlet_shaft_length inlet_shape outlet_shape as_solid = Returns parts ->
  exists others outlet_diffuser,
    parts = (others ++ [("assembly", merged (map snd others))])%list /\
    map fst others
    = (["inlet"; "rotor"; "outlet"]
       ++ match vane_blade_file with Some _ => ["vane"] | None => [] end)%list /\
    let top :=
      match vane_blade_file with
      | Some _ => rotor_height + vane_height
      | None => rotor_height
      end in
    nth_error others 2
    = Some ("outlet",
            merged [part outlet_diffuser;
                    translated
                      (default_cylinder outlet_shaft_radius
                         outlet_shaft_length)
                      (Fin 0, Fin 0, Fin (top + outlet_shaft_length / 2))]).
Proof.
  intros Hret. apply assemble_pump_inv in Hret.
  destruct Hret as (rb & rotor_span & inlet & rotor & vane & current_z
                    & outlet_diffuser & _ & _ & _ & _ & _ & Hvane
                    & _ & _ & Hparts).
  cbv zeta in Hparts.
  eexists _, outlet_diffuser. split; [exact Hparts |].
  destruct Hvane as [(-> & -> & ->) | (file & vb & vane_span & vane_mesh
                                       & -> & _ & _ & _ & _ & _ & -> & ->)];
    split; reflexivity.
Qed.

Lemma create_diffuser_returns shape radius_base radius_top height z_base
    position :
  shape = "hemisphere" \/ shape = "paraboloid" ->
  position = "bottom" \/ position = "top" ->
  exists mesh,
    create_diffuser shape radius_base radius_top height z_base position
    = Ok mesh.
Proof.
  intros [-> | ->] [-> | ->].
  - destruct (create_diffuser_hemisphere_bottom radius_base radius_top height
                z_base) as (? & ? & _ & _ & _ & ->). eexists. reflexivity.
  - destruct (create_diffuser_hemisphere_top radius_base radius_top height
                z_base) as (? & ? & _ & _ & _ & ->). eexists. reflexivity.
  - destruct (create_diffuser_paraboloid_bottom radius_base radius_top height
                z_base) as (? & ? & _ & _ & _ & ->). eexists. reflexivity.
  - destruct (create_diffuser_paraboloid_top radius_base radius_top height
                z_base) as (? & ? & _ & _ & _ & ->). eexists. reflexivity.
Qed.

(** A blade that fits its section passes the pump's own span check and,
    once its blade mesh is obtained, the assembler's. *)
Lemma load_blade_fits file blade0 height :
  load_metadata file = Ok blade0 -> fits_section blade0 height ->
  exists span,
    let blade := fst (generate_surface 300 blade0) in
    load_blade load_metadata file = Returns blade /\
    hub_radius blade = hub_radius blade0 /\
    surface_span blade = Ok span /\
    fltb (Fin height) span = false /\
    forall as_solid mesh n_blades radius z_base,
    snd (blade_mesh_of as_solid blade) = Ok (inl mesh) ->
    exists result,
      snd (assemble_blades_on_cylinder n_blades radius height z_base
             as_solid blade) = Ok result.
Proof.
  intros Hload (HL & Hz & HH & h_bound & t_bound & Hlayers & Hheight).
  destruct (generate_surface_ok blade0 300 HL ltac:(lia))
    as (xi & _ & _ & Hrun).
  assert (Hret : snd (generate_surface 300 blade0) = Ok tt)
    by (now rewrite Hrun).
  destruct (surface_rows blade0 300 h_bound t_bound Hret HH Hlayers)
    as (rs & Hne & Hrows & Hall).
  cbv zeta.
  set (blade := fst (generate_surface 300 blade0)).
  assert (Hgen : generate_surface 300 blade0 = (blade, Ok tt)).
  { unfold blade. rewrite Hrun. reflexivity. }
  assert (Hu : vertices_upper blade = Some (map upper_vertex rs))
    by (unfold blade; now rewrite Hrows).
  assert (Hl : vertices_lower blade = Some (map lower_vertex rs))
    by (unfold blade; now rewrite Hrows).
  assert (Hus : map (fun '(xy, c, d) => c + d) rs <> [])
    by (destruct rs; [congruence | discriminate]).
  assert (Hls : map (fun '(xy, c, d) => c - d) rs <> [])
    by (destruct rs; [congruence | discriminate]).
  destruct (finite_extrema_attained _ Hus) as (? & hi & Hmax & _ & _ & Hhi & _).
  destruct (finite_extrema_attained _ Hls) as (lo & ? & _ & Hmin & Hlo & _).
  rewrite Forall_forall in Hall.
  apply in_map_iff in Hhi. destruct Hhi as ([[xy1 c1] d1] & <- & Hr1).
  apply in_map_iff in Hlo. destruct Hlo as ([[xy2 c2] d2] & <- & Hr2).
  pose proof (Hall _ Hr1) as B1. pose proof (Hall _ Hr2) as B2.
  cbn in B1, B2.
  exists (Fin (c1 + d1) - Fin (c2 - d2))%npf.
  split.
  { unfold load_blade. rewrite Hload. cbn [called pbind].
    rewrite Hgen. reflexivity. }
  split; [apply generate_surface_keeps_hub_radius |].
  split.
  { unfold surface_span. rewrite Hu, Hl.
    rewrite map_vertex_z_upper, map_vertex_z_lower, Hmax, Hmin.
    reflexivity. }
  split.
  { cbn [fsub fadd fneg fltb]. apply Rltb_false. lra. }
  intros as_solid mesh n_blades radius z_base Hmesh.
  destruct (assemble_regular_blade blade0 300 h_bound t_bound n_blades radius
              height z_base as_solid mesh Hret Hz HH Hlayers Hheight Hmesh)
    as (z_shift & Hres).
  eexists. exact Hres.
Qed.

(** The pump on blades that fit their sections. *)
Lemma pump_returns_when_fit rotor_blade_file vane_blade_file rotor_height
    vane_height n_rotor_blades n_vane_blades outlet_shaft_radius
    outlet_shaft_length inlet_shape outlet_shape as_solid rotor_blade :
  load_metadata rotor_blade_file = Ok rotor_blade ->
  fits_section rotor_blade rotor_height ->
  (exists mesh,
     snd (blade_mesh_of as_solid (fst (generate_surface 300 rotor_blade)))
     = Ok (inl mesh)) ->
  0 < hub_radius rotor_blade -> 0 < rotor_height ->
  0 < outlet_shaft_radius <= hub_radius rotor_blade ->
  0 < outlet_shaft_length ->
  inlet_shape = "hemisphere" \/ inlet_shape = "paraboloid" ->
  outlet_shape = "hemisphere" \/ outlet_shape = "paraboloid" ->
  (forall file, vane_blade_file = Some file ->
   exists vane_blade,
     load_metadata file = Ok vane_blade /\
     fits_section vane_blade vane_height /\
     (exists mesh,
        snd (blade_mesh_of as_solid (fst (generate_surface 300 vane_blade)))
        = Ok (inl mesh)) /\
     0 < vane_height /\
     Rabs (hub_radius vane_blade - hub_radius rotor_blade)
     <= 1 / 1000000 + 1 / 100000 * Rabs (hub_radius rotor_blade)) ->
  exists parts,
    assemble_pump load_metadata rotor_blade_file vane_blade_file rotor_height
      vane_height n_rotor_blades n_vane_blades outlet_shaft_radius
      outlet_shaft_length inlet_shape outlet_shape as_solid = Returns parts.
Proof.
  intros Hload Hfits (rmesh & Hrmesh) _ _ Hshaft _ Hinlet Houtlet Hvane.
  destruct (load_blade_fits _ _ _ Hload Hfits)
    as (span & Hrb & Hhub & Hspan & Hcheck & Hrotor).
  cbv zeta in Hrb, Hhub, Hspan, Hrotor.
  set (rb := fst (generate_surface 300 rotor_blade)) in *.
  unfold assemble_pump. rewrite Hrb. cbn [pbind]. cbv zeta.
  rewrite Hspan. cbn [called pbind]. rewrite Hcheck.
  destruct (create_diffuser_returns inlet_shape (hub_radius rb)
              (hub_radius rb) (hub_radius rb) (- hub_radius rb) "bottom"
              Hinlet (or_introl eq_refl)) as (inlet & ->).
  cbn [called pbind].
  destruct (Hrotor as_solid rmesh n_rotor_blades (hub_radius rb) 0 Hrmesh)
    as (rotor & ->).
  cbn [called pbind].
  assert (Hlt : Rltb (hub_radius rb) outlet_shaft_radius = false)
    by (apply Rltb_false; rewrite Hhub; lra).
  destruct vane_blade_file as [file |].
  - destruct (Hvane file eq_refl)
      as (vb0 & Hvload & Hvfits & (vmesh & Hvm) & _ & Hclose).
    destruct (load_blade_fits _ _ _ Hvload Hvfits)
      as (vspan & Hvb & Hvhub & Hvspan & Hvcheck & Hvmesh).
    cbv zeta in Hvb, Hvhub, Hvspan, Hvmesh.
    set (vb := fst (generate_surface 300 vb0)) in *.
    rewrite Hvb. cbn [pbind].
    rewrite (proj2 (isclose_spec _ _ _))
      by (rewrite Hvhub, Hhub; exact Hclose).
    cbn [negb]. rewrite Hvspan. cbn [called pbind]. rewrite Hvcheck.
    destruct (Hvmesh as_solid vmesh n_vane_blades (hub_radius rb)
                rotor_height Hvm) as (vane & ->).
    cbn [called pbind]. rewrite Hlt.
    destruct (create_diffuser_returns outlet_shape (hub_radius rb)
                outlet_shaft_radius (hub_radius rb)
                (rotor_height + vane_height) "top"
                Houtlet (or_intror eq_refl)) as (od & ->).
    cbn [called pbind]. eexists. reflexivity.
  - cbn [pbind]. rewrite Hlt.
    destruct (create_diffuser_returns outlet_shape (hub_radius rb)
                outlet_shaft_radius (hub_radius rb) rotor_height "top"
                Houtlet (or_intror eq_refl)) as (od & ->).
    cbn [called pbind]. eexists. reflexivity.
Qed.

(** X27.  [assemble_pump] returns whenever: the rotor blade (and the vane
    blade, when one is given) loads and fits its section; the library
    calls that build its blade mesh return a [trimesh]; the hub radius,
    the section heights and the shaft's radius and length are positive;
    both diffuser shapes are known; the outlet shaft radius does not
    exceed the hub radius; and the vane's hub radius is within numpy's
    tolerance of the rotor's.  None of the pump's own checks fires then,
    and none of the assembler's or the diffuser's. *)
Theorem assemble_pump_returns (rotor_blade_file : string)
    (vane_blade_file : option string) (rotor_height vane_height : R)
    (n_rotor_blades n_vane_blades : Z)
    (outlet_shaft_radius outlet_shaft_length : R)
    (inlet_shape outlet_shape : string) (as_solid : bool)
    (rotor_blade : Blade3D) :
  load_metadata rotor_blade_file = Ok rotor_blade ->
  fits_section rotor_blade rotor_height ->
  (exists mesh,
     snd (blade_mesh_of as_solid (fst (generate_surface 300 rotor_blade)))
     = Ok (inl mesh)) ->
  0 < hub_radius rotor_blade -> 0 < rotor_height ->
  0 < outlet_shaft_radius <= hub_radius rotor_blade ->
  0 < outlet_shaft_length ->
  inlet_shape = "hemisphere" \/ inlet_shape = "paraboloid" ->
  outlet_shape = "hemisphere" \/ outlet_shape = "paraboloid" ->
  (forall file, vane_blade_file = Some file ->
   exists vane_blade,
     load_metadata file = Ok vane_blade /\
     fits_section vane_blade vane_height /\
     (exists mesh,
        snd (blade_mesh_of as_solid (fst (generate_surface 300 vane_blade)))
        = Ok (inl mesh)) /\
     0 < vane_height /\
     Rabs (hub_radius vane_blade - hub_radius rotor_blade)
     <= 1 / 1000000 + 1 / 100000 * Rabs (hub_radius rotor_blade)) ->
  exists parts,
    assemble_pump load_metadata rotor_blade_file vane_blade_file rotor_height
      vane_height n_rotor_blades n_vane_blades outlet_shaft_radius
      outlet_shaft_length inlet_shape outlet_shape as_solid = Returns parts.
Proof. apply pump_returns_when_fit. Qed.

End PumpFacts.

(** ** A run of the pump on the example blade *)

Lemma demo_blade_fits : fits_section demo_blade (5 / 2).
Proof.
  unfold fits_section. split; [cbn; lia |]. split; [reflexivity |].
  split; [cbn; lra |].
  exists 1, (1 / 10). split; [exact demo_blade_regular | cbn; lra].
Qed.

Lemma demo_pump_returns :
  exists parts,
    assemble_pump demo_loader "rotor.json" (Some "vane.json"%string)
      (5 / 2) (5 / 2) 6 10 (1 / 2) 3 "hemisphere" "paraboloid" true
    = Returns parts.
Proof.
  pose proof (generated_solid_obtained demo_blade 300
                generate_surface_demo_300) as Hsolid.
  apply (pump_returns_when_fit demo_loader _ _ _ _ _ _ _ _ _ _ _ demo_blade).
  - reflexivity.
  - exact demo_blade_fits.
  - exact Hsolid.
  - cbn. lra.
  - lra.
  - cbn. lra.
  - lra.
  - now left.
  - now right.
  - intros file _. exists demo_blade.
    split; [reflexivity |]. split; [exact demo_blade_fits |].
    split; [exact Hsolid |]. split; [lra |].
    cbn. rewrite Rminus_diag, Rabs_R0, Rabs_R1. lra.
Qed.

Lemma assemble_pump_returns_only_valid_witness :
  exists rotor_blade,
    demo_loader "rotor.json" = Ok rotor_blade /\
    (2 <= len (layers rotor_blade))%Z /\
    1 / 2 <= hub_radius rotor_blade.
Proof.
  destruct demo_pump_returns as (parts & Hret).
  destruct (assemble_pump_returns_only_valid demo_loader _ _ _ _ _ _ _ _ _ _
              _ _ Hret) as (rb & Hload & Hlayers & Hshaft & _).
  exists rb. repeat split; assumption.
Defined.

Lemma assemble_pump_parts_witness :
  exists parts others,
    assemble_pump demo_loader "rotor.json" (Some "vane.json"%string)
      (5 / 2) (5 / 2) 6 10 (1 / 2) 3 "hemisphere" "paraboloid" true
    = Returns parts /\
    parts = (others ++ [("assembly"%string, merged (map snd others))])%list /\
    map fst others = ["inlet"; "rotor"; "outlet"; "vane"]%string.
Proof.
  destruct demo_pump_returns as (parts & Hret).
  destruct (assemble_pump_parts demo_loader _ _ _ _ _ _ _ _ _ _ _ _ Hret)
    as (others & od & Hparts & Hkeys & _).
  exists parts, others. repeat split; assumption.
Defined.

Lemma assemble_pump_returns_witness :
  exists parts,
    assemble_pump demo_loader "rotor.json" None (5 / 2) 0 6 0 (1 / 2) 3
      "paraboloid" "hemisphere" true
    = Returns parts.
Proof.
  apply (assemble_pump_returns demo_loader _ _ _ _ _ _ _ _ _ _ _ demo_blade).
  - reflexivity.
  - exact demo_blade_fits.
  - exact (generated_solid_obtained demo_blade 300 generate_surface_demo_300).
  - cbn. lra.
  - lra.
  - cbn. lra.
  - lra.
  - now right.
  - now left.
  - intros file Hfile. discriminate Hfile.
Defined.
